(** * Compy AI backend: the request pipeline of the chat route

    A shallow embedding of the chat routes (rate-limit admission, search-tool
    argument translation, the Typesense round trip) and of
    [src/lib/utils/parse-search-results.js], with the properties the
    specification states about them.

    Conventions of the embedding.
    - A JavaScript string is a Rocq [string]; one [ascii] stands for one code
      unit, so the model covers text in the Latin-1 range.
    - A JavaScript number is a [Z]: the integer-valued numbers of the safe
      range, on which [Number::toString] is the decimal numeral and the only
      falsy value is [0].
    - [undefined] is [None]; a value of type [unknown] is a [Json].
    - A thrown exception is the [Throw] branch of [Res]. *)

From Stdlib Require Import ZArith List Lia.
From Stdlib Require Import Strings.String Strings.Ascii Numbers.DecimalString.
From stdpp Require Import base option list strings gmap.

Local Open Scope Z_scope.
Local Set Warnings "-clear-no-such-hyp".

(** ** JavaScript runtime primitives used by the routes *)

Module JS.

#[warnings="-register-all"]
Inductive Json : Type :=
| JNull
| JBool (b : bool)
| JNum (n : Z)
| JStr (s : string)
| JArr (items : list Json)
| JObj (props : list (string * Json)).

(** A value read from a property that may be missing. *)
Definition Value : Type := option Json.

Inductive JsError : Type :=
| TypeError_fetch_failed      (* fetch() rejects: network failure *)
| SyntaxError_invalid_json    (* response.json() on a body that is not JSON *)
| TypeError_undefined_map     (* data.hits.map with data.hits undefined *)
| TypeError_destructure_null  (* const { messages } = null *)
| ZodError                    (* parameters.parse rejects the tool arguments *)
| TypeError_property_of_null  (* reading a property of null *)
| TypeError_to_primitive      (* ToString of an object that has no usable toString *)
| Rejected_promise.           (* an awaited promise of a service was rejected *)

Inductive Res (A : Type) : Type :=
| Ok (a : A)
| Throw (e : JsError).
Arguments Ok {A} a.
Arguments Throw {A} e.

Definition nl : string := String (ascii_of_nat 10) EmptyString.
Definition dquote : string := String (ascii_of_nat 34) EmptyString.

(** [Number::toString] on an integer. *)
Definition Z_to_string (n : Z) : string :=
  NilEmpty.string_of_int (Z.to_int n).

(** [Array.prototype.join] on an array of strings. *)
Definition join (sep : string) (parts : list string) : string :=
  String.concat sep parts.

(** The text [ToString] gives, as applied by a template literal, when it
    returns. An array is its elements joined by a comma, [null] elements as
    the empty string; a plain object is the fixed tag. The conversion
    throws on an object with an own [toString] property: [JS2.ToString]
    below is the conversion with that exception, and returns this text
    whenever it returns. *)
Fixpoint toString (v : Json) : string :=
  match v with
  | JNull => "null"
  | JBool true => "true"
  | JBool false => "false"
  | JNum n => Z_to_string n
  | JStr s => s
  | JArr items =>
      join "," (List.map (fun x => match x with
                                   | JNull => EmptyString
                                   | _ => toString x
                                   end) items)
  | JObj _ => "[object Object]"
  end.

Definition toStringV (v : Value) : string :=
  match v with
  | None => "undefined"
  | Some j => toString j
  end.

(** [v !== s] for a string literal [s]: strict inequality never coerces. *)
Definition strict_neq_str (v : Value) (s : string) : bool :=
  match v with
  | Some (JStr t) => negb (String.eqb t s)
  | _ => true
  end.

(** [String.prototype.startsWith]. *)
Definition startsWith (s p : string) : bool := String.prefix p s.

(** [s.substring(n)]: the suffix from position [n]. *)
Fixpoint substring_from (n : nat) (s : string) : string :=
  match n, s with
  | O, _ => s
  | S n', String _ s' => substring_from n' s'
  | S _, EmptyString => EmptyString
  end.

(** Truthiness of a string and of a number. *)
Definition truthy_str (s : string) : bool :=
  match s with
  | EmptyString => false
  | String _ _ => true
  end.

Definition truthy_num (n : Z) : bool := negb (n =? 0).

(** A text occurs somewhere in another. *)
Definition occurs_in (x s : string) : Prop :=
  exists before after : string, s = before +:+ x +:+ after.

(** The value filed under a name in a list of named values: the first. *)
Fixpoint assoc {A : Type} (name : string) (pairs : list (string * A)) : option A :=
  match pairs with
  | [] => None
  | (k, v) :: rest => if String.eqb k name then Some v else assoc name rest
  end.

(** [JSON.stringify]: the compact serialisation. *)
Definition hex_digit (n : nat) : ascii :=
  ascii_of_nat (if Nat.ltb n 10 then 48 + n else 87 + n).

Definition escape_char (c : ascii) : string :=
  let n := nat_of_ascii c in
  if Nat.eqb n 34 then String "\" dquote
  else if Nat.eqb n 92 then "\\"
  else if Nat.eqb n 8 then "\b"
  else if Nat.eqb n 9 then "\t"
  else if Nat.eqb n 10 then "\n"
  else if Nat.eqb n 12 then "\f"
  else if Nat.eqb n 13 then "\r"
  else if Nat.ltb n 32 then
    "\u00" +:+ String (hex_digit (Nat.div n 16))
                 (String (hex_digit (Nat.modulo n 16)) EmptyString)
  else String c EmptyString.

Fixpoint escape (s : string) : string :=
  match s with
  | EmptyString => EmptyString
  | String c s' => escape_char c +:+ escape s'
  end.

Definition quote (s : string) : string := dquote +:+ escape s +:+ dquote.

Fixpoint stringify (v : Json) : string :=
  match v with
  | JNull => "null"
  | JBool true => "true"
  | JBool false => "false"
  | JNum n => Z_to_string n
  | JStr s => quote s
  | JArr items => "[" +:+ join "," (List.map stringify items) +:+ "]"
  | JObj props =>
      "{" +:+ join "," (List.map (fun kv => quote (fst kv) +:+ ":" +:+ stringify (snd kv))
                                 props) +:+ "}"
  end.

End JS.

Import JS.

(** ** The search response, as the repository declares it

    [interface ProductSearchResults] of the compression script under
    [cook/]: the shape [compressProductData] is written against. The index
    signature [[key: string]: unknown] of a document is [attrs], in the
    order the keys were created. *)

Module SearchResults.

Record Document : Type := {
  active : bool;
  bestprice : Z;
  brand : string;
  title : string;
  repmodel : string;
  topstore : option string;
  stores : option (list string);
  images : option (list string);
  url_compy : option string;
  url : string;
  attrs : list (string * Json)
}.

Record Highlight : Type := {
  field : string;
  matched_tokens : list string;
  snippet : string
}.

Record Hit : Type := {
  document : Document;
  highlights : option (list Highlight);
  text_match : Z;
  text_match_info : option (list (string * Json))
}.

Record RequestParams : Type := {
  collection_name : string;
  per_page : Z;
  q : string
}.

Record ProductSearchResults : Type := {
  facet_counts : list Json;
  found : Z;
  hits : list Hit;
  request_params : RequestParams;
  page : Z;
  out_of : Z;
  search_time_ms : Z
}.

(** The object a record stands for, own properties in declaration order; an
    optional property that is absent is no property at all. *)
Definition opt_prop {A : Type} (k : string) (f : A -> Json) (o : option A)
  : list (string * Json) :=
  match o with
  | Some a => [(k, f a)]
  | None => []
  end.

Definition strings_json (l : list string) : Json := JArr (List.map JStr l).

Definition declared_props (d : Document) : list (string * Json) :=
  [("active", JBool (active d)); ("bestprice", JNum (bestprice d));
   ("brand", JStr (brand d)); ("title", JStr (title d));
   ("repmodel", JStr (repmodel d))]
  ++ opt_prop "topstore" JStr (topstore d)
  ++ opt_prop "stores" strings_json (stores d)
  ++ opt_prop "images" strings_json (images d)
  ++ opt_prop "url_compy" JStr (url_compy d)
  ++ [("url", JStr (url d))].

Definition document_props (d : Document) : list (string * Json) :=
  declared_props d ++ attrs d.

Definition highlight_json (h : Highlight) : Json :=
  JObj [("field", JStr (field h));
        ("matched_tokens", strings_json (matched_tokens h));
        ("snippet", JStr (snippet h))].

Definition hit_json (h : Hit) : Json :=
  JObj ([("document", JObj (document_props (document h)))]
        ++ opt_prop "highlights" (fun l => JArr (List.map highlight_json l)) (highlights h)
        ++ [("text_match", JNum (text_match h))]
        ++ opt_prop "text_match_info" JObj (text_match_info h)).

Definition request_params_json (r : RequestParams) : Json :=
  JObj [("collection_name", JStr (collection_name r));
        ("per_page", JNum (per_page r));
        ("q", JStr (q r))].

Definition to_json (data : ProductSearchResults) : Json :=
  JObj [("facet_counts", JArr (facet_counts data));
        ("found", JNum (found data));
        ("hits", JArr (List.map hit_json (hits data)));
        ("request_params", request_params_json (request_params data));
        ("page", JNum (page data));
        ("out_of", JNum (out_of data));
        ("search_time_ms", JNum (search_time_ms data))].

(** The serialised size of a response: the length of its compact JSON text. *)
Definition serialized_size (data : ProductSearchResults) : nat :=
  String.length (stringify (to_json data)).

(** [Object.keys(doc)] and [doc[key]]. JavaScript lists integer-like keys
    first; every other key keeps its creation order, so the keys that pass a
    filter on the prefix [f.] come out of [Object_keys] in the same order. *)
Definition Object_keys (d : Document) : list string :=
  List.map fst (document_props d).

Definition doc_get (d : Document) (key : string) : Value :=
  assoc key (document_props d).

End SearchResults.

Import SearchResults.

(** ** [src/lib/utils/parse-search-results.js] *)

Module ParseSearchResults.

Record Product : Type := {
  p_title : string;
  p_brand : string;
  p_model : string;
  p_price : Z;
  p_features : string;
  p_image : string;
  p_stores : string;
  p_url : string
}.

Record Summary : Type := {
  total_found : Z;
  results_count : nat;
  search_query : string;
  s_page : Z
}.

(** [Object.keys(doc).filter(...).map(...).join(', ')] *)
Definition is_feature (doc : Document) (key : string) : bool :=
  startsWith key "f." && strict_neq_str (doc_get doc key) "NO ESPECIFICA".

Definition render_feature (doc : Document) (key : string) : string :=
  substring_from 2 key +:+ ": " +:+ toStringV (doc_get doc key).

Definition features (doc : Document) : string :=
  join ", " (List.map (render_feature doc) (List.filter (is_feature doc) (Object_keys doc))).

(** [doc.images && doc.images.length > 0 ? doc.images[0] : ''] *)
Definition firstImage (doc : Document) : string :=
  match images doc with
  | Some (img :: _) => img
  | _ => EmptyString
  end.

(** [doc.stores ? doc.stores.join(', ') : (doc.topstore || '')]: an array is
    truthy even when empty. *)
Definition storesList (doc : Document) : string :=
  match stores doc with
  | Some l => join ", " l
  | None =>
      match topstore doc with
      | Some s => if truthy_str s then s else EmptyString
      | None => EmptyString
      end
  end.

(** [doc.url_compy || doc.url] *)
Definition product_url (doc : Document) : string :=
  match url_compy doc with
  | Some s => if truthy_str s then s else url doc
  | None => url doc
  end.

Definition product_of_hit (hit : Hit) : Product :=
  let doc := document hit in
  {| p_title := title doc;
     p_brand := brand doc;
     p_model := repmodel doc;
     p_price := bestprice doc;
     p_features := features doc;
     p_image := firstImage doc;
     p_stores := storesList doc;
     p_url := product_url doc |}.

Definition imageCell (product : Product) : string :=
  if truthy_str (p_image product)
  then "![Image](" +:+ p_image product +:+ ")"
  else EmptyString.

Definition row (product : Product) : string :=
  "| " +:+ p_title product +:+ " | " +:+ p_brand product +:+ " | "
  +:+ p_model product +:+ " | " +:+ Z_to_string (p_price product) +:+ " | "
  +:+ p_features product +:+ " | " +:+ imageCell product +:+ " | "
  +:+ p_stores product +:+ " |" +:+ nl.

Definition header (summary : Summary) : string :=
  ("## Product Search Results" +:+ nl)
  +:+ ("*Query: " +:+ dquote +:+ search_query summary +:+ dquote +:+ " - Found: "
       +:+ Z_to_string (total_found summary) +:+ " (Page "
       +:+ Z_to_string (s_page summary) +:+ ")*" +:+ nl +:+ nl)
  +:+ ("| Title | Brand | Model | Price | Features | Image | Stores |" +:+ nl)
  +:+ ("|-------|-------|-------|-------|----------|-------|--------|" +:+ nl).

(** The [for ... of] loop: [output += row] for each product in turn. *)
Definition formatAsMarkdown (products : list Product) (summary : Summary) : string :=
  List.fold_left (fun output product => output +:+ row product) products (header summary).

Definition compressProductData (data : ProductSearchResults) : string :=
  let products := List.map product_of_hit (hits data) in
  let summary :=
    {| total_found := found data;
       results_count := List.length products;
       search_query := q (request_params data);
       s_page := page data |} in
  formatAsMarkdown products summary.

End ParseSearchResults.

Import ParseSearchResults.

(** ** More of the JavaScript runtime: truthiness of a value, the order of
    the own keys of an object, [split] and [trim], and the conversion to a
    string with its exception *)

Module JS2.

Definition truthy (v : Json) : bool :=
  match v with
  | JNull => false
  | JBool b => b
  | JNum n => truthy_num n
  | JStr s => truthy_str s
  | JArr _ => true
  | JObj _ => true
  end.

Definition truthy_value (v : Value) : bool :=
  match v with
  | Some j => truthy j
  | None => false
  end.

(** [typeof v === "object"] *)
Definition typeof_object (v : Value) : bool :=
  match v with
  | Some JNull => true
  | Some (JArr _) => true
  | Some (JObj _) => true
  | _ => false
  end.

(** Reading a property whose name is no built-in of strings, numbers or
    arrays, off a value that is neither [null] nor [undefined]. *)
Definition property (v : Json) (name : string) : Value :=
  match v with
  | JObj props => assoc name props
  | _ => None
  end.

(** [metadata?.name] *)
Definition optional_property (o : option (list (string * Json))) (name : string) : Value :=
  match o with
  | Some props => assoc name props
  | None => None
  end.

(** An array index: the canonical numeral of an integer from 0 to 2^32 - 2. *)
Definition digit_value (c : ascii) : option N :=
  let n := N_of_ascii c in
  if N.leb 48 n && N.leb n 57 then Some (n - 48)%N else None.

Fixpoint decimal_value (s : string) (acc : N) : option N :=
  match s with
  | EmptyString => Some acc
  | String c s' =>
      match digit_value c with
      | Some d => decimal_value s' (10 * acc + d)%N
      | None => None
      end
  end.

Definition array_index (key : string) : option N :=
  match key with
  | EmptyString => None
  | String c rest =>
      if Ascii.eqb c "0" then
        match rest with
        | EmptyString => Some 0%N
        | String _ _ => None
        end
      else
        match decimal_value key 0 with
        | Some n => if N.leb n 4294967294 then Some n else None
        | None => None
        end
  end.

Definition is_index_entry (entry : string * Json) : bool :=
  match array_index (fst entry) with
  | Some _ => true
  | None => false
  end.

Definition entry_index (entry : string * Json) : N :=
  match array_index (fst entry) with
  | Some n => n
  | None => 0%N
  end.

Fixpoint insert_by_index (entry : string * Json) (sorted : list (string * Json))
  : list (string * Json) :=
  match sorted with
  | [] => [entry]
  | e :: rest =>
      if N.leb (entry_index entry) (entry_index e)
      then entry :: e :: rest
      else e :: insert_by_index entry rest
  end.

(** [Object.entries(o)]: the properties named by an array index first, in
    ascending order of the index, then the others in the order they were
    created. *)
Definition Object_entries (props : list (string * Json)) : list (string * Json) :=
  List.fold_right insert_by_index [] (List.filter is_index_entry props)
  ++ List.filter (fun entry => negb (is_index_entry entry)) props.

(** [s.split(sep)] for a separator of one character. *)
Fixpoint split (sep : ascii) (s : string) : list string :=
  match s with
  | EmptyString => [EmptyString]
  | String c s' =>
      if Ascii.eqb c sep then EmptyString :: split sep s'
      else
        match split sep s' with
        | [] => [String c EmptyString]
        | piece :: pieces => String c piece :: pieces
        end
  end.

(** White space and line terminators in the range of the model. *)
Definition is_space (c : ascii) : bool :=
  let n := nat_of_ascii c in
  (Nat.leb 9 n && Nat.leb n 13) || Nat.eqb n 32 || Nat.eqb n 160.

Fixpoint trimStart (s : string) : string :=
  match s with
  | EmptyString => EmptyString
  | String c s' => if is_space c then trimStart s' else s
  end.

Fixpoint trimEnd (s : string) : string :=
  match s with
  | EmptyString => EmptyString
  | String c s' =>
      match trimEnd s' with
      | EmptyString => if is_space c then EmptyString else String c EmptyString
      | rest => String c rest
      end
  end.

Definition trim (s : string) : string := trimEnd (trimStart s).

Fixpoint has_char (c : ascii) (s : string) : bool :=
  match s with
  | EmptyString => false
  | String c' s' => Ascii.eqb c' c || has_char c s'
  end.

(** A text of white space only. *)
Fixpoint all_space (s : string) : bool :=
  match s with
  | EmptyString => true
  | String c s' => is_space c && all_space s'
  end.

(** Evaluation in sequence: an exception ends it. *)
Definition bind {A B : Type} (c : Res A) (k : A -> Res B) : Res B :=
  match c with
  | Ok a => k a
  | Throw e => Throw e
  end.

(** [items.map(f)] and the like: the callback runs on each item in turn,
    and the first exception ends the call. *)
Definition Array_map {A B : Type} (f : A -> Res B) : list A -> Res (list B) :=
  fix go (items : list A) : Res (list B) :=
    match items with
    | [] => Ok []
    | x :: rest => bind (f x) (fun y => bind (go rest) (fun ys => Ok (y :: ys)))
    end.

(** An object has an own property of that name. *)
Definition has_own (name : string) (props : list (string * Json)) : bool :=
  match assoc name props with
  | Some _ => true
  | None => false
  end.

(** [ToString], as applied by a template literal, with its exception. An
    array is converted by [Array.prototype.join]: its elements converted in
    turn and joined by a comma, [null] elements as the empty string. An
    object is converted by its [toString] method: [Object.prototype.toString]
    gives the fixed tag; an own [toString] property, which in a value from
    JSON is no function, hides it, [valueOf] (inherited, it gives back the
    object itself; own, it is no function either) yields no primitive, and
    the conversion throws. *)
Fixpoint ToString (v : Json) : Res string :=
  match v with
  | JNull => Ok "null"
  | JBool true => Ok "true"
  | JBool false => Ok "false"
  | JNum n => Ok (Z_to_string n)
  | JStr s => Ok s
  | JArr items =>
      bind (Array_map (fun x => match x with
                                | JNull => Ok EmptyString
                                | _ => ToString x
                                end) items)
           (fun parts => Ok (join "," parts))
  | JObj props =>
      if has_own "toString" props then Throw TypeError_to_primitive
      else Ok "[object Object]"
  end.

Definition ToStringV (v : Value) : Res string :=
  match v with
  | None => Ok "undefined"
  | Some j => ToString j
  end.

(** The values that hold no object with an own [toString] property, be it
    the value itself or an element of an array, at any depth of arrays. *)
Fixpoint convertible (v : Json) : bool :=
  match v with
  | JArr items => forallb convertible items
  | JObj props => negb (has_own "toString" props)
  | _ => true
  end.

Definition convertible_value (v : Value) : bool :=
  match v with
  | Some j => convertible j
  | None => true
  end.

End JS2.

(** ** [compressProductData] as a call that can throw

    The value of an attribute of a document is of type [unknown], and the
    template literal that prints a feature (line 15 of
    [src/lib/utils/parse-search-results.js]) converts it to a string, which
    can throw. [ParseSearchResults] above has the table the function
    returns; this is the call, which returns that table or throws. *)

Module CompressCall.

Definition render_feature (doc : Document) (key : string) : Res string :=
  JS2.bind (JS2.ToStringV (doc_get doc key)) (fun value =>
  Ok (substring_from 2 key +:+ ": " +:+ value)).

Definition features (doc : Document) : Res string :=
  JS2.bind (JS2.Array_map (render_feature doc)
              (List.filter (is_feature doc) (Object_keys doc)))
           (fun parts => Ok (join ", " parts)).

Definition product_of_hit (hit : Hit) : Res Product :=
  let doc := document hit in
  JS2.bind (features doc) (fun features =>
  Ok {| p_title := title doc;
        p_brand := brand doc;
        p_model := repmodel doc;
        p_price := bestprice doc;
        p_features := features;
        p_image := firstImage doc;
        p_stores := storesList doc;
        p_url := product_url doc |}).

Definition compressProductData (data : ProductSearchResults) : Res string :=
  JS2.bind (JS2.Array_map product_of_hit (hits data)) (fun products =>
  let summary :=
    {| total_found := found data;
       results_count := List.length products;
       search_query := q (request_params data);
       s_page := page data |} in
  Ok (formatAsMarkdown products summary)).

End CompressCall.

(** ** The rate limiter behind [ratelimit.limit] *)

Module Ratelimit.

(** What [ratelimit.limit(identifier)] resolves to, as the route
    destructures it. *)
Record RatelimitResponse : Type := {
  success : bool;
  limit : Z;
  remaining : Z;
  reset : Z
}.

Record Limiter : Type := {
  tokens : Z;
  window : Z
}.

(** [Ratelimit.slidingWindow(tokens, window)], the window in milliseconds. *)
Definition slidingWindow (tokens window : Z) : Limiter :=
  {| tokens := tokens; window := window |}.

(** The admissions of a log that still lie in the window ending at [now]. *)
Definition live (w now : Z) (log : list Z) : list Z :=
  List.filter (fun t => now - w <? t) log.

(** The time the oldest admission of a log leaves the window. *)
Definition reset_at (w now : Z) (log : list Z) : Z := List.last log now + w.

(** Modelled from the spec: the limiter is the [@upstash/ratelimit] package,
    of which the repository holds the configuration and the call only. Per
    section 4.1 and the glossary it is a sliding window: the quota applies
    to the trailing interval of fixed width ending at [now], per client
    identity; entries expire when the window elapses; the answer carries
    the quota, the remaining count and the time the window resets. The
    store maps an identity to the times of its admitted requests, newest
    first. *)
Definition slidingWindow_limit (l : Limiter) (identifier : string) (now : Z)
    (store : gmap string (list Z)) : gmap string (list Z) * RatelimitResponse :=
  let log := live (window l) now (default [] (store !! identifier)) in
  let allowed := Z.of_nat (List.length log) <? tokens l in
  let log' := if allowed then now :: log else log in
  (<[identifier := log']> store,
   {| success := allowed;
      limit := tokens l;
      remaining := Z.max 0 (tokens l - Z.of_nat (List.length log'));
      reset := reset_at (window l) now log' |}).

(** A sequence of calls, each with its time and identity; the answers in
    the order of the calls. *)
Fixpoint run (l : Limiter) (calls : list (Z * string)) (store : gmap string (list Z))
  : gmap string (list Z) * list RatelimitResponse :=
  match calls with
  | [] => (store, [])
  | (now, identifier) :: rest =>
      let '(store', r) := slidingWindow_limit l identifier now store in
      let '(store'', rs) := run l rest store' in
      (store'', r :: rs)
  end.

(** The times at which [identifier] was admitted, newest first. *)
Fixpoint admitted (identifier : string) (calls : list (Z * string))
    (answers : list RatelimitResponse) : list Z :=
  match calls, answers with
  | (now, i) :: calls', r :: answers' =>
      let earlier := admitted identifier calls' answers' in
      earlier ++ (if String.eqb i identifier && success r then [now] else [])
  | _, _ => []
  end.

(** The calls come in the order of their times. *)
Fixpoint chronological (from : Z) (calls : list (Z * string)) : Prop :=
  match calls with
  | [] => True
  | (now, _) :: rest => from <= now /\ chronological now rest
  end.

(** The admissions that fall in the window of width [w] ending at [T]. *)
Definition in_window (w T : Z) (t : Z) : bool := (T - w <? t) && (t <=? T).

Definition admitted_in_window (w T : Z) (times : list Z) : nat :=
  List.length (List.filter (in_window w T) times).

(** How the store and the history of admissions of one identity agree after
    the calls up to time [latest]: no admission lies in the future, the log
    kept for the identity has the live admissions of the history, and no
    window holds more admissions than the quota. *)
Record consistent (l : Limiter) (identifier : string) (latest : Z)
    (store : gmap string (list Z)) (history : list Z) : Prop := {
  history_past : Forall (fun t => t <= latest) history;
  log_live : forall now, latest <= now ->
    live (window l) now (default [] (store !! identifier)) = live (window l) now history;
  quota_kept : forall T, Z.of_nat (admitted_in_window (window l) T history) <= tokens l
}.

End Ratelimit.

Import Ratelimit.

(** ** The chat route with result compression ([src/unnamed/part_003]) *)

Module ChatRoute.

(** [new Ratelimit({ limiter: Ratelimit.slidingWindow(20, "1 m"), ... })] *)
Definition one_minute : Z := 60 * 1000.
Definition ratelimit : Limiter := slidingWindow 20 one_minute.

Record Request : Type := {
  req_headers : list (string * string);
  req_json : Res Json
}.

(** [req.headers.get(name)]: [null] when the header is absent. *)
Definition headers_get (headers : list (string * string)) (name : string) : option string :=
  assoc name headers.

(** [a ?? b]: only [null] and [undefined] give way to the default. *)
Definition nullish (a : option string) (b : string) : string :=
  match a with
  | Some s => s
  | None => b
  end.

Definition ip (req : Request) : string :=
  nullish (headers_get (req_headers req) "x-forwarded-for") "anonymous".

Definition userAgent (req : Request) : string :=
  nullish (headers_get (req_headers req) "user-agent") "unknown".

Definition identifier (req : Request) : string :=
  ip req +:+ ":" +:+ userAgent req.

Inductive ResponseBody : Type :=
| JsonBody (payload : Json)          (* JSON.stringify(payload) *)
| DataStream (messages : Value).     (* result.toDataStreamResponse() *)

Record Response : Type := {
  status : Z;
  resp_headers : list (string * string);
  resp_body : ResponseBody
}.

(** What the handler does besides computing its response. *)
Inductive Event : Type :=
| Ev_limit (identifier : string)
| Ev_req_json
| Ev_streamText.

(** [Math.ceil(a / b)] on integers, [b] positive. *)
Definition ceil_div (a b : Z) : Z := - ((- a) / b).

(** [const { messages } = body]: destructuring [null] throws; every other
    JSON value is read as an object, and only an object from JSON can have
    an own [messages]. *)
Definition messages_of (body : Json) : Res Value :=
  match body with
  | JNull => Throw TypeError_destructure_null
  | JObj props => Ok (assoc "messages" props)
  | _ => Ok None
  end.

Section Handler.

Context {Store : Type}.
(** The limiter's [limit] and the runtime's [Date.prototype.toISOString]. *)
Variable ratelimit_limit : string -> Z -> Store -> Store * RatelimitResponse.
Variable toISOString : Z -> string.

Definition too_many_requests (r : RatelimitResponse) (date_now : Z) : Response :=
  {| status := 429;
     resp_headers :=
       [("Content-Type", "application/json");
        ("X-RateLimit-Limit", Z_to_string (limit r));
        ("X-RateLimit-Remaining", Z_to_string (remaining r));
        ("X-RateLimit-Reset", toISOString (reset r))];
     resp_body :=
       JsonBody (JObj
         [("error", JStr "Too many requests");
          ("message", JStr "You've reached the maximum number of requests allowed.");
          ("limit", JNum (limit r));
          ("remaining", JNum (remaining r));
          ("reset", JStr (toISOString (reset r)));
          ("resetSeconds", JNum (ceil_div (reset r - date_now) 1000))]) |}.

(** [POST(req)]. [now] is the time of the limiter call, [date_now] the later
    reading of the clock when the rejection is built. The [pending] promise
    of the limiter, which the handler only passes to [req.waitUntil], has no
    part in the response and is left out. *)
Definition POST (req : Request) (now date_now : Z) (store : Store)
  : Store * list Event * Res Response :=
  let '(store', r) := ratelimit_limit (identifier req) now store in
  if negb (success r) then
    (store', [Ev_limit (identifier req)], Ok (too_many_requests r date_now))
  else
    match req_json req with
    | Throw e => (store', [Ev_limit (identifier req); Ev_req_json], Throw e)
    | Ok body =>
        match messages_of body with
        | Throw e => (store', [Ev_limit (identifier req); Ev_req_json], Throw e)
        | Ok messages =>
            (store', [Ev_limit (identifier req); Ev_req_json; Ev_streamText],
             Ok {| status := 200; resp_headers := []; resp_body := DataStream messages |})
        end
    end.

End Handler.

(** *** The [searchProducts] tool *)

Record Args : Type := {
  query : string;
  priceMax : option Z;
  priceMin : option Z
}.

(** The schema [z.object({ query: z.string(), priceMax:
    z.number().optional(), priceMin: z.number().optional() })]: unknown keys
    are dropped, [null] is not [undefined]. *)
Definition optional_number (v : Value) : Res (option Z) :=
  match v with
  | None => Ok None
  | Some (JNum n) => Ok (Some n)
  | Some _ => Throw ZodError
  end.

Definition parameters_parse (raw : Json) : Res Args :=
  match raw with
  | JObj props =>
      match assoc "query" props with
      | Some (JStr query) =>
          match optional_number (assoc "priceMax" props) with
          | Throw e => Throw e
          | Ok priceMax =>
              match optional_number (assoc "priceMin" props) with
              | Throw e => Throw e
              | Ok priceMin =>
                  Ok {| query := query; priceMax := priceMax; priceMin := priceMin |}
              end
          end
      | _ => Throw ZodError
      end
  | _ => Throw ZodError
  end.

(** [if (bound) queryByItems.push(...)]: the bound is tested for truthiness. *)
Definition price_clause (op : string) (bound : option Z) : list string :=
  match bound with
  | Some n => if truthy_num n then ["bestprice:" +:+ op +:+ Z_to_string n] else []
  | None => []
  end.

Definition queryByItems (args : Args) : list string :=
  price_clause "<" (priceMax args) ++ price_clause ">" (priceMin args).

(** [URLSearchParams.prototype.set]: the first pair of that name takes the
    value and the others go; a new name is appended. *)
Fixpoint searchParams_set (name value : string) (params : list (string * string))
  : list (string * string) :=
  match params with
  | [] => [(name, value)]
  | (k, v) :: rest =>
      if String.eqb k name
      then (k, value) :: List.filter (fun kv => negb (String.eqb (fst kv) name)) rest
      else (k, v) :: searchParams_set name value rest
  end.

(** [URLSearchParams.prototype.get] *)
Definition searchParams_get (params : list (string * string)) (name : string)
  : option string :=
  assoc name params.

(** How many of the optional filters an invocation carries, and how many of
    them are truthy. *)
Definition present {A : Type} (o : option A) : nat :=
  match o with
  | Some _ => 1
  | None => 0
  end.

Definition truthy_bound (o : option Z) : nat :=
  match o with
  | Some n => if truthy_num n then 1 else 0
  | None => 0
  end.

Definition searchParams (args : Args) : list (string * string) :=
  let params :=
    [("q", query args);
     ("query_by", "title_infix,combined_text");
     ("query_by_weights", "3,2");
     ("sort_by", "top:desc,percent_offer:desc");
     ("per_page", "10")] in
  if Nat.ltb 0 (List.length (queryByItems args))
  then searchParams_set "filter_by" (join "&&" (queryByItems args)) params
  else params.

(** The call [fetch(url + "?" + searchParams, requestOptions)]; the query
    string is kept as its list of pairs. *)
Record FetchRequest : Type := {
  f_method : string;
  f_url : string;
  f_search : list (string * string);
  f_headers : list (string * string);
  f_redirect : string
}.

(** What [response.json()] yields: a body that is not JSON makes it throw;
    Typesense answers a failed call with an object holding a [message]. *)
Inductive ResponseJson : Type :=
| NotJson
| SearchData (data : ProductSearchResults)
| ErrorMessage (message : string).

Inductive FetchResult : Type :=
| NetworkFailure
| HttpResponse (status : Z) (body : ResponseJson).

Definition fetch_request (api_key : option string) (args : Args) : FetchRequest :=
  {| f_method := "GET";
     f_url := "https://typesense2.compy.pe/collections/products/documents/search";
     f_search := searchParams args;
     f_headers :=
       [("X-TYPESENSE-API-KEY",
         match api_key with
         | Some k => if truthy_str k then k else EmptyString
         | None => EmptyString
         end)];
     f_redirect := "follow" |}.

(** [execute]: the requests it issued, and what it returned or threw. The
    status of the response is never read. *)
Definition execute (api_key : option string) (fetch : FetchRequest -> FetchResult)
    (args : Args) : list FetchRequest * Res string :=
  let request := fetch_request api_key args in
  match fetch request with
  | NetworkFailure => ([request], Throw TypeError_fetch_failed)
  | HttpResponse _ NotJson => ([request], Throw SyntaxError_invalid_json)
  | HttpResponse _ (ErrorMessage _) => ([request], Throw TypeError_undefined_map)
  | HttpResponse _ (SearchData data) => ([request], CompressCall.compressProductData data)
  end.

(** Modelled from the spec: the step that hands the arguments the model
    sent to the tool runs inside the AI SDK ([tool] and [streamText] of the
    [ai] package); the repository holds the schema and [execute] only. Per
    section 7 malformed arguments are rejected before the backend call is
    issued: the arguments go through the [parameters] schema, a refusal
    ends the invocation with the schema's error, and [execute] runs on what
    the schema accepted. *)
Definition call_tool (api_key : option string) (fetch : FetchRequest -> FetchResult)
    (raw : Json) : list FetchRequest * Res string :=
  match parameters_parse raw with
  | Throw e => ([], Throw e)
  | Ok args => execute api_key fetch args
  end.

End ChatRoute.

(** ** Successive requests to the chat route

    [redis] and [ratelimit] are created once, outside the handler
    ([src/unnamed/part_003], lines 9 to 15): the store one [POST] leaves is
    the store the next [POST] meets. *)

Module Traffic.

(** A request reaching the route: the request, the time of its limiter call
    and the reading of the clock when a rejection is built. *)
Record Arrival : Type := {
  arrival_req : ChatRoute.Request;
  arrival_now : Z;
  arrival_date_now : Z
}.

(** What the handler did for a request, and what it returned or threw. *)
Definition Answer : Type := (list ChatRoute.Event * Res ChatRoute.Response)%type.

Section Serve.

Context {Store : Type}.
Variable ratelimit_limit : string -> Z -> Store -> Store * RatelimitResponse.
Variable toISOString : Z -> string.

(** The requests are handled by [POST] one after the other, each on the
    store its predecessor left; the answers in the order of the requests. *)
Fixpoint serve (arrivals : list Arrival) (store : Store) : Store * list Answer :=
  match arrivals with
  | [] => (store, [])
  | a :: rest =>
      let '(store', events, response) :=
        ChatRoute.POST ratelimit_limit toISOString
          (arrival_req a) (arrival_now a) (arrival_date_now a) store in
      let '(store'', answers) := serve rest store' in
      (store'', (events, response) :: answers)
  end.

End Serve.

(** A request is refused when it is answered with status 429. *)
Definition refused (answer : Answer) : bool :=
  match snd answer with
  | Ok response => ChatRoute.status response =? 429
  | Throw _ => false
  end.

(** The times of the requests of [identifier] that the route did not
    refuse, newest first. *)
Fixpoint served (identifier : string) (arrivals : list Arrival) (answers : list Answer)
  : list Z :=
  match arrivals, answers with
  | a :: arrivals', answer :: answers' =>
      served identifier arrivals' answers'
      ++ (if String.eqb (ChatRoute.identifier (arrival_req a)) identifier
             && negb (refused answer)
          then [arrival_now a] else [])
  | _, _ => []
  end.

(** The requests arrive in the order of their times. *)
Fixpoint in_order (from : Z) (arrivals : list Arrival) : Prop :=
  match arrivals with
  | [] => True
  | a :: rest => from <= arrival_now a /\ in_order (arrival_now a) rest
  end.

(** The limiter calls the requests give rise to. *)
Definition limiter_calls (arrivals : list Arrival) : list (Z * string) :=
  List.map (fun a => (arrival_now a, ChatRoute.identifier (arrival_req a))) arrivals.

End Traffic.

(** ** The chat route with a brand filter ([src/unnamed/part_002], the
    route that queries Typesense and hands the raw response to the model) *)

Module BrandRoute.

Record Args : Type := {
  query : string;
  brand : option string;
  priceMax : option Z
}.

Definition brand_clause (brand : option string) : list string :=
  match brand with
  | Some b => if truthy_str b then ["brand:" +:+ b] else []
  | None => []
  end.

Definition queryByItems (args : Args) : list string :=
  brand_clause (brand args) ++ ChatRoute.price_clause "<" (priceMax args).

Definition truthy_text (o : option string) : nat :=
  match o with
  | Some s => if truthy_str s then 1 else 0
  | None => 0
  end.

Definition searchParams (args : Args) : list (string * string) :=
  let params :=
    [("q", query args);
     ("query_by", "title,repmodel");
     ("sort_by", "top:desc,percent_offer:desc");
     ("per_page", "10")] in
  if Nat.ltb 0 (List.length (queryByItems args))
  then ChatRoute.searchParams_set "filter_by" (join "&&" (queryByItems args)) params
  else params.

End BrandRoute.

(** ** The chat route over the vector index ([src/unnamed/part_002], the
    route that calls [vectorIndex.query]) *)

Module VectorRoute.

Record Args : Type := {
  query : string;
  category : option string;
  brand : option string;
  priceMax : option Z
}.

Definition text_clause (column : string) (value : option string) : list string :=
  match value with
  | Some s => if truthy_str s then [column +:+ " = '" +:+ s +:+ "'"] else []
  | None => []
  end.

(** [if (priceMax && priceMax > 0)] *)
Definition price_clause (priceMax : option Z) : list string :=
  match priceMax with
  | Some n => if truthy_num n && (0 <? n) then ["price <= " +:+ Z_to_string n] else []
  | None => []
  end.

Definition filter (args : Args) : list string :=
  text_clause "category_level1" (category args)
  ++ text_clause "brand" (brand args)
  ++ price_clause (priceMax args).

(** [filter.length > 0 ? filter.join(" AND ") : undefined] *)
Definition filterString (args : Args) : option string :=
  if Nat.ltb 0 (List.length (filter args))
  then Some (join " AND " (filter args))
  else None.

End VectorRoute.

(** ** The tool-call rounds of one conversation turn *)

Module Orchestrator.

(** [useChat({ maxSteps: 3 })] in the chat page ([src/unnamed/part_004]). *)
Definition maxSteps : nat := 3.

Inductive Message : Type :=
| UserMessage (text : string)
| AssistantMessage (text : string)
| ToolOutput (output : string).

(** One model turn: prose alone, or prose with a tool invocation. *)
Inductive ModelOutput : Type :=
| FinalAnswer (text : string)
| ToolInvocation (prose : string) (args : Json).

Inductive Termination : Type :=
| Completed
| BudgetExceeded.

Record Turn : Type := {
  rounds : list Json;       (* the tool calls that were executed, in order *)
  answer : string;          (* the text sent to the caller *)
  termination : Termination
}.

Section Loop.

(** The language model and the search tool, both opaque. *)
Variable model : list Message -> ModelOutput.
Variable tool : Json -> string.

(** Modelled from the spec: the loop between the model and the tool runs
    inside the AI SDK; the repository holds its bound only. Per section 4.5
    a model turn either ends the request with its answer or invokes the
    tool, whose output is fed back into the conversation before the next
    model turn; a round counter bounds the recursion, and an invocation
    beyond the bound is refused, the request ending with the text produced
    so far. [budget] is the number of rounds still allowed. *)
Fixpoint modelTurn (budget : nat) (history : list Message)
    (executed : list Json) (streamed : string) : Turn :=
  match model history with
  | FinalAnswer text =>
      {| rounds := executed; answer := streamed +:+ text; termination := Completed |}
  | ToolInvocation prose args =>
      match budget with
      | O =>
          {| rounds := executed; answer := streamed +:+ prose;
             termination := BudgetExceeded |}
      | S budget' =>
          modelTurn budget'
            (history ++ [AssistantMessage prose; ToolOutput (tool args)])
            (executed ++ [args]) (streamed +:+ prose)
      end
  end.

Definition conversationTurn (history : list Message) : Turn :=
  modelTurn maxSteps history [] EmptyString.

End Loop.

End Orchestrator.

(** ** Concrete inputs used by the examples below *)

Module Samples.

(** The backend's answer to a query that matches nothing. *)
Definition no_hits : ProductSearchResults :=
  {| facet_counts := [];
     found := 0;
     hits := [];
     request_params := {| collection_name := "products"; per_page := 10; q := "tv" |};
     page := 1;
     out_of := 100;
     search_time_ms := 1 |}.

Definition tv_document : Document :=
  {| active := true;
     bestprice := 1299;
     brand := "LG";
     title := "Televisor LG LED 55";
     repmodel := "55UQ8050";
     topstore := Some "Falabella";
     stores := None;
     images := Some ["https://img.compy.pe/1.jpg"; "https://img.compy.pe/2.jpg"];
     url_compy := None;
     url := "https://compy.pe/p/55uq8050";
     attrs := [("f.pantalla", JStr "55"); ("f.color", JStr "NO ESPECIFICA");
               ("f.hdmi", JNum 3)] |}.

Definition tv_hit : Hit :=
  {| document := tv_document; highlights := None; text_match := 0;
     text_match_info := None |}.

Definition one_hit : ProductSearchResults :=
  {| facet_counts := [];
     found := 1;
     hits := [tv_hit];
     request_params := {| collection_name := "products"; per_page := 10; q := "tv" |};
     page := 1;
     out_of := 100;
     search_time_ms := 1 |}.

(** Tool arguments whose lower price bound lies above the upper one. *)
Definition inverted_bounds : Json :=
  JObj [("query", JStr "tv"); ("priceMin", JNum 500); ("priceMax", JNum 100)].

(** Tool arguments of the wrong type. *)
Definition text_for_price : Json :=
  JObj [("query", JStr "tv"); ("priceMax", JStr "cheap")].

Definition tv_args : ChatRoute.Args :=
  {| ChatRoute.query := "tv"; ChatRoute.priceMax := None; ChatRoute.priceMin := None |}.

(** An invocation that carries an upper price bound of zero. *)
Definition zero_max_args : ChatRoute.Args :=
  {| ChatRoute.query := "tv"; ChatRoute.priceMax := Some 0; ChatRoute.priceMin := None |}.

(** An invocation whose upper price bound is zero and whose lower bound is
    not, and one the other way round. *)
Definition zero_max_min_50_args : ChatRoute.Args :=
  {| ChatRoute.query := "tv"; ChatRoute.priceMax := Some 0; ChatRoute.priceMin := Some 50 |}.

Definition max_100_zero_min_args : ChatRoute.Args :=
  {| ChatRoute.query := "tv"; ChatRoute.priceMax := Some 100; ChatRoute.priceMin := Some 0 |}.

(** The arguments [brand = LG, priceMax = 1000] as the model would send them. *)
Definition lg_under_1000 : Json :=
  JObj [("query", JStr "televisor"); ("brand", JStr "LG"); ("priceMax", JNum 1000)].

Definition both_bounds_args : ChatRoute.Args :=
  {| ChatRoute.query := "tv"; ChatRoute.priceMax := Some 1000;
     ChatRoute.priceMin := Some 200 |}.

(** A backend that answers every call with status 503 and an empty result
    page, one that answers 200 with the same page, one that answers 401
    with the error object, and one that cannot be reached. *)
Definition backend_503 (request : ChatRoute.FetchRequest) : ChatRoute.FetchResult :=
  ChatRoute.HttpResponse 503 (ChatRoute.SearchData no_hits).

Definition backend_200 (request : ChatRoute.FetchRequest) : ChatRoute.FetchResult :=
  ChatRoute.HttpResponse 200 (ChatRoute.SearchData no_hits).

Definition backend_401 (request : ChatRoute.FetchRequest) : ChatRoute.FetchResult :=
  ChatRoute.HttpResponse 401 (ChatRoute.ErrorMessage "Forbidden").

Definition backend_down (request : ChatRoute.FetchRequest) : ChatRoute.FetchResult :=
  ChatRoute.NetworkFailure.

(** Twenty calls of one client, a second apart. *)
Definition twenty_calls : list (Z * string) :=
  List.map (fun k => (Z.of_nat k * 1000, "anonymous:unknown")) (List.seq 1 20).

(** Twenty requests of one header-less client, a second apart, and the
    request that follows them. *)
Definition twenty_arrivals : list Traffic.Arrival :=
  List.map (fun k => {| Traffic.arrival_req :=
                          {| ChatRoute.req_headers := [];
                             ChatRoute.req_json := Ok (JObj [("messages", JArr [])]) |};
                        Traffic.arrival_now := Z.of_nat k * 1000;
                        Traffic.arrival_date_now := Z.of_nat k * 1000 + 5 |})
           (List.seq 1 20).

Definition twenty_first_arrival : Traffic.Arrival :=
  {| Traffic.arrival_req :=
       {| ChatRoute.req_headers := [];
          ChatRoute.req_json := Ok (JObj [("messages", JArr [])]) |};
     Traffic.arrival_now := 21000;
     Traffic.arrival_date_now := 21005 |}.

(** Two requests without the two identifying headers, and one with them. *)
Definition bare_request : ChatRoute.Request :=
  {| ChatRoute.req_headers := [];
     ChatRoute.req_json := Ok (JObj [("messages", JArr [])]) |}.

Definition other_bare_request : ChatRoute.Request :=
  {| ChatRoute.req_headers := [("content-type", "application/json")];
     ChatRoute.req_json := Ok (JObj [("messages", JArr [JStr "hola"])]) |}.

Definition browser_request : ChatRoute.Request :=
  {| ChatRoute.req_headers := [("x-forwarded-for", "190.12.0.7"); ("user-agent", "Mozilla/5.0")];
     ChatRoute.req_json := Ok (JObj [("messages", JArr [])]) |}.


Definition searching_model (history : list Orchestrator.Message) : Orchestrator.ModelOutput :=
  Orchestrator.ToolInvocation "Busco. " (JObj [("query", JStr "televisor")]).

Definition table_tool (args : Json) : string := compressProductData no_hits.

End Samples.

(** ** The CORS middleware

    The version that follows [compressProductData] in
    [src/lib/utils/parse-search-results.js], and the later version with
    credentials ([src/unnamed/part_005]). *)

Module Middleware.

Definition allowedOrigins : list string :=
  ["http://localhost:5173"; "https://compy.cueva.io"; "https://dev.compy.pe";
   "https://compy.pe"].

Record NextRequest : Type := {
  method : string;
  headers : list (string * string)
}.

(** What the middleware hands back: a response of its own, or the response
    of the route with the headers the middleware set on it. *)
Inductive NextResponse : Type :=
| Respond (status : Z) (headers : list (string * string))
| Next (headers : list (string * string)).

Definition response_headers (response : NextResponse) : list (string * string) :=
  match response with
  | Respond _ headers => headers
  | Next headers => headers
  end.

(** [request.headers.get("origin") || ""] *)
Definition origin (request : NextRequest) : string :=
  match assoc "origin" (headers request) with
  | Some o => if truthy_str o then o else EmptyString
  | None => EmptyString
  end.

(** [allowedOrigins.includes(origin)] *)
Definition isAllowedOrigin (request : NextRequest) : bool :=
  List.existsb (String.eqb (origin request)) allowedOrigins.

(** [allowedOrigins[0]] *)
Definition first_allowed : string := List.hd EmptyString allowedOrigins.

Definition middleware (request : NextRequest) : NextResponse :=
  if String.eqb (method request) "OPTIONS" then
    Respond 204
      [("Access-Control-Allow-Origin",
        if isAllowedOrigin request then origin request else first_allowed);
       ("Access-Control-Allow-Methods", "GET, POST, PUT, DELETE, OPTIONS");
       ("Access-Control-Allow-Headers", "Content-Type, Authorization");
       ("Access-Control-Max-Age", "86400")]
  else if isAllowedOrigin request then
    Next [("Access-Control-Allow-Origin", origin request)]
  else Next [].

(** The version of [src/unnamed/part_005]. *)
Definition middleware_credentials (request : NextRequest) : NextResponse :=
  if String.eqb (method request) "OPTIONS" then
    Respond 204
      [("Access-Control-Allow-Origin",
        if isAllowedOrigin request then origin request else first_allowed);
       ("Access-Control-Allow-Methods", "GET, POST, PUT, DELETE, OPTIONS");
       ("Access-Control-Allow-Headers", "Content-Type, Authorization, X-Requested-With");
       ("Access-Control-Max-Age", "86400");
       ("Access-Control-Allow-Credentials", "true")]
  else if isAllowedOrigin request then
    Next [("Access-Control-Allow-Origin", origin request);
          ("Access-Control-Allow-Credentials", "true")]
  else Next [].

End Middleware.

(** ** The chat page ([src/unnamed/part_004]) *)

Module ChatPage.

(** The updater [toggleProductDetails] passes to [setExpandedProducts]: a
    copy of the previous set, without the product if it was in, with it
    otherwise. *)
Definition toggleProductDetails (productId : string) (prev : gset string) : gset string :=
  if decide (productId ∈ prev) then prev ∖ {[productId]} else prev ∪ {[productId]}.

(** The label of the toggle button. *)
Definition toggle_label (expandedProducts : gset string) (productId : string) : string :=
  if decide (productId ∈ expandedProducts) then "Hide details" else "Show details".

End ChatPage.

(** ** Populating the vector index ([src/labs/populate.ts], the batched
    upload) *)

Module Populate.

Definition BATCH_SIZE : nat := 500.

(** [array.slice(start, end)] for indices within the safe range. *)
Definition slice {A : Type} (start stop : nat) (l : list A) : list A :=
  List.firstn (stop - start) (List.skipn start l).

(** The loop [for (let i = 0; i < length; i += BATCH_SIZE)]: the batches
    passed to [vectorIndex.upsert], in order. [fuel] bounds the number of
    iterations. *)
Fixpoint batches_from {A : Type} (fuel i : nat) (formattedProducts : list A)
  : list (list A) :=
  match fuel with
  | O => []
  | S fuel' =>
      if Nat.ltb i (List.length formattedProducts)
      then slice i (i + BATCH_SIZE) formattedProducts
           :: batches_from fuel' (i + BATCH_SIZE) formattedProducts
      else []
  end.

Definition batches {A : Type} (formattedProducts : list A) : list (list A) :=
  batches_from (List.length formattedProducts) 0 formattedProducts.

(** [Math.ceil(length / BATCH_SIZE)], the batch total printed by the log. *)
Definition batch_total {A : Type} (formattedProducts : list A) : nat :=
  Nat.div (List.length formattedProducts + (BATCH_SIZE - 1)) BATCH_SIZE.

End Populate.

(** ** The stores of a saved response ([cook/get-unique-stores.ts]) *)

Module UniqueStores.

(** [data.hits.flatMap((hit) => hit.document.stores)], each document
    carrying its list of stores. *)
Definition allStores (hits : list (list string)) : list string :=
  List.concat hits.

(** [[...new Set(allStores)]]: each value once, in the order of its first
    occurrence. *)
Definition Set_add (seen : list string) (value : string) : list string :=
  if List.existsb (String.eqb value) seen then seen else seen ++ [value].

Definition uniqueStores (hits : list (list string)) : list string :=
  List.fold_left Set_add (allStores hits) [].

End UniqueStores.

(** ** The tool of the route over the vector index ([src/unnamed/part_002]):
    [execute] and the two markdown helpers *)

Module VectorSearch.

Definition specs_heading : string :=
  "### Specifications" +:+ nl +:+ nl
  +:+ "| Specification | Value |" +:+ nl
  +:+ "| ------------- | ----- |" +:+ nl.

(** [if (spec.k && spec.v)] and the row [| ${spec.k} | ${spec.v} |\n], for
    an entry that is not [null]. *)
Definition spec_complete (spec : Json) : bool :=
  JS2.truthy_value (JS2.property spec "k") && JS2.truthy_value (JS2.property spec "v").

Definition spec_row (spec : Json) : Res string :=
  JS2.bind (JS2.ToStringV (JS2.property spec "k")) (fun k =>
  JS2.bind (JS2.ToStringV (JS2.property spec "v")) (fun v =>
  Ok ("| " +:+ k +:+ " | " +:+ v +:+ " |" +:+ nl))).

(** The loop over an array of specifications. *)
Fixpoint specs_loop (specs : list Json) (markdown : string) : Res string :=
  match specs with
  | [] => Ok markdown
  | JNull :: _ => Throw TypeError_property_of_null
  | spec :: rest =>
      if spec_complete spec
      then JS2.bind (spec_row spec) (fun row => specs_loop rest (markdown +:+ row))
      else specs_loop rest markdown
  end.

(** [for (const [key, value] of entries) markdown += line(key, value)] *)
Fixpoint append_lines (line : string * Json -> Res string)
    (entries : list (string * Json)) (markdown : string) : Res string :=
  match entries with
  | [] => Ok markdown
  | entry :: rest =>
      JS2.bind (line entry) (fun text => append_lines line rest (markdown +:+ text))
  end.

Definition entry_row (entry : string * Json) : Res string :=
  JS2.bind (JS2.ToString (snd entry)) (fun value =>
  Ok ("| " +:+ fst entry +:+ " | " +:+ value +:+ " |" +:+ nl)).

Definition formatSpecsAsMarkdown (specs : Value) : Res string :=
  if negb (JS2.truthy_value specs) || negb (JS2.typeof_object specs)
  then Ok EmptyString
  else
    match specs with
    | Some (JArr items) => specs_loop items specs_heading
    | Some (JObj props) => append_lines entry_row (JS2.Object_entries props) specs_heading
    | _ => Ok EmptyString
    end.

Definition features_heading : string := "### Key Features" +:+ nl +:+ nl.

Definition feature_line (entry : string * Json) : Res string :=
  JS2.bind (JS2.ToString (snd entry)) (fun value =>
  Ok ("- **" +:+ fst entry +:+ "**: " +:+ value +:+ nl)).

(** The bullet [- ${f}] of an element of an array of features. *)
Definition bullet (f : Json) : Res string :=
  JS2.bind (JS2.ToString f) (fun text => Ok ("- " +:+ text)).

Definition formatFeaturesAsMarkdown (features : Value) : Res string :=
  if negb (JS2.truthy_value features) then Ok EmptyString
  else
    match features with
    | Some (JStr text) =>
        Ok
          (features_heading
           +:+ join nl (List.map (fun f => "- " +:+ JS2.trim f)
                          (List.filter (fun f => truthy_str (JS2.trim f))
                                       (JS2.split "." text))))
    | Some (JArr items) =>
        JS2.bind (JS2.Array_map bullet items) (fun bullets =>
        Ok (features_heading +:+ join nl bullets))
    | Some (JObj props) =>
        append_lines feature_line (JS2.Object_entries props) features_heading
    | _ => Ok features_heading
    end.

(** A match of the index: its id and, when stored, its metadata. *)
Record Match : Type := {
  id : string;
  metadata : option (list (string * Json))
}.

Record IndexQuery : Type := {
  data : string;
  topK : Z;
  filter : option string;
  includeMetadata : bool
}.

(** How [await vectorIndex.query(...)] ends: the promise is rejected, or it
    resolves to the matches. *)
Inductive IndexAnswer : Type :=
| Query_rejected
| Matches (results : list Match).

Record Product : Type := {
  p_id : string;
  p_title : Value;
  p_brand : Value;
  p_model : Value;
  p_price : Value;
  p_category : string;
  p_product_url : Value;
  p_image_url : Value;
  p_color : Value;
  p_capacity : Value;
  p_memory : Value;
  p_screen_size : Value;
  p_weight : Value;
  p_power : Value;
  p_features_markdown : string;
  p_specifications_markdown : string;
  p_view_product_link : string
}.

Record ToolResult : Type := {
  products : list Product;
  query : string;
  total : nat
}.

(** [if (value) list.push(format(value))] *)
Definition push_formatted (format : Value -> Res string) (value : Value)
  : Res (list string) :=
  if JS2.truthy_value value
  then JS2.bind (format value) (fun markdown => Ok [markdown])
  else Ok [].

(** The body of [results.map((match) => ...)]: the two lists are filled
    first, then the fields of the product are evaluated in the order they
    are written. *)
Definition product_of_match (m : Match) : Res Product :=
  let field := JS2.optional_property (metadata m) in
  JS2.bind (push_formatted formatSpecsAsMarkdown (field "specifications")) (fun specs =>
  JS2.bind (push_formatted formatFeaturesAsMarkdown (field "features")) (fun features =>
  JS2.bind (JS2.ToStringV (field "category_level1")) (fun level1 =>
  JS2.bind (JS2.ToStringV (field "category_level2")) (fun level2 =>
  JS2.bind (JS2.ToStringV (field "category_level3")) (fun level3 =>
  JS2.bind (JS2.ToStringV (field "product_url")) (fun link =>
  Ok
    {| p_id := id m;
       p_title := field "title";
       p_brand := field "brand";
       p_model := field "model";
       p_price := field "price";
       p_category := level1 +:+ " > " +:+ level2 +:+ " > " +:+ level3;
       p_product_url := field "product_url";
       p_image_url := field "image_url";
       p_color := field "color";
       p_capacity := field "capacity";
       p_memory := field "memory";
       p_screen_size := field "screen_size";
       p_weight := field "weight";
       p_power := field "power";
       p_features_markdown := join (nl +:+ nl) features;
       p_specifications_markdown := join (nl +:+ nl) specs;
       p_view_product_link := "[View Product](" +:+ link +:+ ")" |})))))).

(** [execute]: the query it sent to the index, and how it ended. *)
Definition execute (vectorIndex_query : IndexQuery -> IndexAnswer) (args : VectorRoute.Args)
  : IndexQuery * Res ToolResult :=
  let index_query :=
    {| data := VectorRoute.query args;
       topK := 5;
       filter := VectorRoute.filterString args;
       includeMetadata := true |} in
  (index_query,
   match vectorIndex_query index_query with
   | Query_rejected => Throw Rejected_promise
   | Matches results =>
       if Nat.eqb (List.length results) 0 then
         Ok {| products := []; query := VectorRoute.query args; total := 0 |}
       else
         JS2.bind (JS2.Array_map product_of_match results) (fun products =>
         Ok {| products := products; query := VectorRoute.query args;
               total := List.length results |})
   end).

End VectorSearch.

(** ** Records with one field replaced, to state what a function reads *)

Module Update.

Definition with_hits (data : ProductSearchResults) (new_hits : list Hit)
  : ProductSearchResults :=
  {| facet_counts := facet_counts data;
     found := found data;
     hits := new_hits;
     request_params := request_params data;
     page := page data;
     out_of := out_of data;
     search_time_ms := search_time_ms data |}.

(** A request with the two identifying headers set. *)
Definition request_from (forwarded_for user_agent : string) : ChatRoute.Request :=
  {| ChatRoute.req_headers :=
       [("x-forwarded-for", forwarded_for); ("user-agent", user_agent)];
     ChatRoute.req_json := Ok JNull |}.

Fixpoint has_colon (s : string) : bool :=
  match s with
  | EmptyString => false
  | String c s' => Ascii.eqb c ":" || has_colon s'
  end.

(** A hit with other values in the fields after the first image and in the
    fields that describe the match, the state and the address of the
    product. *)
Definition with_other_images (images : option (list string)) (later : list string)
  : option (list string) :=
  match images with
  | Some (first :: _) => Some (first :: later)
  | other => other
  end.

Definition with_unprinted (hit : Hit) (other : Hit) (later : list string) : Hit :=
  {| document :=
       {| active := active (document other);
          bestprice := bestprice (document hit);
          brand := brand (document hit);
          title := title (document hit);
          repmodel := repmodel (document hit);
          topstore := topstore (document hit);
          stores := stores (document hit);
          images := with_other_images (images (document hit)) later;
          url_compy := url_compy (document other);
          url := url (document other);
          attrs := attrs (document hit) |};
     highlights := highlights other;
     text_match := text_match other;
     text_match_info := text_match_info other |}.

(** A text that starts with a character that is no white space, or is
    empty. *)
Definition starts_solid (s : string) : Prop :=
  match s with
  | EmptyString => True
  | String c _ => JS2.is_space c = false
  end.

(** Matches of the index: one with metadata, one without, and one whose
    list of specifications holds a [null]. *)
Definition tv_match : VectorSearch.Match :=
  {| VectorSearch.id := "tv-55";
     VectorSearch.metadata :=
       Some [("title", JStr "Televisor LG"); ("price", JNum 1299);
             ("features", JStr "Pantalla 4K. Smart TV. ");
             ("specifications",
              JArr [JObj [("k", JStr "Color"); ("v", JStr "Negro")];
                    JObj [("k", JStr "Peso")]])] |}.

Definition bare_match : VectorSearch.Match :=
  {| VectorSearch.id := "bare"; VectorSearch.metadata := None |}.

Definition broken_match : VectorSearch.Match :=
  {| VectorSearch.id := "broken";
     VectorSearch.metadata := Some [("specifications", JArr [JNull])] |}.

(** A match whose first category level is an object that has an own
    [toString] property. *)
Definition unprintable_match : VectorSearch.Match :=
  {| VectorSearch.id := "odd";
     VectorSearch.metadata :=
       Some [("title", JStr "Radio");
             ("category_level1", JObj [("toString", JNum 0)])] |}.

(** An index that answers every query with the same two matches, and one
    whose queries are rejected. *)
Definition two_matches_index (q : VectorSearch.IndexQuery) : VectorSearch.IndexAnswer :=
  VectorSearch.Matches [tv_match; bare_match].

Definition failing_index (q : VectorSearch.IndexQuery) : VectorSearch.IndexAnswer :=
  VectorSearch.Query_rejected.

Definition vector_args : VectorRoute.Args :=
  {| VectorRoute.query := "televisor"; VectorRoute.category := None;
     VectorRoute.brand := Some "LG"; VectorRoute.priceMax := Some 2000 |}.

(** A response with one hit, one of whose features is an object that has
    an own [toString] property. *)
Definition odd_feature_hit : ProductSearchResults :=
  with_hits Samples.no_hits
    [{| document :=
          {| active := true;
             bestprice := 99;
             brand := "Acme";
             title := "Radio";
             repmodel := "R1";
             topstore := None;
             stores := None;
             images := None;
             url_compy := None;
             url := "https://compy.pe/p/r1";
             attrs := [("f.banda", JStr "FM");
                       ("f.extra", JObj [("toString", JStr "x")])] |};
        highlights := None; text_match := 0; text_match_info := None |}].

(** A preflight from a foreign origin and a request from a listed one. *)
Definition foreign_preflight : Middleware.NextRequest :=
  {| Middleware.method := "OPTIONS";
     Middleware.headers := [("origin", "https://evil.example")] |}.

Definition compy_request : Middleware.NextRequest :=
  {| Middleware.method := "POST";
     Middleware.headers := [("origin", "https://compy.pe")] |}.

End Update.

(** * Properties *)

(** ** Text *)

Section Text.

Lemma append_cons (ch : ascii) (a b : string) :
  String ch a +:+ b = String ch (a +:+ b).
Proof. reflexivity. Qed.

Lemma append_nil_r (s : string) : s +:+ EmptyString = s.
Proof. induction s as [|ch s IH]; [done | by rewrite append_cons, IH]. Qed.

Lemma append_assoc (a b c : string) : (a +:+ b) +:+ c = a +:+ (b +:+ c).
Proof. induction a as [|ch a IH]; [done | by rewrite !append_cons, IH]. Qed.

Lemma length_append (a b : string) :
  String.length (a +:+ b) = (String.length a + String.length b)%nat.
Proof.
  induction a as [|ch a IH]; [done|].
  rewrite append_cons. cbn [String.length]. by rewrite IH.
Qed.

Lemma occurs_in_refl (s : string) : occurs_in s s.
Proof. exists EmptyString, EmptyString. by rewrite append_nil_r. Qed.

Lemma occurs_in_trans (a b c : string) :
  occurs_in a b -> occurs_in b c -> occurs_in a c.
Proof.
  intros (p1 & q1 & ->) (p2 & q2 & ->).
  exists (p2 +:+ p1), (q1 +:+ q2).
  by rewrite !append_assoc.
Qed.

Lemma occurs_in_append_l (x a b : string) : occurs_in x a -> occurs_in x (a +:+ b).
Proof.
  intros (p & q & ->). exists p, (q +:+ b). by rewrite !append_assoc.
Qed.

Lemma occurs_in_append_r (x a b : string) : occurs_in x b -> occurs_in x (a +:+ b).
Proof.
  intros (p & q & ->). exists (a +:+ p), q. by rewrite !append_assoc.
Qed.

Lemma occurs_in_join (sep x : string) (parts : list string) :
  In x parts -> occurs_in x (join sep parts).
Proof.
  induction parts as [|y parts IH]; [done|].
  intros [-> | Hin].
  - destruct parts as [|z parts]; simpl.
    + apply occurs_in_refl.
    + apply occurs_in_append_l, occurs_in_refl.
  - destruct parts as [|z parts]; [done|].
    change (join sep (y :: z :: parts)) with (y +:+ sep +:+ join sep (z :: parts)).
    by apply occurs_in_append_r, occurs_in_append_r, IH.
Qed.

Lemma assoc_In {A : Type} (name : string) (pairs : list (string * A)) (v : A) :
  assoc name pairs = Some v -> In name (List.map fst pairs).
Proof.
  induction pairs as [|[k w] pairs IH]; simpl; [done|].
  destruct (String.eqb_spec k name) as [-> | _]; [by left | by right; apply IH].
Qed.

End Text.

(** ** Result compression *)

Section Compression.

Lemma join_empty_cons (x : string) (parts : list string) :
  join EmptyString (x :: parts) = x +:+ join EmptyString parts.
Proof. destruct parts; [by rewrite append_nil_r | done]. Qed.

Lemma fold_rows (products : list Product) (output : string) :
  List.fold_left (fun output product => output +:+ row product) products output
  = output +:+ join EmptyString (List.map row products).
Proof.
  revert output. induction products as [|p products IH]; intros output.
  - by rewrite append_nil_r.
  - cbn [List.fold_left List.map]. by rewrite IH, join_empty_cons, append_assoc.
Qed.

(** The table is the four header lines followed by one row per product. *)
Lemma formatAsMarkdown_rows (products : list Product) (summary : Summary) :
  formatAsMarkdown products summary
  = header summary +:+ join EmptyString (List.map row products).
Proof. unfold formatAsMarkdown. by rewrite fold_rows. Qed.

Lemma features_in_row (product : Product) : occurs_in (p_features product) (row product).
Proof.
  unfold row.
  do 9 apply occurs_in_append_r.
  apply occurs_in_append_l, occurs_in_refl.
Qed.

Lemma row_in_table (products : list Product) (summary : Summary) (product : Product) :
  In product products -> occurs_in (row product) (formatAsMarkdown products summary).
Proof.
  intros Hin. rewrite formatAsMarkdown_rows.
  apply occurs_in_append_r, occurs_in_join, in_map, Hin.
Qed.

Lemma feature_key_kept (doc : Document) (key : string) (v : Json) :
  doc_get doc key = Some v ->
  startsWith key "f." = true ->
  v <> JStr "NO ESPECIFICA" ->
  In key (List.filter (is_feature doc) (Object_keys doc)).
Proof.
  intros Hget Hprefix Hvalue. apply filter_In. split.
  - by apply assoc_In with (v := v).
  - unfold is_feature. rewrite Hprefix, Hget. cbn.
    destruct v as [| | |s| |]; try done.
    destruct (String.eqb_spec s "NO ESPECIFICA") as [-> | _]; done.
Qed.

(** C3, the size half as the specification states it: on the answer to a
    query that matches nothing, a well-formed response of 151 characters,
    the compressed table has 185 characters, so the output is not bounded
    by the input. *)
Lemma compress_size_counterexample :
  serialized_size Samples.no_hits = 151%nat
  /\ String.length (compressProductData Samples.no_hits) = 185%nat
  /\ (serialized_size Samples.no_hits
      < String.length (compressProductData Samples.no_hits))%nat.
Proof. split; [|split]; [reflexivity | reflexivity | vm_compute; lia]. Qed.

(** C3, as the code has it: the output is the fixed four-line header
    followed by one table row per hit, whatever the size of the input; and
    every attribute of a hit whose key starts with [f.] and whose value is
    not the string [NO ESPECIFICA] occurs, as its name without the prefix,
    a colon and its value, in the feature string of that hit, which occurs
    in the compressed output. *)
Theorem compress_keeps_features (data : ProductSearchResults) :
  compressProductData data
  = header {| total_found := found data;
              results_count := List.length (hits data);
              search_query := q (request_params data);
              s_page := page data |}
    +:+ join EmptyString (List.map (fun hit => row (product_of_hit hit)) (hits data))
  /\ forall (hit : Hit) (key : string) (v : Json),
      In hit (hits data) ->
      doc_get (document hit) key = Some v ->
      startsWith key "f." = true ->
      v <> JStr "NO ESPECIFICA" ->
      occurs_in (substring_from 2 key +:+ ": " +:+ toString v)
                (p_features (product_of_hit hit))
      /\ occurs_in (p_features (product_of_hit hit)) (compressProductData data).
Proof.
  split.
  - unfold compressProductData. rewrite formatAsMarkdown_rows.
    by rewrite List.length_map, List.map_map.
  - intros hit key v Hhit Hget Hprefix Hvalue. split.
    + cbn [product_of_hit p_features]. unfold features.
      apply occurs_in_join.
      replace (substring_from 2 key +:+ ": " +:+ toString v)
        with (render_feature (document hit) key)
        by (unfold render_feature; by rewrite Hget).
      by apply in_map, feature_key_kept with (v := v).
    + apply occurs_in_trans with (b := row (product_of_hit hit)).
      * apply features_in_row.
      * unfold compressProductData. by apply row_in_table, in_map.
Qed.

Lemma compress_keeps_features_witness :
  occurs_in "pantalla: 55" (p_features (product_of_hit Samples.tv_hit))
  /\ occurs_in (p_features (product_of_hit Samples.tv_hit))
               (compressProductData Samples.one_hit).
Proof.
  apply (proj2 (compress_keeps_features Samples.one_hit)
           Samples.tv_hit "f.pantalla" (JStr "55")).
  - simpl. by left.
  - reflexivity.
  - reflexivity.
  - discriminate.
Defined.

End Compression.

(** ** Filter translation *)

Section FilterTranslation.

Lemma price_clause_length (op : string) (bound : option Z) :
  List.length (ChatRoute.price_clause op bound) = ChatRoute.truthy_bound bound.
Proof. destruct bound as [n|]; [|done]. cbn. by destruct (truthy_num n). Qed.

Lemma brand_clause_length (brand : option string) :
  List.length (BrandRoute.brand_clause brand) = BrandRoute.truthy_text brand.
Proof. destruct brand as [b|]; [|done]. cbn. by destruct (truthy_str b). Qed.

Lemma price_clause_truthy (op : string) (n : Z) :
  n <> 0 -> ChatRoute.price_clause op (Some n) = ["bestprice:" +:+ op +:+ Z_to_string n].
Proof.
  intros Hn. unfold ChatRoute.price_clause, truthy_num.
  by destruct (Z.eqb_spec n 0).
Qed.

(** C5, as the specification states it: an invocation that carries the
    upper bound [priceMax = 0] carries one optional filter, and the
    translation has no clause for it. Nor does the route with result
    compression know a brand filter: its schema drops the brand, and
    [brand = LG] with [priceMax = 1000] is translated into one clause. *)
Lemma translate_counterexample :
  ((ChatRoute.present (ChatRoute.priceMax Samples.zero_max_args)
    + ChatRoute.present (ChatRoute.priceMin Samples.zero_max_args) = 1)%nat
   /\ List.length (ChatRoute.queryByItems Samples.zero_max_args) = 0%nat
   /\ ChatRoute.searchParams_get (ChatRoute.searchParams Samples.zero_max_args) "filter_by"
      = None)
  /\ (ChatRoute.parameters_parse Samples.lg_under_1000
      = Ok {| ChatRoute.query := "televisor"; ChatRoute.priceMax := Some 1000;
              ChatRoute.priceMin := None |}
      /\ ChatRoute.queryByItems
           {| ChatRoute.query := "televisor"; ChatRoute.priceMax := Some 1000;
              ChatRoute.priceMin := None |}
         = ["bestprice:<1000"]).
Proof. by vm_compute. Qed.

(** C5, as the code has it. In both Typesense routes every truthy filter (a
    brand that is not the empty string, a price bound that is not zero)
    contributes exactly one clause and every other filter none; the clauses
    are joined by [&&] in a fixed order (brand, upper bound, lower bound);
    and the request carries a [filter_by] parameter only when there is a
    clause. The route with a brand filter turns brand [LG] with an upper
    bound of 1000 into the two clauses [brand:LG&&bestprice:<1000]. *)
Theorem translate_compositional :
  (forall args : ChatRoute.Args,
      List.length (ChatRoute.queryByItems args)
      = (ChatRoute.truthy_bound (ChatRoute.priceMax args)
         + ChatRoute.truthy_bound (ChatRoute.priceMin args))%nat
      /\ ChatRoute.searchParams_get (ChatRoute.searchParams args) "filter_by"
         = match ChatRoute.queryByItems args with
           | [] => None
           | items => Some (join "&&" items)
           end)
  /\ (forall args : BrandRoute.Args,
      List.length (BrandRoute.queryByItems args)
      = (BrandRoute.truthy_text (BrandRoute.brand args)
         + ChatRoute.truthy_bound (BrandRoute.priceMax args))%nat
      /\ ChatRoute.searchParams_get (BrandRoute.searchParams args) "filter_by"
         = match BrandRoute.queryByItems args with
           | [] => None
           | items => Some (join "&&" items)
           end)
  /\ (forall query : string,
      ChatRoute.searchParams_get
        (ChatRoute.searchParams
           {| ChatRoute.query := query; ChatRoute.priceMax := None;
              ChatRoute.priceMin := None |}) "filter_by" = None
      /\ ChatRoute.searchParams_get
           (BrandRoute.searchParams
              {| BrandRoute.query := query; BrandRoute.brand := None;
                 BrandRoute.priceMax := None |}) "filter_by" = None)
  /\ (forall (query : string) (upper lower : Z),
      upper <> 0 -> lower <> 0 ->
      ChatRoute.queryByItems
        {| ChatRoute.query := query; ChatRoute.priceMax := Some upper;
           ChatRoute.priceMin := Some lower |}
      = ["bestprice:<" +:+ Z_to_string upper; "bestprice:>" +:+ Z_to_string lower])
  /\ (forall query : string,
      BrandRoute.queryByItems
        {| BrandRoute.query := query; BrandRoute.brand := Some "LG";
           BrandRoute.priceMax := Some 1000 |}
      = ["brand:LG"; "bestprice:<1000"]
      /\ ChatRoute.searchParams_get
           (BrandRoute.searchParams
              {| BrandRoute.query := query; BrandRoute.brand := Some "LG";
                 BrandRoute.priceMax := Some 1000 |}) "filter_by"
         = Some "brand:LG&&bestprice:<1000").
Proof.
  split; [|split; [|split; [|split]]].
  - intros args. split.
    + unfold ChatRoute.queryByItems. by rewrite List.length_app, !price_clause_length.
    + unfold ChatRoute.searchParams. by destruct (ChatRoute.queryByItems args).
  - intros args. split.
    + unfold BrandRoute.queryByItems.
      by rewrite List.length_app, brand_clause_length, price_clause_length.
    + unfold BrandRoute.searchParams. by destruct (BrandRoute.queryByItems args).
  - intros query. split; reflexivity.
  - intros query upper lower Hupper Hlower.
    unfold ChatRoute.queryByItems. cbn [ChatRoute.priceMax ChatRoute.priceMin].
    by rewrite !price_clause_truthy.
  - intros query. split; reflexivity.
Qed.

Lemma translate_compositional_witness :
  ChatRoute.queryByItems Samples.both_bounds_args
  = ["bestprice:<" +:+ Z_to_string 1000; "bestprice:>" +:+ Z_to_string 200].
Proof.
  apply (proj1 (proj2 (proj2 (proj2 translate_compositional))) "tv" 1000 200); lia.
Defined.

(** C9, as the specification states it: an invocation with [priceMax = 0]
    and [priceMin = 50] carries a price clause, the one of its lower bound,
    and the request it sends is filtered by it; likewise [priceMin = 0]
    with [priceMax = 100] carries the clause of the upper bound. *)
Lemma zero_bound_counterexample :
  (ChatRoute.priceMax Samples.zero_max_min_50_args = Some 0
   /\ ChatRoute.queryByItems Samples.zero_max_min_50_args = ["bestprice:>50"]
   /\ ChatRoute.searchParams_get (ChatRoute.searchParams Samples.zero_max_min_50_args)
        "filter_by" = Some "bestprice:>50")
  /\ (ChatRoute.priceMin Samples.max_100_zero_min_args = Some 0
      /\ ChatRoute.queryByItems Samples.max_100_zero_min_args = ["bestprice:<100"]
      /\ ChatRoute.searchParams_get (ChatRoute.searchParams Samples.max_100_zero_min_args)
           "filter_by" = Some "bestprice:<100").
Proof. by vm_compute. Qed.

(** C9, as the code has it: a price bound of zero is falsy, so it is
    translated exactly as an absent bound. With [priceMax = 0] the clauses
    and the request parameters are those of the invocation without
    [priceMax], and none of the clauses is an upper-bound clause; likewise
    for [priceMin = 0]; the other bound, when it is not zero, still
    contributes its own clause, which is then the whole filter; with both
    bounds at zero the request carries no [filter_by] at all. The same
    holds for [priceMax = 0] in the route with a brand filter and in the
    route over the vector index. *)
Theorem zero_price_bound_is_absent :
  (forall (query : string) (lower : option Z),
      let zero := {| ChatRoute.query := query; ChatRoute.priceMax := Some 0;
                     ChatRoute.priceMin := lower |} in
      let absent := {| ChatRoute.query := query; ChatRoute.priceMax := None;
                       ChatRoute.priceMin := lower |} in
      ChatRoute.queryByItems zero = ChatRoute.queryByItems absent
      /\ ChatRoute.searchParams zero = ChatRoute.searchParams absent
      /\ Forall (fun clause => startsWith clause "bestprice:<" = false)
                (ChatRoute.queryByItems zero))
  /\ (forall (query : string) (upper : option Z),
      let zero := {| ChatRoute.query := query; ChatRoute.priceMax := upper;
                     ChatRoute.priceMin := Some 0 |} in
      let absent := {| ChatRoute.query := query; ChatRoute.priceMax := upper;
                       ChatRoute.priceMin := None |} in
      ChatRoute.queryByItems zero = ChatRoute.queryByItems absent
      /\ ChatRoute.searchParams zero = ChatRoute.searchParams absent
      /\ Forall (fun clause => startsWith clause "bestprice:>" = false)
                (ChatRoute.queryByItems zero))
  /\ (forall query : string,
      let zero := {| ChatRoute.query := query; ChatRoute.priceMax := Some 0;
                     ChatRoute.priceMin := Some 0 |} in
      ChatRoute.queryByItems zero = []
      /\ ChatRoute.searchParams_get (ChatRoute.searchParams zero) "filter_by" = None)
  /\ (forall (query : string) (bound : Z),
      bound <> 0 ->
      let zero_max := {| ChatRoute.query := query; ChatRoute.priceMax := Some 0;
                         ChatRoute.priceMin := Some bound |} in
      let zero_min := {| ChatRoute.query := query; ChatRoute.priceMax := Some bound;
                         ChatRoute.priceMin := Some 0 |} in
      (ChatRoute.queryByItems zero_max = ["bestprice:>" +:+ Z_to_string bound]
       /\ ChatRoute.searchParams_get (ChatRoute.searchParams zero_max) "filter_by"
          = Some ("bestprice:>" +:+ Z_to_string bound))
      /\ (ChatRoute.queryByItems zero_min = ["bestprice:<" +:+ Z_to_string bound]
          /\ ChatRoute.searchParams_get (ChatRoute.searchParams zero_min) "filter_by"
             = Some ("bestprice:<" +:+ Z_to_string bound)))
  /\ (forall (query : string) (brand : option string),
      BrandRoute.searchParams
        {| BrandRoute.query := query; BrandRoute.brand := brand;
           BrandRoute.priceMax := Some 0 |}
      = BrandRoute.searchParams
          {| BrandRoute.query := query; BrandRoute.brand := brand;
             BrandRoute.priceMax := None |})
  /\ (forall (query : string) (category brand : option string),
      VectorRoute.filterString
        {| VectorRoute.query := query; VectorRoute.category := category;
           VectorRoute.brand := brand; VectorRoute.priceMax := Some 0 |}
      = VectorRoute.filterString
          {| VectorRoute.query := query; VectorRoute.category := category;
             VectorRoute.brand := brand; VectorRoute.priceMax := None |}).
Proof.
  assert (Hbound : forall (query : string) (bound : Z),
             bound <> 0 ->
             let zero_max := {| ChatRoute.query := query; ChatRoute.priceMax := Some 0;
                                ChatRoute.priceMin := Some bound |} in
             let zero_min := {| ChatRoute.query := query; ChatRoute.priceMax := Some bound;
                                ChatRoute.priceMin := Some 0 |} in
             ChatRoute.queryByItems zero_max = ["bestprice:>" +:+ Z_to_string bound]
             /\ ChatRoute.queryByItems zero_min = ["bestprice:<" +:+ Z_to_string bound]).
  { intros query bound Hbound. cbv zeta. unfold ChatRoute.queryByItems.
    cbn [ChatRoute.priceMax ChatRoute.priceMin].
    rewrite (price_clause_truthy ">" bound), (price_clause_truthy "<" bound) by done.
    by split. }
  split; [|split; [|split; [|split; [|split]]]]; try done.
  - intros query lower. cbv zeta. repeat split.
    destruct lower as [n|]; cbn; [|constructor].
    destruct (truthy_num n); constructor; [reflexivity | constructor].
  - intros query upper. cbv zeta. repeat split.
    destruct upper as [n|]; cbn; [|constructor].
    destruct (truthy_num n); constructor; [reflexivity | constructor].
  - intros query bound Hnz. cbv zeta.
    destruct (Hbound query bound Hnz) as [Hmax Hmin].
    unfold ChatRoute.searchParams. rewrite Hmax, Hmin. by repeat split.
Qed.

Lemma zero_price_bound_is_absent_witness :
  (ChatRoute.queryByItems Samples.zero_max_min_50_args = ["bestprice:>" +:+ Z_to_string 50]
   /\ ChatRoute.searchParams_get (ChatRoute.searchParams Samples.zero_max_min_50_args)
        "filter_by" = Some ("bestprice:>" +:+ Z_to_string 50))
  /\ (ChatRoute.queryByItems
        {| ChatRoute.query := "tv"; ChatRoute.priceMax := Some 50;
           ChatRoute.priceMin := Some 0 |} = ["bestprice:<" +:+ Z_to_string 50]
      /\ ChatRoute.searchParams_get
           (ChatRoute.searchParams
              {| ChatRoute.query := "tv"; ChatRoute.priceMax := Some 50;
                 ChatRoute.priceMin := Some 0 |}) "filter_by"
         = Some ("bestprice:<" +:+ Z_to_string 50)).
Proof.
  apply (proj1 (proj2 (proj2 (proj2 zero_price_bound_is_absent))) "tv" 50). lia.
Defined.

End FilterTranslation.

(** ** The search tool and the backend *)

Section SearchTool.

Variable api_key : option string.

(** C8, as the specification states it: the model sends [priceMin = 500]
    with [priceMax = 100]. The arguments pass the schema, [execute] sends
    one search request carrying both clauses, and returns the table built
    from the backend's answer; nothing is rejected. *)
Lemma invalid_filter_counterexample :
  ChatRoute.parameters_parse Samples.inverted_bounds
  = Ok {| ChatRoute.query := "tv"; ChatRoute.priceMax := Some 100;
          ChatRoute.priceMin := Some 500 |}
  /\ List.map (fun request =>
                 ChatRoute.searchParams_get (ChatRoute.f_search request) "filter_by")
              (fst (ChatRoute.execute None Samples.backend_200
                      {| ChatRoute.query := "tv"; ChatRoute.priceMax := Some 100;
                         ChatRoute.priceMin := Some 500 |}))
     = [Some "bestprice:<100&&bestprice:>500"]
  /\ snd (ChatRoute.execute None Samples.backend_200
            {| ChatRoute.query := "tv"; ChatRoute.priceMax := Some 100;
               ChatRoute.priceMin := Some 500 |})
     = Ok (compressProductData Samples.no_hits)
  /\ ChatRoute.call_tool None Samples.backend_200 Samples.inverted_bounds
     = ChatRoute.execute None Samples.backend_200
         {| ChatRoute.query := "tv"; ChatRoute.priceMax := Some 100;
            ChatRoute.priceMin := Some 500 |}.
Proof. by vm_compute. Qed.

Lemma optional_number_refuses (v : Value) :
  (exists e, ChatRoute.optional_number v = Throw e)
  <-> exists j, v = Some j /\ forall n, j <> JNum n.
Proof.
  split.
  - intros [e He]. destruct v as [j|]; [|done]. exists j. split; [done|].
    intros n ->. done.
  - intros (j & -> & Hj). destruct j; cbn; eauto. by destruct (Hj n).
Qed.

Lemma optional_number_error (v : Value) (e : JsError) :
  ChatRoute.optional_number v = Throw e -> e = ZodError.
Proof. destruct v as [[]|]; cbn; congruence. Qed.

Lemma parameters_parse_error (raw : Json) (e : JsError) :
  ChatRoute.parameters_parse raw = Throw e -> e = ZodError.
Proof.
  destruct raw as [| | | | |props]; cbn; try congruence.
  destruct (assoc "query" props) as [[| | |query| |]|]; try congruence.
  destruct (ChatRoute.optional_number (assoc "priceMax" props)) as [upper|e1] eqn:Hmax.
  - destruct (ChatRoute.optional_number (assoc "priceMin" props)) as [lower|e2] eqn:Hmin;
      [done|]. intros [= <-]. by apply optional_number_error in Hmin.
  - intros [= <-]. by apply optional_number_error in Hmax.
Qed.

Lemma execute_one_request (fetch : ChatRoute.FetchRequest -> ChatRoute.FetchResult)
    (args : ChatRoute.Args) :
  fst (ChatRoute.execute api_key fetch args) = [ChatRoute.fetch_request api_key args].
Proof.
  unfold ChatRoute.execute.
  by destruct (fetch (ChatRoute.fetch_request api_key args)) as [|status [| |]].
Qed.

(** C8, as the code has it. The arguments of an invocation are checked
    against the schema only, which fixes their types: it refuses arguments
    that are not an object, a query that is missing or not a string, and a
    price bound that is present and not a number, and nothing else; an
    invocation it refuses ends in the schema's error and no search request
    goes out. Arguments of the right types are accepted whatever the order
    of the two bounds, [execute] runs on them and sends exactly one search
    request, filtered by the clause of each bound that is not zero: both
    clauses when neither is zero, the clause of the other bound when one is
    zero, no filter when both are. *)
Theorem tool_arguments_checked_by_type_only
    (fetch : ChatRoute.FetchRequest -> ChatRoute.FetchResult) :
  (forall raw : Json,
      ChatRoute.parameters_parse raw = Throw ZodError
      <-> ((forall props, raw <> JObj props)
           \/ exists props,
               raw = JObj props
               /\ ((forall query, assoc "query" props <> Some (JStr query))
                   \/ (exists v, assoc "priceMax" props = Some v /\ forall n, v <> JNum n)
                   \/ (exists v, assoc "priceMin" props = Some v /\ forall n, v <> JNum n))))
  /\ (forall (raw : Json) (e : JsError),
      ChatRoute.parameters_parse raw = Throw e ->
      e = ZodError /\ ChatRoute.call_tool api_key fetch raw = ([], Throw ZodError))
  /\ (forall (raw : Json) (args : ChatRoute.Args),
      ChatRoute.parameters_parse raw = Ok args ->
      ChatRoute.call_tool api_key fetch raw = ChatRoute.execute api_key fetch args
      /\ fst (ChatRoute.call_tool api_key fetch raw)
         = [ChatRoute.fetch_request api_key args])
  /\ (forall (query : string) (upper lower : Z),
      let raw :=
        JObj [("query", JStr query); ("priceMax", JNum upper); ("priceMin", JNum lower)] in
      let args := {| ChatRoute.query := query; ChatRoute.priceMax := Some upper;
                     ChatRoute.priceMin := Some lower |} in
      let filter_by :=
        ChatRoute.searchParams_get
          (ChatRoute.f_search (ChatRoute.fetch_request api_key args)) "filter_by" in
      ChatRoute.parameters_parse raw = Ok args
      /\ fst (ChatRoute.execute api_key fetch args) = [ChatRoute.fetch_request api_key args]
      /\ (upper <> 0 -> lower <> 0 ->
          filter_by = Some ("bestprice:<" +:+ Z_to_string upper
                            +:+ "&&" +:+ "bestprice:>" +:+ Z_to_string lower))
      /\ (upper = 0 -> lower <> 0 ->
          filter_by = Some ("bestprice:>" +:+ Z_to_string lower))
      /\ (upper <> 0 -> lower = 0 ->
          filter_by = Some ("bestprice:<" +:+ Z_to_string upper))
      /\ (upper = 0 -> lower = 0 -> filter_by = None)).
Proof.
  split; [|split; [|split]].
  - intros raw. split.
    + destruct raw as [| | | | |props]; cbn;
        try (intros _; left; intros props; discriminate).
      intros Hparse. right. exists props. split; [done|].
      destruct (assoc "query" props) as [[| | |query| |]|];
        try (left; intros query; discriminate).
      right.
      destruct (ChatRoute.optional_number (assoc "priceMax" props)) as [upper|e1] eqn:Hmax.
      * destruct (ChatRoute.optional_number (assoc "priceMin" props)) as [lower|e2] eqn:Hmin;
          [done|]. right. apply optional_number_refuses. eauto.
      * left. apply optional_number_refuses. eauto.
    + intros [Hnot | (props & -> & Hbad)].
      * destruct raw as [| | | | |props]; try done. by destruct (Hnot props).
      * cbn. destruct Hbad as [Hquery | [Hmax | Hmin]].
        -- destruct (assoc "query" props) as [[| | |query| |]|]; try done.
           by destruct (Hquery query).
        -- destruct (assoc "query" props) as [[| | |query| |]|]; try done.
           apply optional_number_refuses in Hmax as [e He]. rewrite He.
           by rewrite (optional_number_error _ _ He).
        -- destruct (assoc "query" props) as [[| | |query| |]|]; try done.
           apply optional_number_refuses in Hmin as [e He]. rewrite He.
           rewrite (optional_number_error _ _ He).
           by destruct (ChatRoute.optional_number (assoc "priceMax" props)) as [upper|e1]
             eqn:Hmax; [|rewrite (optional_number_error _ _ Hmax)].
  - intros raw e Hparse. pose proof (parameters_parse_error raw e Hparse) as ->.
    split; [done|]. unfold ChatRoute.call_tool. by rewrite Hparse.
  - intros raw args Hparse. unfold ChatRoute.call_tool. rewrite Hparse.
    split; [done | apply execute_one_request].
  - intros query upper lower. cbv zeta.
    split; [done|]. split; [apply execute_one_request|].
    cbn [ChatRoute.f_search ChatRoute.fetch_request].
    unfold ChatRoute.searchParams, ChatRoute.queryByItems.
    cbn [ChatRoute.priceMax ChatRoute.priceMin ChatRoute.price_clause].
    unfold truthy_num.
    destruct (Z.eqb_spec upper 0) as [-> | Hupper];
      destruct (Z.eqb_spec lower 0) as [-> | Hlower]; cbn [negb];
      repeat split; intros; try done.
Qed.

(** C6, as the specification states it: the backend answers with status
    503 and a body that parses as an empty result page. [execute] hands the
    model the table of an empty result, the very value it returns when the
    backend answers 200 with no match. *)
Lemma search_unavailable_counterexample :
  snd (ChatRoute.execute None Samples.backend_503 Samples.tv_args)
  = Ok (compressProductData Samples.no_hits)
  /\ ChatRoute.execute None Samples.backend_503 Samples.tv_args
     = ChatRoute.execute None Samples.backend_200 Samples.tv_args.
Proof. by vm_compute. Qed.

(** C6, as the code has it. A call that cannot reach the backend makes
    [execute] throw the error of [fetch], and a response whose body is not
    JSON or is Typesense's error object makes it throw as well, so none of
    these is returned as a result; the status of the response is never
    read, so two responses with the same body are handled alike whatever
    their statuses. *)
Theorem backend_failure_handling
    (fetch fetch' : ChatRoute.FetchRequest -> ChatRoute.FetchResult)
    (args : ChatRoute.Args) :
  let request := ChatRoute.fetch_request api_key args in
  (fetch request = ChatRoute.NetworkFailure ->
   ChatRoute.execute api_key fetch args = ([request], Throw TypeError_fetch_failed))
  /\ (forall status : Z,
      fetch request = ChatRoute.HttpResponse status ChatRoute.NotJson ->
      ChatRoute.execute api_key fetch args = ([request], Throw SyntaxError_invalid_json))
  /\ (forall (status : Z) (message : string),
      fetch request = ChatRoute.HttpResponse status (ChatRoute.ErrorMessage message) ->
      ChatRoute.execute api_key fetch args = ([request], Throw TypeError_undefined_map))
  /\ (forall (status status' : Z) (body : ChatRoute.ResponseJson),
      fetch request = ChatRoute.HttpResponse status body ->
      fetch' request = ChatRoute.HttpResponse status' body ->
      ChatRoute.execute api_key fetch args = ChatRoute.execute api_key fetch' args).
Proof.
  cbv zeta. unfold ChatRoute.execute. repeat split.
  - by intros ->.
  - by intros status ->.
  - by intros status message ->.
  - by intros status status' body -> ->.
Qed.

End SearchTool.

Lemma tool_arguments_checked_by_type_only_witness :
  ChatRoute.searchParams_get
    (ChatRoute.f_search (ChatRoute.fetch_request None Samples.zero_max_min_50_args))
    "filter_by"
  = Some ("bestprice:>" +:+ Z_to_string 50)
  /\ ChatRoute.searchParams_get
       (ChatRoute.f_search (ChatRoute.fetch_request None
          {| ChatRoute.query := "tv"; ChatRoute.priceMax := Some 100;
             ChatRoute.priceMin := Some 500 |})) "filter_by"
     = Some ("bestprice:<" +:+ Z_to_string 100 +:+ "&&" +:+ "bestprice:>" +:+ Z_to_string 500).
Proof.
  split.
  - apply (proj1 (proj2 (proj2 (proj2
             (proj2 (proj2 (proj2 (tool_arguments_checked_by_type_only
                                     None Samples.backend_200)))
                "tv" 0 50))))); [reflexivity | lia].
  - apply (proj1 (proj2 (proj2
             (proj2 (proj2 (proj2 (tool_arguments_checked_by_type_only
                                     None Samples.backend_200)))
                "tv" 100 500)))); lia.
Defined.

Lemma backend_failure_handling_witness :
  ChatRoute.execute None Samples.backend_down Samples.tv_args
  = ([ChatRoute.fetch_request None Samples.tv_args], Throw TypeError_fetch_failed).
Proof.
  apply (proj1 (backend_failure_handling None Samples.backend_down Samples.backend_down
                  Samples.tv_args)).
  reflexivity.
Defined.

(** ** Client identity *)

Section ClientIdentity.

Context {Store : Type}.
Variable ratelimit_limit : string -> Z -> Store -> Store * RatelimitResponse.
Variable toISOString : Z -> string.



End ClientIdentity.


(** ** Admission *)

Section SlidingWindow.

Variable l : Limiter.
Variable identifier : string.
Hypothesis tokens_nonneg : 0 <= tokens l.

Lemma live_live (now now' : Z) (log : list Z) :
  now <= now' -> live (window l) now' (live (window l) now log) = live (window l) now' log.
Proof.
  intros Hle. unfold live. induction log as [|t log IH]; [done|].
  cbn [List.filter].
  destruct (Z.ltb_spec (now - window l) t) as [Hin | Hout].
  - cbn [List.filter]. destruct (now' - window l <? t); by rewrite IH.
  - destruct (Z.ltb_spec (now' - window l) t) as [Hin' | _]; [lia | done].
Qed.

Lemma live_cons (now t : Z) (log : list Z) :
  live (window l) now (t :: log)
  = if now - window l <? t then t :: live (window l) now log else live (window l) now log.
Proof. reflexivity. Qed.

Lemma live_Forall (now : Z) (log : list Z) :
  Forall (fun t => now - window l < t) (live (window l) now log).
Proof.
  unfold live. induction log as [|t log IH]; [constructor|].
  cbn [List.filter].
  destruct (Z.ltb_spec (now - window l) t); [by constructor | done].
Qed.

Lemma last_cons (t d : Z) (log : list Z) : List.last (t :: log) d = List.last log t.
Proof.
  revert t d. induction log as [|t' log IH]; intros t d; [done|].
  change (List.last (t' :: log) d = List.last (t' :: log) t). by rewrite !IH.
Qed.

Lemma last_Forall (P : Z -> Prop) (log : list Z) (d : Z) :
  Forall P log -> log <> [] -> P (List.last log d).
Proof.
  induction 1 as [|t log Ht Hlog IH]; [done|]. intros _.
  destruct log as [|t' log]; [done|].
  change (P (List.last (t' :: log) d)). by apply IH.
Qed.

Lemma window_within_live (now T : Z) (history : list Z) :
  now <= T ->
  (admitted_in_window (window l) T history <= List.length (live (window l) now history))%nat.
Proof.
  intros Hle. unfold admitted_in_window, live, in_window.
  induction history as [|t history IH]; [done|].
  cbn [List.filter].
  destruct (Z.ltb_spec (T - window l) t) as [Hin | Hout]; cbn [andb].
  - destruct (Z.ltb_spec (now - window l) t) as [_ | Hout]; [|lia].
    destruct (t <=? T); cbn [List.length]; lia.
  - destruct (now - window l <? t); cbn [List.length]; lia.
Qed.

Lemma window_is_live (now : Z) (history : list Z) :
  Forall (fun t => t <= now) history ->
  admitted_in_window (window l) now history = List.length (live (window l) now history).
Proof.
  unfold admitted_in_window, live, in_window.
  induction 1 as [|t history Ht _ IH]; [done|].
  cbn [List.filter].
  destruct (Z.leb_spec t now) as [_ | Hgt]; [|lia].
  rewrite andb_true_r.
  destruct (now - window l <? t); cbn [List.length]; by rewrite IH.
Qed.

Lemma window_cons (T t : Z) (history : list Z) :
  admitted_in_window (window l) T (t :: history)
  = ((if in_window (window l) T t then 1 else 0)
     + admitted_in_window (window l) T history)%nat.
Proof.
  unfold admitted_in_window. cbn [List.filter].
  by destruct (in_window (window l) T t).
Qed.

Lemma consistent_later (latest now : Z) (store : gmap string (list Z)) (history : list Z) :
  latest <= now -> consistent l identifier latest store history ->
  consistent l identifier now store history.
Proof.
  intros Hle [Hpast Hlive Hquota]. split; [|by intros; apply Hlive; lia|done].
  eapply Forall_impl; [exact Hpast|]. cbn. lia.
Qed.

(** One call of the limiter keeps the store and the history in agreement. *)
Lemma limit_consistent (caller : string) (latest now : Z)
    (store : gmap string (list Z)) (history : list Z) :
  latest <= now ->
  consistent l identifier latest store history ->
  let r := snd (slidingWindow_limit l caller now store) in
  consistent l identifier now (fst (slidingWindow_limit l caller now store))
    ((if String.eqb caller identifier && success r then [now] else []) ++ history).
Proof.
  intros Hle Hc. cbv zeta. unfold slidingWindow_limit. cbn [fst snd success].
  destruct (String.eqb_spec caller identifier) as [-> | Hother]; cbn [andb].
  - destruct Hc as [Hpast Hlive Hquota].
    rewrite (Hlive now Hle).
    destruct (Z.ltb_spec (Z.of_nat (List.length (live (window l) now history))) (tokens l))
      as [Hroom | Hfull].
    + split.
      * constructor; [lia|]. eapply Forall_impl; [exact Hpast|]. cbn. lia.
      * intros now' Hle'. rewrite lookup_insert_eq. cbn [default from_option id app].
        by rewrite !live_cons, live_live.
      * intros T. cbn [app]. rewrite window_cons.
        destruct (in_window (window l) T now) eqn:Hin.
        -- unfold in_window in Hin. apply andb_prop in Hin as [_ Hin].
           apply Z.leb_le in Hin.
           pose proof (window_within_live now T history Hin). lia.
        -- apply Hquota.
    + split; [|intros now' Hle'|done].
      * eapply Forall_impl; [exact Hpast|]. cbn. lia.
      * rewrite lookup_insert_eq. cbn [default from_option id app]. by rewrite live_live.
  - cbn [app]. apply consistent_later with (latest := latest); [done|].
    destruct Hc as [Hpast Hlive Hquota]. split; [done| |done].
    intros now' Hle'. rewrite lookup_insert_ne by done. by apply Hlive.
Qed.

Lemma consistent_empty (from : Z) : consistent l identifier from ∅ [].
Proof. split; [constructor | done | intros T; cbn; lia]. Qed.

Lemma run_cons (now : Z) (caller : string) (calls : list (Z * string))
    (store : gmap string (list Z)) :
  run l ((now, caller) :: calls) store
  = (fst (run l calls (fst (slidingWindow_limit l caller now store))),
     snd (slidingWindow_limit l caller now store)
     :: snd (run l calls (fst (slidingWindow_limit l caller now store)))).
Proof.
  cbn [run]. destruct (slidingWindow_limit l caller now store) as [store' r].
  cbn [fst snd]. by destruct (run l calls store').
Qed.

(** A chronological sequence of calls keeps them in agreement. *)
Lemma run_consistent (calls : list (Z * string)) :
  forall (from : Z) (store : gmap string (list Z)) (history : list Z),
    chronological from calls ->
    consistent l identifier from store history ->
    consistent l identifier (List.last (List.map fst calls) from)
      (fst (run l calls store))
      (admitted identifier calls (snd (run l calls store)) ++ history).
Proof.
  induction calls as [|[now caller] calls IH]; intros from store history Hchron Hc.
  - done.
  - destruct Hchron as [Hle Hchron].
    rewrite run_cons. cbn [fst snd admitted].
    rewrite <- app_assoc.
    cbn [List.map fst]. rewrite last_cons.
    apply IH; [done|]. by apply limit_consistent with (latest := from).
Qed.

Lemma chronological_app (from now : Z) (caller : string) (calls : list (Z * string)) :
  chronological from (calls ++ [(now, caller)]) ->
  chronological from calls /\ List.last (List.map fst calls) from <= now.
Proof.
  revert from. induction calls as [|[t c] calls IH]; intros from.
  - cbn. tauto.
  - cbn [app chronological]. intros [Hle Hrest].
    destruct (IH t Hrest) as [Hchron Hlast].
    split; [done|]. cbn [List.map fst]. by rewrite last_cons.
Qed.

End SlidingWindow.

Section Rejection.

Context {Store : Type}.
Variable ratelimit_limit : string -> Z -> Store -> Store * RatelimitResponse.
Variable toISOString : Z -> string.

(** A request the limiter refuses is answered at once: the limiter call is
    the only thing the handler did. *)
Lemma POST_rejects (req : ChatRoute.Request) (now date_now : Z) (store : Store) :
  success (snd (ratelimit_limit (ChatRoute.identifier req) now store)) = false ->
  ChatRoute.POST ratelimit_limit toISOString req now date_now store
  = (fst (ratelimit_limit (ChatRoute.identifier req) now store),
     [ChatRoute.Ev_limit (ChatRoute.identifier req)],
     Ok (ChatRoute.too_many_requests toISOString
           (snd (ratelimit_limit (ChatRoute.identifier req) now store)) date_now)).
Proof.
  unfold ChatRoute.POST.
  destruct (ratelimit_limit (ChatRoute.identifier req) now store) as [store' r].
  cbn [fst snd]. by intros ->.
Qed.

End Rejection.

Lemma limit_when_full (l : Limiter) (identifier : string) (now : Z)
    (store : gmap string (list Z)) :
  0 <= tokens l ->
  Z.of_nat (List.length (live (window l) now (default [] (store !! identifier)))) = tokens l ->
  snd (slidingWindow_limit l identifier now store)
  = {| success := false;
       limit := tokens l;
       remaining := 0;
       reset := reset_at (window l) now
                  (live (window l) now (default [] (store !! identifier))) |}.
Proof.
  intros Hnonneg Hfull. unfold slidingWindow_limit. cbn [snd].
  rewrite Hfull, Z.ltb_irrefl, Hfull. f_equal. lia.
Qed.

Lemma limit_when_room (l : Limiter) (identifier : string) (now : Z)
    (store : gmap string (list Z)) :
  Z.of_nat (List.length (live (window l) now (default [] (store !! identifier)))) < tokens l ->
  success (snd (slidingWindow_limit l identifier now store)) = true.
Proof.
  intros Hroom. unfold slidingWindow_limit. cbn [snd success]. by apply Z.ltb_lt.
Qed.

Section Served.

Context {Store : Type}.
Variable ratelimit_limit : string -> Z -> Store -> Store * RatelimitResponse.
Variable toISOString : Z -> string.

Lemma POST_store (req : ChatRoute.Request) (now date_now : Z) (store : Store) :
  fst (fst (ChatRoute.POST ratelimit_limit toISOString req now date_now store))
  = fst (ratelimit_limit (ChatRoute.identifier req) now store).
Proof.
  unfold ChatRoute.POST.
  destruct (ratelimit_limit (ChatRoute.identifier req) now store) as [store' r].
  destruct (negb (success r)); [done|].
  destruct (ChatRoute.req_json req) as [body | e]; [|done].
  by destruct (ChatRoute.messages_of body).
Qed.

Lemma POST_refused (req : ChatRoute.Request) (now date_now : Z) (store : Store) :
  Traffic.refused
    (snd (fst (ChatRoute.POST ratelimit_limit toISOString req now date_now store)),
     snd (ChatRoute.POST ratelimit_limit toISOString req now date_now store))
  = negb (success (snd (ratelimit_limit (ChatRoute.identifier req) now store))).
Proof.
  unfold ChatRoute.POST.
  destruct (ratelimit_limit (ChatRoute.identifier req) now store) as [store' r].
  cbn [snd]. destruct (success r); cbn [negb]; [|done].
  destruct (ChatRoute.req_json req) as [body | e]; [|done].
  by destruct (ChatRoute.messages_of body).
Qed.

(** A request the limiter admits has its body read. *)
Lemma POST_admits (req : ChatRoute.Request) (now date_now : Z) (store : Store) :
  success (snd (ratelimit_limit (ChatRoute.identifier req) now store)) = true ->
  In ChatRoute.Ev_req_json
     (snd (fst (ChatRoute.POST ratelimit_limit toISOString req now date_now store))).
Proof.
  unfold ChatRoute.POST.
  destruct (ratelimit_limit (ChatRoute.identifier req) now store) as [store' r].
  cbn [snd]. intros ->. cbn [negb].
  destruct (ChatRoute.req_json req) as [body | e]; [|cbn; tauto].
  destruct (ChatRoute.messages_of body); cbn; tauto.
Qed.

Lemma serve_cons (a : Traffic.Arrival) (arrivals : list Traffic.Arrival) (store : Store) :
  let result :=
    ChatRoute.POST ratelimit_limit toISOString (Traffic.arrival_req a)
      (Traffic.arrival_now a) (Traffic.arrival_date_now a) store in
  Traffic.serve ratelimit_limit toISOString (a :: arrivals) store
  = (fst (Traffic.serve ratelimit_limit toISOString arrivals (fst (fst result))),
     (snd (fst result), snd result)
     :: snd (Traffic.serve ratelimit_limit toISOString arrivals (fst (fst result)))).
Proof.
  cbv zeta. cbn [Traffic.serve].
  destruct (ChatRoute.POST _ _ _ _ _ store) as [[store' events] response].
  cbn [fst snd]. by destruct (Traffic.serve _ _ arrivals store').
Qed.

Lemma serve_app (arrivals : list Traffic.Arrival) (next : Traffic.Arrival) :
  forall store : Store,
    let result :=
      ChatRoute.POST ratelimit_limit toISOString (Traffic.arrival_req next)
        (Traffic.arrival_now next) (Traffic.arrival_date_now next)
        (fst (Traffic.serve ratelimit_limit toISOString arrivals store)) in
    snd (Traffic.serve ratelimit_limit toISOString (arrivals ++ [next]) store)
    = snd (Traffic.serve ratelimit_limit toISOString arrivals store)
      ++ [(snd (fst result), snd result)].
Proof.
  induction arrivals as [|a arrivals IH]; intros store; cbv zeta.
  - rewrite app_nil_l, serve_cons. reflexivity.
  - rewrite <- app_comm_cons, !serve_cons. cbn [fst snd app]. f_equal. apply IH.
Qed.

End Served.

(** The store and the admissions of the route are those of the limiter
    called once for each request. *)
Lemma serve_run (l : Limiter) (toISOString : Z -> string) (identifier : string)
    (arrivals : list Traffic.Arrival) :
  forall store : gmap string (list Z),
    fst (Traffic.serve (slidingWindow_limit l) toISOString arrivals store)
    = fst (run l (Traffic.limiter_calls arrivals) store)
    /\ Traffic.served identifier arrivals
         (snd (Traffic.serve (slidingWindow_limit l) toISOString arrivals store))
       = admitted identifier (Traffic.limiter_calls arrivals)
           (snd (run l (Traffic.limiter_calls arrivals) store)).
Proof.
  induction arrivals as [|a arrivals IH]; intros store; [done|].
  rewrite serve_cons. cbn [Traffic.limiter_calls List.map].
  rewrite run_cons. cbn [fst snd Traffic.served admitted].
  rewrite POST_refused, negb_involutive, POST_store.
  destruct (IH (fst (slidingWindow_limit l (ChatRoute.identifier (Traffic.arrival_req a))
                       (Traffic.arrival_now a) store))) as [Hstore Hserved].
  split; [exact Hstore|]. unfold Traffic.limiter_calls in Hserved. by rewrite Hserved.
Qed.

Lemma in_order_chronological (arrivals : list Traffic.Arrival) :
  forall from : Z,
    Traffic.in_order from arrivals -> chronological from (Traffic.limiter_calls arrivals).
Proof.
  induction arrivals as [|a arrivals IH]; intros from; [done|].
  cbn. intros [Hle Hrest]. split; [done|]. by apply IH.
Qed.

Lemma limiter_calls_times (arrivals : list Traffic.Arrival) :
  List.map fst (Traffic.limiter_calls arrivals) = List.map Traffic.arrival_now arrivals.
Proof. unfold Traffic.limiter_calls. rewrite List.map_map. reflexivity. Qed.

(** C4: under the limiter configured for the route, twenty admissions per
    minute, along any sequence of requests handled by [POST] in the order
    of their times, starting with an empty store, no window of sixty seconds
    holds more than twenty requests of one identity that the route did not
    refuse. A request that arrives when twenty requests of its identity
    were served within the sixty seconds before it is answered with status
    429 before the request body is read or the model is called, the body
    carrying the limit 20, remaining 0 and a reset time after the time of
    the request, and the rate-limit headers carrying the same three values;
    a request that arrives when fewer were served is not refused, and its
    body is read. *)
Theorem rate_limit_rejection (toISOString : Z -> string)
    (arrivals : list Traffic.Arrival) (from : Z) :
  Traffic.in_order from arrivals ->
  let route := Traffic.serve (slidingWindow_limit ChatRoute.ratelimit) toISOString in
  let answers := snd (route arrivals ∅) in
  (forall (identifier : string) (T : Z),
      (admitted_in_window ChatRoute.one_minute T (Traffic.served identifier arrivals answers)
       <= 20)%nat)
  /\ (forall next : Traffic.Arrival,
      let req := Traffic.arrival_req next in
      let now := Traffic.arrival_now next in
      let before :=
        admitted_in_window ChatRoute.one_minute now
          (Traffic.served (ChatRoute.identifier req) arrivals answers) in
      List.last (List.map Traffic.arrival_now arrivals) from <= now ->
      (before = 20%nat ->
       exists reset : Z,
         now < reset
         /\ snd (route (arrivals ++ [next]) ∅)
            = answers
              ++ [([ChatRoute.Ev_limit (ChatRoute.identifier req)],
                   Ok {| ChatRoute.status := 429;
                         ChatRoute.resp_headers :=
                           [("Content-Type", "application/json");
                            ("X-RateLimit-Limit", "20");
                            ("X-RateLimit-Remaining", "0");
                            ("X-RateLimit-Reset", toISOString reset)];
                         ChatRoute.resp_body :=
                           ChatRoute.JsonBody (JObj
                             [("error", JStr "Too many requests");
                              ("message",
                               JStr "You've reached the maximum number of requests allowed.");
                              ("limit", JNum 20);
                              ("remaining", JNum 0);
                              ("reset", JStr (toISOString reset));
                              ("resetSeconds",
                               JNum (ChatRoute.ceil_div
                                       (reset - Traffic.arrival_date_now next) 1000))]) |})])
      /\ ((before < 20)%nat ->
          exists answer : Traffic.Answer,
            snd (route (arrivals ++ [next]) ∅) = answers ++ [answer]
            /\ Traffic.refused answer = false
            /\ In ChatRoute.Ev_req_json (fst answer))).
Proof.
  intros Horder route answers.
  assert (Htokens : 0 <= tokens ChatRoute.ratelimit) by (cbn; lia).
  assert (Hrun : forall identifier,
             consistent ChatRoute.ratelimit identifier
               (List.last (List.map Traffic.arrival_now arrivals) from)
               (fst (route arrivals ∅)) (Traffic.served identifier arrivals answers)).
  { intros identifier. subst route answers.
    destruct (serve_run ChatRoute.ratelimit toISOString identifier arrivals ∅)
      as [-> ->].
    rewrite <- limiter_calls_times.
    pose proof (run_consistent ChatRoute.ratelimit identifier
                  (Traffic.limiter_calls arrivals) from ∅ []
                  (in_order_chronological arrivals from Horder)
                  (consistent_empty ChatRoute.ratelimit identifier Htokens from)) as Hc.
    by rewrite app_nil_r in Hc. }
  split.
  - intros identifier T.
    pose proof (quota_kept _ _ _ _ _ (Hrun identifier) T) as Hq.
    cbn [tokens ChatRoute.ratelimit slidingWindow window] in Hq. lia.
  - intros next req now before Hlast.
    destruct (Hrun (ChatRoute.identifier req)) as [Hpast Hlive _].
    cbn [window ChatRoute.ratelimit slidingWindow] in Hlive.
    set (store := fst (route arrivals ∅)) in *.
    assert (Hlog : List.length (live ChatRoute.one_minute now
                      (default [] (store !! ChatRoute.identifier req))) = before).
    { rewrite (Hlive now Hlast). subst before.
      symmetry. apply (window_is_live ChatRoute.ratelimit).
      eapply Forall_impl; [exact Hpast|]. cbn. lia. }
    subst route. rewrite serve_app. fold answers. fold store.
    fold req. fold now.
    split.
    + intros Hfull. rewrite Hfull in Hlog.
      pose proof (limit_when_full ChatRoute.ratelimit (ChatRoute.identifier req) now store
                    Htokens) as Hanswer.
      cbn [tokens window ChatRoute.ratelimit slidingWindow] in Hanswer.
      rewrite Hlog in Hanswer. specialize (Hanswer eq_refl).
      exists (reset_at ChatRoute.one_minute now
                (live ChatRoute.one_minute now
                   (default [] (store !! ChatRoute.identifier req)))).
      split; [|rewrite POST_rejects; rewrite Hanswer; done].
      unfold reset_at.
      pose proof (last_Forall (fun t => now - ChatRoute.one_minute < t)
                    (live ChatRoute.one_minute now
                       (default [] (store !! ChatRoute.identifier req))) now
                    (live_Forall ChatRoute.ratelimit now _)) as Hold.
      cbn beta in Hold.
      assert (now - ChatRoute.one_minute
              < List.last (live ChatRoute.one_minute now
                             (default [] (store !! ChatRoute.identifier req))) now); [|lia].
      apply Hold. intros Hnil. by rewrite Hnil in Hlog.
    + intros Hroom.
      assert (Hsuccess : success (snd (slidingWindow_limit ChatRoute.ratelimit
                                         (ChatRoute.identifier req) now store)) = true).
      { apply limit_when_room. cbn [tokens window ChatRoute.ratelimit slidingWindow].
        rewrite Hlog. lia. }
      eexists. split; [reflexivity|]. split.
      * by rewrite POST_refused, Hsuccess.
      * cbn [fst]. by apply POST_admits.
Qed.

Lemma rate_limit_rejection_witness :
  exists reset : Z,
    21000 < reset
    /\ snd (Traffic.serve (slidingWindow_limit ChatRoute.ratelimit) Z_to_string
              (Samples.twenty_arrivals ++ [Samples.twenty_first_arrival]) ∅)
       = snd (Traffic.serve (slidingWindow_limit ChatRoute.ratelimit) Z_to_string
                Samples.twenty_arrivals ∅)
         ++ [([ChatRoute.Ev_limit "anonymous:unknown"],
              Ok {| ChatRoute.status := 429;
                    ChatRoute.resp_headers :=
                      [("Content-Type", "application/json");
                       ("X-RateLimit-Limit", "20");
                       ("X-RateLimit-Remaining", "0");
                       ("X-RateLimit-Reset", Z_to_string reset)];
                    ChatRoute.resp_body :=
                      ChatRoute.JsonBody (JObj
                        [("error", JStr "Too many requests");
                         ("message",
                          JStr "You've reached the maximum number of requests allowed.");
                         ("limit", JNum 20);
                         ("remaining", JNum 0);
                         ("reset", JStr (Z_to_string reset));
                         ("resetSeconds", JNum (ChatRoute.ceil_div (reset - 21005) 1000))]) |})].
Proof.
  apply (proj1 (proj2 (rate_limit_rejection Z_to_string Samples.twenty_arrivals 0
                         ltac:(cbn; lia)) Samples.twenty_first_arrival
                  ltac:(vm_compute; discriminate))).
  vm_compute. reflexivity.
Defined.

(** ** Tool-call rounds *)

Section Rounds.

Variable model : list Orchestrator.Message -> Orchestrator.ModelOutput.
Variable tool : Json -> string.




End Rounds.


Example fourth_round_refused :
  Orchestrator.conversationTurn Samples.searching_model Samples.table_tool
    [Orchestrator.UserMessage "quiero un televisor"]
  = {| Orchestrator.rounds := [JObj [("query", JStr "televisor")];
                               JObj [("query", JStr "televisor")];
                               JObj [("query", JStr "televisor")]];
       Orchestrator.answer := "Busco. Busco. Busco. Busco. ";
       Orchestrator.termination := Orchestrator.BudgetExceeded |}.
Proof. reflexivity. Qed.

(** ** Worked examples *)

(** The table for one hit: the feature marked [NO ESPECIFICA] is dropped,
    only the first image is kept, and the top store stands in for the
    missing list of stores. *)
Example compress_one_hit :
  compressProductData Samples.one_hit
  = "## Product Search Results" +:+ nl
    +:+ "*Query: " +:+ dquote +:+ "tv" +:+ dquote +:+ " - Found: 1 (Page 1)*" +:+ nl +:+ nl
    +:+ "| Title | Brand | Model | Price | Features | Image | Stores |" +:+ nl
    +:+ "|-------|-------|-------|-------|----------|-------|--------|" +:+ nl
    +:+ "| Televisor LG LED 55 | LG | 55UQ8050 | 1299 | pantalla: 55, hdmi: 3 | "
    +:+ "![Image](https://img.compy.pe/1.jpg) | Falabella |" +:+ nl.
Proof. reflexivity. Qed.

(** Twenty calls of one client within a minute are admitted, the
    twenty-first is refused, a call of another client at the same moment is
    admitted, and so is a call of the first client once its oldest
    admission is a minute old. *)
Example twenty_then_refused :
  List.map success
    (snd (run ChatRoute.ratelimit
            (Samples.twenty_calls
             ++ [(21000, "anonymous:unknown"); (21000, "190.12.0.7:Mozilla/5.0");
                 (61000, "anonymous:unknown")]) ∅))
  = List.repeat true 20 ++ [false; true; true].
Proof. by vm_compute. Qed.

(** A refused tool invocation and an unreachable backend issue no request
    and one request respectively, and both end in an exception. *)
Example tool_failures :
  ChatRoute.call_tool None Samples.backend_down Samples.text_for_price = ([], Throw ZodError)
  /\ snd (ChatRoute.call_tool None Samples.backend_down
            (JObj [("query", JStr "tv")])) = Throw TypeError_fetch_failed
  /\ snd (ChatRoute.call_tool None Samples.backend_401
            (JObj [("query", JStr "tv")])) = Throw TypeError_undefined_map.
Proof. by vm_compute. Qed.

(** Header-less clients draw on one bucket: after twenty admitted calls
    under [anonymous:unknown], another header-less request is answered 429
    while a request with both headers is served. *)
Example shared_bucket :
  let store := fst (run ChatRoute.ratelimit Samples.twenty_calls ∅) in
  let served request :=
    match snd (ChatRoute.POST (slidingWindow_limit ChatRoute.ratelimit) Z_to_string
                 request 21000 21005 store) with
    | Ok response => Some (ChatRoute.status response)
    | Throw _ => None
    end in
  served Samples.other_bare_request = Some 429
  /\ served Samples.browser_request = Some 200.
Proof. by vm_compute. Qed.

(** Twenty requests of one header-less client within a minute are served
    by the route and the twenty-first is refused. *)
Example twenty_served_then_refused :
  List.map Traffic.refused
    (snd (Traffic.serve (slidingWindow_limit ChatRoute.ratelimit) Z_to_string
            (Samples.twenty_arrivals ++ [Samples.twenty_first_arrival]) ∅))
  = List.repeat false 20 ++ [true].
Proof. by vm_compute. Qed.

(** A request whose body is the JSON value [null] spends an admission and
    throws before the model is called. *)
Example null_body_throws :
  ChatRoute.POST (slidingWindow_limit ChatRoute.ratelimit) Z_to_string
    {| ChatRoute.req_headers := []; ChatRoute.req_json := Ok JNull |} 1000 1005 ∅
  = ({[ "anonymous:unknown" := [1000] ]},
     [ChatRoute.Ev_limit "anonymous:unknown"; ChatRoute.Ev_req_json],
     Throw TypeError_destructure_null).
Proof. by vm_compute. Qed.

(** A request with both headers is limited under its own key. *)
Example browser_identifier :
  ChatRoute.identifier Samples.browser_request = "190.12.0.7:Mozilla/5.0".
Proof. reflexivity. Qed.

(** * Further properties of the code *)

(** ** The route handler *)

Section HandlerOutcomes.

Context {Store : Type}.
Variable ratelimit_limit : string -> Z -> Store -> Store * RatelimitResponse.
Variable toISOString : Z -> string.

(** X1: whatever the limiter, [POST] charges the limiter once per request
    and keeps its updated store in every case; it answers 429 exactly when
    the limiter refuses; it reads the request body exactly when the limiter
    admits; it calls [streamText] exactly when the limiter admits and the
    body is JSON other than [null], and then answers 200 with the stream
    over the [messages] of the body; and it throws exactly when the limiter
    admits and either reading the body throws, with that error, or the body
    is [null], which cannot be destructured. *)
Theorem POST_outcomes (req : ChatRoute.Request) (now date_now : Z) (store : Store) :
  let answer := ratelimit_limit (ChatRoute.identifier req) now store in
  let result := ChatRoute.POST ratelimit_limit toISOString req now date_now store in
  fst (fst result) = fst answer
  /\ List.filter (fun event => match event with ChatRoute.Ev_limit _ => true | _ => false end)
       (snd (fst result)) = [ChatRoute.Ev_limit (ChatRoute.identifier req)]
  /\ (In ChatRoute.Ev_req_json (snd (fst result)) <-> success (snd answer) = true)
  /\ (In ChatRoute.Ev_streamText (snd (fst result))
      <-> success (snd answer) = true
          /\ exists body, ChatRoute.req_json req = Ok body /\ body <> JNull)
  /\ ((exists response, snd result = Ok response /\ ChatRoute.status response = 429)
      <-> success (snd answer) = false)
  /\ (forall response,
        snd result = Ok response -> ChatRoute.status response <> 429 ->
        In ChatRoute.Ev_streamText (snd (fst result))
        /\ exists body : Json,
            ChatRoute.req_json req = Ok body
            /\ response
               = {| ChatRoute.status := 200; ChatRoute.resp_headers := [];
                    ChatRoute.resp_body :=
                      ChatRoute.DataStream
                        match body with
                        | JObj props => assoc "messages" props
                        | _ => None
                        end |})
  /\ (forall e, snd result = Throw e
                <-> success (snd answer) = true
                    /\ (ChatRoute.req_json req = Throw e
                        \/ (ChatRoute.req_json req = Ok JNull
                            /\ e = TypeError_destructure_null))).
Proof.
  cbv zeta. unfold ChatRoute.POST.
  destruct (ratelimit_limit (ChatRoute.identifier req) now store) as [store' r].
  cbn [fst snd].
  destruct (success r); cbn [negb];
    [destruct (ChatRoute.req_json req) as [body | e0];
     [destruct body as [|b|n|text|items|props]|]|];
    cbn [fst snd List.filter In ChatRoute.messages_of ChatRoute.status];
    repeat split; intros;
    repeat match goal with
           | H : _ \/ _ |- _ => destruct H
           | H : _ /\ _ |- _ => destruct H
           | H : exists _, _ |- _ => destruct H
           | H : False |- _ => destruct H
           | H : Ok _ = Ok _ |- _ => injection H as <-
           end;
    try discriminate; try congruence; eauto 6;
    try (left; congruence); try (right; split; congruence);
    try (exfalso; cbn [ChatRoute.status ChatRoute.too_many_requests] in *; congruence).
Qed.

(** X2: the [resetSeconds] of a rejection is the remaining time rounded up
    to whole seconds: the least number of seconds that covers the time from
    the moment the rejection is built to the reset. *)
Theorem resetSeconds_is_ceiling (r : RatelimitResponse) (date_now : Z) :
  exists (props : list (string * Json)) (seconds : Z),
    ChatRoute.resp_body (ChatRoute.too_many_requests toISOString r date_now)
    = ChatRoute.JsonBody (JObj props)
    /\ assoc "resetSeconds" props = Some (JNum seconds)
    /\ 1000 * (seconds - 1) < reset r - date_now <= 1000 * seconds.
Proof.
  eexists _, _. split; [reflexivity|]. split; [reflexivity|].
  unfold ChatRoute.ceil_div.
  pose proof (Z.div_mod (- (reset r - date_now)) 1000 ltac:(lia)).
  pose proof (Z.mod_pos_bound (- (reset r - date_now)) 1000 ltac:(lia)).
  lia.
Qed.

End HandlerOutcomes.

(** ** Client identity *)

Section IdentifierShape.

Lemma identifier_request_from (forwarded_for user_agent : string) :
  ChatRoute.identifier (Update.request_from forwarded_for user_agent)
  = forwarded_for +:+ ":" +:+ user_agent.
Proof. reflexivity. Qed.

Lemma colon_separates (a a' b b' : string) :
  Update.has_colon a = false -> Update.has_colon a' = false ->
  a +:+ String ":" b = a' +:+ String ":" b' -> a = a' /\ b = b'.
Proof.
  revert a'. induction a as [|c a IH]; intros [|c' a'] Ha Ha' Heq.
  - change (String ":" b = String ":" b') in Heq. by injection Heq as ->.
  - change (String ":" b = String c' (a' +:+ String ":" b')) in Heq.
    injection Heq as <- _. cbn in Ha'. done.
  - change (String c (a +:+ String ":" b) = String ":" b') in Heq.
    injection Heq as -> _. cbn in Ha. done.
  - change (String c (a +:+ String ":" b) = String c' (a' +:+ String ":" b')) in Heq.
    injection Heq as -> Heq.
    cbn in Ha, Ha'. apply orb_false_elim in Ha as [_ Ha].
    apply orb_false_elim in Ha' as [_ Ha'].
    destruct (IH a' Ha Ha' Heq) as [-> ->]. done.
Qed.

(** X3: the rate-limit key joins the forwarded address and the user agent
    with a colon and nothing else, so the key tells the two apart only when
    the address holds no colon: two requests whose addresses are free of
    colons and whose keys are equal have the same address and the same user
    agent, while an address [a:b] with agent [c] and the address [a] with
    agent [b:c] share one key. *)
Theorem identifier_separates_without_colon :
  (forall forwarded_for user_agent forwarded_for' user_agent' : string,
      Update.has_colon forwarded_for = false ->
      Update.has_colon forwarded_for' = false ->
      ChatRoute.identifier (Update.request_from forwarded_for user_agent)
      = ChatRoute.identifier (Update.request_from forwarded_for' user_agent') ->
      forwarded_for = forwarded_for' /\ user_agent = user_agent')
  /\ (forall a b c : string,
      ChatRoute.identifier (Update.request_from (a +:+ ":" +:+ b) c)
      = ChatRoute.identifier (Update.request_from a (b +:+ ":" +:+ c))).
Proof.
  split.
  - intros f u f' u' Hf Hf'. rewrite !identifier_request_from.
    by apply colon_separates.
  - intros a b c. rewrite !identifier_request_from. by rewrite !append_assoc.
Qed.

Lemma identifier_separates_without_colon_witness :
  "190.12.0.7" = "190.12.0.7" /\ "Mozilla/5.0" = "Mozilla/5.0".
Proof.
  apply (proj1 identifier_separates_without_colon
           "190.12.0.7" "Mozilla/5.0" "190.12.0.7" "Mozilla/5.0"); reflexivity.
Defined.

End IdentifierShape.

(** ** The search request *)

Section SearchRequest.

Variable api_key : option string.
Variable fetch : ChatRoute.FetchRequest -> ChatRoute.FetchResult.

(** X4: every run of [execute] issues exactly one request, a GET to the
    search endpoint of the products collection, whose parameters carry the
    query as given, the two weighted query fields, the fixed sort order and
    a page size of ten whatever the price bounds are, and whose API-key
    header is the configured key, or the empty string when none is
    configured. *)
Theorem search_request_shape (args : ChatRoute.Args) :
  exists request : ChatRoute.FetchRequest,
    fst (ChatRoute.execute api_key fetch args) = [request]
    /\ ChatRoute.f_method request = "GET"
    /\ ChatRoute.f_url request
       = "https://typesense2.compy.pe/collections/products/documents/search"
    /\ ChatRoute.searchParams_get (ChatRoute.f_search request) "q"
       = Some (ChatRoute.query args)
    /\ ChatRoute.searchParams_get (ChatRoute.f_search request) "query_by"
       = Some "title_infix,combined_text"
    /\ ChatRoute.searchParams_get (ChatRoute.f_search request) "query_by_weights"
       = Some "3,2"
    /\ ChatRoute.searchParams_get (ChatRoute.f_search request) "sort_by"
       = Some "top:desc,percent_offer:desc"
    /\ ChatRoute.searchParams_get (ChatRoute.f_search request) "per_page" = Some "10"
    /\ List.length (ChatRoute.f_search request)
       = (5 + if Nat.ltb 0 (List.length (ChatRoute.queryByItems args)) then 1 else 0)%nat
    /\ ChatRoute.f_headers request = [("X-TYPESENSE-API-KEY", default EmptyString api_key)].
Proof.
  exists (ChatRoute.fetch_request api_key args).
  split.
  { unfold ChatRoute.execute.
    destruct (fetch (ChatRoute.fetch_request api_key args)) as [|status [| |]]; done. }
  unfold ChatRoute.fetch_request. cbn [ChatRoute.f_method ChatRoute.f_url
    ChatRoute.f_search ChatRoute.f_headers].
  unfold ChatRoute.searchParams.
  destruct (Nat.ltb 0 (List.length (ChatRoute.queryByItems args)));
    repeat split; try reflexivity;
    destruct api_key as [[|c k]|]; reflexivity.
Qed.

End SearchRequest.

(** ** More on result compression *)

Section CompressionShape.

Lemma join_empty_app (xs ys : list string) :
  join EmptyString (xs ++ ys) = join EmptyString xs +:+ join EmptyString ys.
Proof.
  induction xs as [|x xs IH]; [done|].
  change ((x :: xs) ++ ys) with (x :: (xs ++ ys)).
  by rewrite !join_empty_cons, IH, append_assoc.
Qed.

(** X5: the table grows by rows only. The output for a response with
    further hits appended is the output for the response followed by the
    rows of the further hits, so the header and the rows already produced
    do not depend on the hits that follow. *)
Theorem compress_appends_rows (data : ProductSearchResults) (more : list Hit) :
  compressProductData (Update.with_hits data (hits data ++ more))
  = compressProductData data
    +:+ join EmptyString (List.map (fun hit => row (product_of_hit hit)) more).
Proof.
  unfold compressProductData. rewrite !formatAsMarkdown_rows.
  cbn [hits Update.with_hits found request_params page].
  rewrite !List.map_app, !List.map_map, join_empty_app, append_assoc.
  reflexivity.
Qed.

Lemma declared_not_feature (doc : Document) :
  List.filter (is_feature doc) (List.map fst (declared_props doc)) = [].
Proof.
  unfold declared_props.
  destruct (topstore doc), (stores doc), (images doc), (url_compy doc); reflexivity.
Qed.

Lemma doc_get_feature (doc : Document) (key : string) :
  startsWith key "f." = true -> doc_get doc key = assoc key (attrs doc).
Proof.
  intros Hprefix. unfold doc_get, document_props, declared_props.
  apply String.prefix_correct in Hprefix.
  destruct key as [|c1 [|c2 rest]]; try discriminate.
  cbn in Hprefix. injection Hprefix as -> _.
  destruct (topstore doc), (stores doc), (images doc), (url_compy doc); reflexivity.
Qed.

Lemma feature_keys_from_attrs (doc : Document) :
  List.filter (is_feature doc) (Object_keys doc)
  = List.filter (is_feature doc) (List.map fst (attrs doc)).
Proof.
  unfold Object_keys, document_props.
  by rewrite List.map_app, List.filter_app, declared_not_feature.
Qed.

Lemma assoc_None {A : Type} (name : string) (pairs : list (string * A)) :
  assoc name pairs = None -> ~ In name (List.map fst pairs).
Proof.
  induction pairs as [|[k w] pairs IH]; [by intros _ []|].
  cbn [assoc List.map fst In].
  destruct (String.eqb_spec k name) as [-> | Hne]; [done|].
  intros Hnone [Heq | Hin]; [done | by apply IH].
Qed.

Lemma join_nonempty (sep x : string) (parts : list string) :
  join sep (x :: parts) = EmptyString -> x = EmptyString.
Proof.
  destruct parts as [|y parts]; [done|].
  change (join sep (x :: y :: parts)) with (x +:+ sep +:+ join sep (y :: parts)).
  by destruct x.
Qed.

(** X6: the feature string is built from the dynamic attributes alone. It
    is the entries, joined by a comma and a space, of exactly the
    attributes whose key starts with [f.] and whose value is not the string
    [NO ESPECIFICA], each as its key without the prefix, a colon and its
    value; no declared field (title, brand, price, ...) and no unspecified
    attribute contributes an entry; and the string is empty exactly when
    there is no such attribute. *)
Theorem features_from_attributes (doc : Document) :
  exists entries : list string,
    features doc = join ", " entries
    /\ (forall entry : string,
          In entry entries
          <-> exists (key : string) (v : Json),
                In key (List.map fst (attrs doc))
                /\ assoc key (attrs doc) = Some v
                /\ startsWith key "f." = true
                /\ v <> JStr "NO ESPECIFICA"
                /\ entry = substring_from 2 key +:+ ": " +:+ toString v)
    /\ (features doc = EmptyString <-> entries = []).
Proof.
  exists (List.map (render_feature doc) (List.filter (is_feature doc) (Object_keys doc))).
  split; [reflexivity|]. split.
  - intros entry. rewrite feature_keys_from_attrs, in_map_iff. split.
    + intros (key & <- & Hkey). apply filter_In in Hkey as [Hin Hfeature].
      unfold is_feature in Hfeature. apply andb_prop in Hfeature as [Hprefix Hvalue].
      rewrite (doc_get_feature doc key Hprefix) in Hvalue.
      destruct (assoc key (attrs doc)) as [v|] eqn:Hget.
      * exists key, v. repeat split; try done.
        -- intros ->. by cbn in Hvalue.
        -- unfold render_feature. by rewrite (doc_get_feature doc key Hprefix), Hget.
      * exfalso. by apply (assoc_None key (attrs doc)).
    + intros (key & v & Hin & Hget & Hprefix & Hvalue & ->).
      exists key. split.
      * unfold render_feature. by rewrite (doc_get_feature doc key Hprefix), Hget.
      * apply filter_In. split; [done|]. unfold is_feature.
        rewrite Hprefix, (doc_get_feature doc key Hprefix), Hget. cbn.
        destruct v as [| | |s| |]; try done.
        destruct (String.eqb_spec s "NO ESPECIFICA") as [-> | _]; done.
  - unfold features.
    destruct (List.filter (is_feature doc) (Object_keys doc)) as [|key keys]; [done|].
    cbn [List.map]. split; [|done].
    intros Hempty. apply join_nonempty in Hempty. unfold render_feature in Hempty.
    by destruct (substring_from 2 key).
Qed.

Lemma features_attrs_only (doc doc' : Document) :
  attrs doc = attrs doc' -> features doc = features doc'.
Proof.
  intros Hattrs. unfold features. f_equal.
  rewrite !feature_keys_from_attrs, <- Hattrs.
  assert (Hsame : forall key, startsWith key "f." = true ->
                              is_feature doc key = is_feature doc' key
                              /\ render_feature doc key = render_feature doc' key).
  { intros key Hprefix. unfold is_feature, render_feature.
    by rewrite !(doc_get_feature _ key Hprefix), Hattrs. }
  induction (List.map fst (attrs doc)) as [|key keys IH]; [done|].
  cbn [List.filter].
  destruct (startsWith key "f.") eqn:Hprefix.
  - destruct (Hsame key Hprefix) as [<- Hrender].
    destruct (is_feature doc key); [|done].
    cbn [List.map]. by rewrite Hrender, IH.
  - assert (Hdoc : is_feature doc key = false)
      by (unfold is_feature; by rewrite Hprefix).
    assert (Hdoc' : is_feature doc' key = false)
      by (unfold is_feature; by rewrite Hprefix).
    rewrite Hdoc, Hdoc'. apply IH.
Qed.

(** X7: the table prints a hit's title, brand, model, price, features,
    first image and stores, and nothing else of it: replacing the address
    of the product ([url], [url_compy]), its [active] flag, every image
    after the first, and the highlights and match scores of every hit by
    other values leaves the output unchanged. In particular the compressed
    table carries no product address. *)
Theorem compress_ignores_unprinted (data : ProductSearchResults)
    (other : Hit) (later : list string) :
  compressProductData
    (Update.with_hits data
       (List.map (fun hit => Update.with_unprinted hit other later) (hits data)))
  = compressProductData data.
Proof.
  unfold compressProductData. rewrite !formatAsMarkdown_rows.
  cbn [hits Update.with_hits found request_params page].
  unfold header. cbn [total_found search_query s_page].
  rewrite !List.map_map. do 2 f_equal.
  apply List.map_ext. intros hit.
  unfold row, imageCell, product_of_hit.
  cbn [p_title p_brand p_model p_price p_features p_image p_stores
       Update.with_unprinted document title brand repmodel bestprice].
  rewrite (features_attrs_only _ (document hit)) by reflexivity.
  unfold firstImage, storesList.
  cbn [images stores topstore Update.with_other_images].
  by destruct (images (document hit)) as [[|first rest]|].
Qed.

End CompressionShape.

(** ** The CORS middleware *)

Section Cors.

Lemma isAllowedOrigin_In (request : Middleware.NextRequest) :
  Middleware.isAllowedOrigin request = true
  <-> In (Middleware.origin request) Middleware.allowedOrigins.
Proof.
  unfold Middleware.isAllowedOrigin. rewrite List.existsb_exists. split.
  - intros (o & Hin & Heq). apply String.eqb_eq in Heq. by subst.
  - intros Hin. exists (Middleware.origin request). by rewrite String.eqb_refl.
Qed.

(** X8: the middleware never grants a foreign origin. Whatever the
    request, an [Access-Control-Allow-Origin] header it sets names an
    origin of the allow list; an allowed origin is always granted by name;
    for an origin that is not allowed (or a request with no origin), a
    request other than a preflight passes through with no header added,
    and a preflight is answered 204 naming the first origin of the list. *)
Theorem middleware_grants_listed_origins (request : Middleware.NextRequest) :
  let granted :=
    assoc "Access-Control-Allow-Origin"
      (Middleware.response_headers (Middleware.middleware request)) in
  (forall o, granted = Some o -> In o Middleware.allowedOrigins)
  /\ (In (Middleware.origin request) Middleware.allowedOrigins ->
      granted = Some (Middleware.origin request))
  /\ (~ In (Middleware.origin request) Middleware.allowedOrigins ->
      if String.eqb (Middleware.method request) "OPTIONS"
      then exists headers, Middleware.middleware request = Middleware.Respond 204 headers
                           /\ granted = Some "http://localhost:5173"
      else Middleware.middleware request = Middleware.Next []).
Proof.
  cbv zeta. unfold Middleware.middleware.
  pose proof (isAllowedOrigin_In request) as [Hin Hallowed].
  destruct (Middleware.isAllowedOrigin request);
    destruct (String.eqb (Middleware.method request) "OPTIONS");
    cbn [Middleware.response_headers assoc String.eqb Ascii.eqb Bool.eqb].
  - split; [|split]; [by intros o [= <-]; apply Hin | done |].
    intros Hforeign. by destruct Hforeign; apply Hin.
  - split; [|split]; [by intros o [= <-]; apply Hin | done |].
    intros Hforeign. by destruct Hforeign; apply Hin.
  - split; [|split].
    + intros o [= <-]. by left.
    + intros Hlisted. by specialize (Hallowed Hlisted).
    + intros _. by eexists.
  - split; [|split]; [done | | done].
    intros Hlisted. by specialize (Hallowed Hlisted).
Qed.

Lemma middleware_grants_listed_origins_witness :
  assoc "Access-Control-Allow-Origin"
    (Middleware.response_headers (Middleware.middleware Update.compy_request))
  = Some "https://compy.pe".
Proof.
  apply (proj1 (proj2 (middleware_grants_listed_origins Update.compy_request))).
  cbn. tauto.
Defined.

(** X9: the later version of the middleware grants credentials only with a
    listed origin. The origin it names is always of the allow list, and on
    a request other than a preflight the [Access-Control-Allow-Credentials]
    header is set exactly when the request's origin is allowed, together
    with that origin. *)
Theorem middleware_credentials_listed_origins (request : Middleware.NextRequest) :
  let headers := Middleware.response_headers (Middleware.middleware_credentials request) in
  (forall o, assoc "Access-Control-Allow-Origin" headers = Some o ->
             In o Middleware.allowedOrigins)
  /\ (In (Middleware.origin request) Middleware.allowedOrigins ->
      assoc "Access-Control-Allow-Origin" headers = Some (Middleware.origin request)
      /\ assoc "Access-Control-Allow-Credentials" headers = Some "true")
  /\ (String.eqb (Middleware.method request) "OPTIONS" = false ->
      (assoc "Access-Control-Allow-Credentials" headers = Some "true"
       <-> In (Middleware.origin request) Middleware.allowedOrigins)).
Proof.
  cbv zeta. unfold Middleware.middleware_credentials.
  pose proof (isAllowedOrigin_In request) as [Hin Hallowed].
  destruct (Middleware.isAllowedOrigin request);
    destruct (String.eqb (Middleware.method request) "OPTIONS");
    cbn [Middleware.response_headers assoc String.eqb Ascii.eqb Bool.eqb].
  - split; [|split]; [by intros o [= <-]; apply Hin | done | done].
  - split; [|split]; [by intros o [= <-]; apply Hin | done |].
    intros _. split; [by intros _; apply Hin | done].
  - split; [|split].
    + intros o [= <-]. by left.
    + intros Hlisted. by specialize (Hallowed Hlisted).
    + done.
  - split; [|split]; [done | |].
    + intros Hlisted. by specialize (Hallowed Hlisted).
    + intros _. split; [done|]. intros Hlisted. by specialize (Hallowed Hlisted).
Qed.

Lemma middleware_credentials_listed_origins_witness :
  assoc "Access-Control-Allow-Origin"
    (Middleware.response_headers (Middleware.middleware_credentials Update.compy_request))
  = Some "https://compy.pe"
  /\ assoc "Access-Control-Allow-Credentials"
       (Middleware.response_headers (Middleware.middleware_credentials Update.compy_request))
     = Some "true".
Proof.
  apply (proj1 (proj2 (middleware_credentials_listed_origins Update.compy_request))).
  cbn. tauto.
Defined.

Example foreign_preflight_answer :
  Middleware.middleware Update.foreign_preflight
  = Middleware.Respond 204
      [("Access-Control-Allow-Origin", "http://localhost:5173");
       ("Access-Control-Allow-Methods", "GET, POST, PUT, DELETE, OPTIONS");
       ("Access-Control-Allow-Headers", "Content-Type, Authorization");
       ("Access-Control-Max-Age", "86400")].
Proof. reflexivity. Qed.

End Cors.

(** ** The chat page *)

Section ProductDetails.

(** X10: toggling the details of a product flips whether that product is
    expanded and nothing else: the product is in the new set exactly when
    it was not in the old one, every other product keeps its state, the
    label of its button changes, and toggling twice gives back the set one
    started from. *)
Theorem toggleProductDetails_flips (productId : string) (prev : gset string) :
  (productId ∈ ChatPage.toggleProductDetails productId prev <-> productId ∉ prev)
  /\ (forall other : string,
      other <> productId ->
      (other ∈ ChatPage.toggleProductDetails productId prev <-> other ∈ prev))
  /\ ChatPage.toggleProductDetails productId
       (ChatPage.toggleProductDetails productId prev) = prev
  /\ ChatPage.toggle_label (ChatPage.toggleProductDetails productId prev) productId
     <> ChatPage.toggle_label prev productId.
Proof.
  unfold ChatPage.toggleProductDetails, ChatPage.toggle_label.
  destruct (decide (productId ∈ prev)) as [Hin | Hout].
  - split; [set_solver|]. split; [set_solver|]. split.
    + rewrite decide_False by set_solver.
      apply set_eq. intros x. destruct (decide (x = productId)); set_solver.
    + rewrite decide_False by set_solver. done.
  - split; [set_solver|]. split; [set_solver|]. split.
    + rewrite decide_True by set_solver. set_solver.
    + rewrite decide_True by set_solver. done.
Qed.

Lemma toggleProductDetails_flips_witness :
  "tv-32" ∈ ChatPage.toggleProductDetails "tv-55" {["tv-32"]} <-> "tv-32" ∈ ({["tv-32"]} : gset string).
Proof.
  apply (proj1 (proj2 (toggleProductDetails_flips "tv-55" {["tv-32"]})) "tv-32").
  discriminate.
Defined.

End ProductDetails.

(** ** Batched upload *)

Section Batches.

Context {A : Type}.

Lemma slice_batch (i : nat) (l : list A) :
  Populate.slice i (i + Populate.BATCH_SIZE) l
  = List.firstn Populate.BATCH_SIZE (List.skipn i l).
Proof. unfold Populate.slice. f_equal. lia. Qed.

Lemma batches_from_concat (fuel : nat) :
  forall (i : nat) (l : list A),
    (List.length l - i <= fuel)%nat ->
    List.concat (Populate.batches_from fuel i l) = List.skipn i l.
Proof.
  induction fuel as [|fuel IH]; intros i l Hfuel; cbn [Populate.batches_from].
  - rewrite List.skipn_all2 by lia. done.
  - destruct (Nat.ltb_spec i (List.length l)) as [Hlt | Hge].
    + cbn [List.concat]. rewrite IH by (unfold Populate.BATCH_SIZE; lia).
      rewrite slice_batch.
      replace (i + Populate.BATCH_SIZE)%nat with (Populate.BATCH_SIZE + i)%nat by lia.
      rewrite <- List.skipn_skipn. apply List.firstn_skipn.
    + rewrite List.skipn_all2 by lia. done.
Qed.

Lemma batches_from_sizes (fuel : nat) :
  forall (i : nat) (l : list A),
    Forall (fun batch => (0 < List.length batch <= Populate.BATCH_SIZE)%nat)
           (Populate.batches_from fuel i l).
Proof.
  induction fuel as [|fuel IH]; intros i l; cbn [Populate.batches_from]; [constructor|].
  destruct (Nat.ltb_spec i (List.length l)) as [Hlt | Hge]; [|constructor].
  constructor; [|apply IH].
  rewrite slice_batch, List.length_firstn, List.length_skipn.
  unfold Populate.BATCH_SIZE. lia.
Qed.

Lemma batches_from_count (fuel : nat) :
  forall (i : nat) (l : list A),
    (List.length l - i <= fuel)%nat ->
    List.length (Populate.batches_from fuel i l)
    = Nat.div (List.length l - i + (Populate.BATCH_SIZE - 1)) Populate.BATCH_SIZE.
Proof.
  unfold Populate.BATCH_SIZE.
  induction fuel as [|fuel IH]; intros i l Hfuel; cbn [Populate.batches_from].
  - replace (List.length l - i)%nat with 0%nat by lia. reflexivity.
  - unfold Populate.BATCH_SIZE.
    destruct (Nat.ltb_spec i (List.length l)) as [Hlt | Hge].
    + cbn [List.length]. rewrite IH by lia.
      destruct (Nat.le_gt_cases (List.length l) (i + 500)) as [Hlast | Hmore].
      * replace (List.length l - (i + 500))%nat with 0%nat by lia.
        change (S (Nat.div (0 + (500 - 1)) 500)) with 1%nat.
        apply (Nat.div_unique _ 500 1 (List.length l - i - 1)); lia.
      * replace (List.length l - i + (500 - 1))%nat
          with (List.length l - (i + 500) + (500 - 1) + 1 * 500)%nat by lia.
        rewrite Nat.div_add by lia. lia.
    + replace (List.length l - i)%nat with 0%nat by lia. reflexivity.
Qed.

(** X11: the batched upload sends every product exactly once, in order:
    the batches, one after the other, are the list of products; no batch is
    empty and none holds more than 500 products; and their number is the
    total the log announces, the count of products over 500 rounded up. The
    loop ends within as many iterations as there are products. *)
Theorem batches_partition (formattedProducts : list A) :
  List.concat (Populate.batches formattedProducts) = formattedProducts
  /\ Forall (fun batch => (0 < List.length batch <= 500)%nat)
            (Populate.batches formattedProducts)
  /\ List.length (Populate.batches formattedProducts)
     = Populate.batch_total formattedProducts.
Proof.
  unfold Populate.batches, Populate.batch_total. split; [|split].
  - by rewrite batches_from_concat by lia.
  - apply batches_from_sizes.
  - rewrite batches_from_count by lia. f_equal. lia.
Qed.

End Batches.

(** ** Unique stores *)

Section Stores.

Lemma Set_add_elem (seen : list string) (value x : string) :
  In x (UniqueStores.Set_add seen value) <-> In x seen \/ x = value.
Proof.
  unfold UniqueStores.Set_add.
  destruct (List.existsb (String.eqb value) seen) eqn:Hseen.
  - apply List.existsb_exists in Hseen as (y & Hy & Heq).
    apply String.eqb_eq in Heq as <-. split; [tauto|]. by intros [Hx | ->].
  - rewrite List.in_app_iff. cbn. split; [intros [Hx | [-> | []]] | intros [Hx | ->]]; tauto.
Qed.

Lemma Set_add_NoDup (seen : list string) (value : string) :
  List.NoDup seen -> List.NoDup (UniqueStores.Set_add seen value).
Proof.
  intros Hnodup. unfold UniqueStores.Set_add.
  destruct (List.existsb (String.eqb value) seen) eqn:Hseen; [done|].
  apply List.NoDup_app; [done | repeat constructor; by intros [] |].
  intros x Hx [-> | []].
  assert (List.existsb (String.eqb x) seen = true); [|congruence].
  apply List.existsb_exists. exists x. by rewrite String.eqb_refl.
Qed.

Lemma fold_Set_add (values : list string) :
  forall seen : list string,
    List.NoDup seen ->
    List.NoDup (List.fold_left UniqueStores.Set_add values seen)
    /\ (forall x, In x (List.fold_left UniqueStores.Set_add values seen)
                  <-> In x seen \/ In x values)
    /\ exists added, List.fold_left UniqueStores.Set_add values seen = seen ++ added.
Proof.
  induction values as [|value values IH]; intros seen Hnodup; cbn [List.fold_left].
  - split; [done|]. split; [cbn; tauto|]. exists []. by rewrite List.app_nil_r.
  - destruct (IH _ (Set_add_NoDup seen value Hnodup)) as (Hn & Hin & added & Hadded).
    split; [done|]. split.
    + intros x. rewrite Hin, Set_add_elem. cbn. split; intros; intuition.
    + rewrite Hadded. unfold UniqueStores.Set_add.
      destruct (List.existsb (String.eqb value) seen); [by exists added|].
      exists ([value] ++ added). by rewrite List.app_assoc.
Qed.

(** X12: the list of unique stores holds every store of every hit exactly
    once and nothing else; and when no store is repeated across the hits,
    it is the stores of the hits in their order. *)
Theorem uniqueStores_exactly_once (hits : list (list string)) :
  List.NoDup (UniqueStores.uniqueStores hits)
  /\ (forall store : string,
      In store (UniqueStores.uniqueStores hits)
      <-> exists stores, In stores hits /\ In store stores)
  /\ (List.NoDup (UniqueStores.allStores hits) ->
      UniqueStores.uniqueStores hits = UniqueStores.allStores hits).
Proof.
  unfold UniqueStores.uniqueStores.
  destruct (fold_Set_add (UniqueStores.allStores hits) [] (List.NoDup_nil _))
    as (Hnodup & Hin & _).
  split; [done|]. split.
  - intros store. rewrite Hin. unfold UniqueStores.allStores.
    rewrite List.in_concat. cbn. tauto.
  - generalize (UniqueStores.allStores hits). intros values Hvalues.
    change values with ([] ++ values) at 2.
    assert (Hgen : forall seen, List.NoDup (seen ++ values) ->
              List.fold_left UniqueStores.Set_add values seen = seen ++ values);
      [|by apply Hgen].
    clear. induction values as [|value values IH]; intros seen Hn; cbn [List.fold_left].
    + by rewrite List.app_nil_r.
    + unfold UniqueStores.Set_add at 2.
      assert (Hfresh : List.existsb (String.eqb value) seen = false).
      { destruct (List.existsb (String.eqb value) seen) eqn:Hseen; [|done].
        apply List.existsb_exists in Hseen as (y & Hy & Heq).
        apply String.eqb_eq in Heq as <-.
        apply List.NoDup_remove_2 in Hn. destruct Hn.
        apply List.in_or_app. by left. }
      rewrite Hfresh, IH; rewrite <- List.app_assoc; done.
Qed.

Lemma uniqueStores_exactly_once_witness :
  UniqueStores.uniqueStores [["Falabella"; "Ripley"]; ["Promart"]]
  = UniqueStores.allStores [["Falabella"; "Ripley"]; ["Promart"]].
Proof.
  apply (proj2 (proj2 (uniqueStores_exactly_once [["Falabella"; "Ripley"]; ["Promart"]]))).
  cbn. repeat constructor; cbn; intros H; repeat destruct H as [H | H]; discriminate || done.
Defined.

Example uniqueStores_repeated :
  UniqueStores.uniqueStores [["Falabella"; "Ripley"]; ["Ripley"; "Promart"; "Falabella"]]
  = ["Falabella"; "Ripley"; "Promart"].
Proof. reflexivity. Qed.

End Stores.

(** ** The conversion to a string *)

Section Conversion.

Lemma Json_nested_ind (P : Json -> Prop) :
  P JNull -> (forall b, P (JBool b)) -> (forall n, P (JNum n)) -> (forall s, P (JStr s)) ->
  (forall items, Forall P items -> P (JArr items)) ->
  (forall props, P (JObj props)) ->
  forall v, P v.
Proof.
  intros Hnull Hbool Hnum Hstr Harr Hobj.
  fix IH 1.
  intros [| b | n | s | items | props];
    [exact Hnull | apply Hbool | apply Hnum | apply Hstr | | apply Hobj].
  apply Harr. induction items as [|x items IHitems]; constructor; [apply IH | exact IHitems].
Qed.

Lemma Array_map_cons {A B : Type} (f : A -> Res B) (x : A) (rest : list A) :
  JS2.Array_map f (x :: rest)
  = JS2.bind (f x) (fun y =>
      JS2.bind (JS2.Array_map f rest) (fun ys => Ok (y :: ys))).
Proof. reflexivity. Qed.

Lemma Array_map_normal {A B : Type} (f : A -> Res B) (items : list A) :
  forall ys : list B,
    JS2.Array_map f items = Ok ys
    <-> Forall2 (fun x y => f x = Ok y) items ys.
Proof.
  induction items as [|x items IH]; intros ys.
  - cbn. split; [intros [= <-]; constructor | by inversion 1].
  - rewrite Array_map_cons. split.
    + destruct (f x) as [y|e] eqn:Hx; [|done]. cbn [JS2.bind].
      destruct (JS2.Array_map f items) as [ys'|e] eqn:Hrest; [|done].
      cbn [JS2.bind]. intros [= <-]. constructor; [done|]. by apply IH.
    + inversion 1 as [|? y ? ys' Hx Hrest]; subst. rewrite Hx. cbn [JS2.bind].
      apply IH in Hrest. by rewrite Hrest.
Qed.

Lemma Array_map_throws {A B : Type} (f : A -> Res B) (items : list A) :
  (exists e, JS2.Array_map f items = Throw e)
  <-> exists x, In x items /\ exists e, f x = Throw e.
Proof.
  induction items as [|x items IH].
  - cbn. split; [by intros [e ?] | by intros (x & [] & _)].
  - rewrite Array_map_cons. destruct (f x) as [y|e] eqn:Hx; cbn [JS2.bind].
    + destruct (JS2.Array_map f items) as [ys|e'] eqn:Hrest; cbn [JS2.bind].
      * split; [by intros [e ?]|]. intros (x' & [<- | Hin] & e & He); [congruence|].
        destruct (proj2 IH) as [e' He']; [eauto | done].
      * split; [|eauto]. intros _. destruct (proj1 IH) as (x' & Hin & He); [eauto|].
        exists x'. split; [by right | done].
    + split; [|eauto]. intros _. exists x. split; [by left | eauto].
Qed.

(** The conversion throws on the values that are not convertible, and
    otherwise returns the text [toString] gives. *)
Lemma ToString_convertible (v : Json) :
  JS2.ToString v
  = if JS2.convertible v then Ok (toString v)
    else Throw TypeError_to_primitive.
Proof.
  induction v as [| b | n | s | items IH | props] using Json_nested_ind;
    try reflexivity.
  - by destruct b.
  - cbn [JS2.ToString JS2.convertible toString].
    assert (Hitems :
              JS2.Array_map (fun x => match x with
                                           | JNull => Ok EmptyString
                                           | _ => JS2.ToString x
                                           end) items
              = if forallb JS2.convertible items
                then Ok (List.map (fun x => match x with
                                                    | JNull => EmptyString
                                                    | _ => toString x
                                                    end) items)
                else Throw TypeError_to_primitive).
    { induction IH as [|x items Hx _ IHitems]; [done|].
      rewrite Array_map_cons, IHitems. cbn [forallb List.map].
      destruct x; try (cbn; by destruct (forallb JS2.convertible items));
        rewrite Hx; destruct (JS2.convertible _); cbn [JS2.bind andb]; try done;
        by destruct (forallb JS2.convertible items). }
    rewrite Hitems. by destruct (forallb JS2.convertible items).
  - cbn. by destruct (JS2.has_own "toString" props).
Qed.

Lemma ToStringV_convertible (v : Value) :
  JS2.ToStringV v
  = if JS2.convertible_value v then Ok (toStringV v)
    else Throw TypeError_to_primitive.
Proof. destruct v as [j|]; [apply ToString_convertible | done]. Qed.

Lemma ToString_throws (v : Json) :
  (exists e, JS2.ToString v = Throw e) <-> JS2.convertible v = false.
Proof.
  rewrite ToString_convertible. destruct (JS2.convertible v).
  - split; [by intros [e ?] | done].
  - split; [done | eauto].
Qed.

End Conversion.

Example ToString_own_toString :
  JS2.ToString (JObj [("toString", JNum 0)]) = Throw TypeError_to_primitive
  /\ JS2.ToString (JArr [JNum 1; JArr [JObj [("toString", JNull)]]])
     = Throw TypeError_to_primitive
  /\ JS2.ToString (JArr [JNum 1; JNull; JArr [JStr "a"; JObj [("valueOf", JNum 0)]]])
     = Ok "1,,a,[object Object]".
Proof. by vm_compute. Qed.

(** ** The markdown helpers of the vector route *)

Section SpecsMarkdown.

Lemma spec_row_convertible (spec : Json) :
  VectorSearch.spec_row spec
  = if JS2.convertible_value (JS2.property spec "k")
       && JS2.convertible_value (JS2.property spec "v")
    then Ok ("| " +:+ toStringV (JS2.property spec "k") +:+ " | "
                     +:+ toStringV (JS2.property spec "v") +:+ " |" +:+ nl)
    else Throw TypeError_to_primitive.
Proof.
  unfold VectorSearch.spec_row. rewrite !ToStringV_convertible.
  by destruct (JS2.convertible_value (JS2.property spec "k")),
       (JS2.convertible_value (JS2.property spec "v")).
Qed.

Lemma specs_loop_step (spec : Json) (rest : list Json) (markdown : string) :
  spec <> JNull ->
  VectorSearch.specs_loop (spec :: rest) markdown
  = if VectorSearch.spec_complete spec
    then JS2.bind (VectorSearch.spec_row spec)
           (fun row => VectorSearch.specs_loop rest (markdown +:+ row))
    else VectorSearch.specs_loop rest markdown.
Proof. by destruct spec. Qed.

Lemma specs_loop_rows (specs : list Json) :
  forall markdown : string,
    Forall (fun spec =>
              spec <> JNull
              /\ (VectorSearch.spec_complete spec = true ->
                  JS2.convertible_value (JS2.property spec "k") = true
                  /\ JS2.convertible_value (JS2.property spec "v") = true)) specs ->
    VectorSearch.specs_loop specs markdown
    = Ok
        (markdown +:+ join EmptyString
                        (List.map (fun spec =>
                           "| " +:+ toStringV (JS2.property spec "k") +:+ " | "
                           +:+ toStringV (JS2.property spec "v") +:+ " |" +:+ nl)
                           (List.filter VectorSearch.spec_complete specs))).
Proof.
  induction specs as [|spec specs IH]; intros markdown Hgood.
  - cbn. by rewrite append_nil_r.
  - inversion Hgood as [|? ? [Hnull Hconv] Hrest]; subst.
    rewrite specs_loop_step by done. cbn [List.filter].
    destruct (VectorSearch.spec_complete spec).
    + destruct (Hconv eq_refl) as [Hk Hv].
      rewrite spec_row_convertible, Hk, Hv. cbn [andb JS2.bind List.map].
      by rewrite IH, join_empty_cons, append_assoc.
    + by apply IH.
Qed.

Lemma specs_loop_throws (specs : list Json) :
  forall markdown : string,
    (exists e, VectorSearch.specs_loop specs markdown = Throw e)
    <-> exists spec,
          In spec specs
          /\ (spec = JNull
              \/ (VectorSearch.spec_complete spec = true
                  /\ (JS2.convertible_value (JS2.property spec "k") = false
                      \/ JS2.convertible_value (JS2.property spec "v") = false))).
Proof.
  induction specs as [|spec specs IH]; intros markdown.
  - cbn. split; [by intros [e ?] | by intros (spec & [] & _)].
  - assert (Hlater : forall md,
               (exists e, VectorSearch.specs_loop specs md = Throw e) ->
               exists spec',
                 In spec' (spec :: specs)
                 /\ (spec' = JNull
                     \/ (VectorSearch.spec_complete spec' = true
                         /\ (JS2.convertible_value (JS2.property spec' "k") = false
                             \/ JS2.convertible_value (JS2.property spec' "v") = false)))).
    { intros md Hthrow. apply IH in Hthrow as (spec' & Hin & Hbad).
      exists spec'. split; [by right | done]. }
    assert (Hnull : spec = JNull \/ spec <> JNull) by (destruct spec; auto).
    destruct Hnull as [-> | Hnull].
    { split; [|cbn; eauto]. intros _. exists JNull. split; [by left | by left]. }
    rewrite specs_loop_step by done.
    destruct (VectorSearch.spec_complete spec) eqn:Hcomplete.
    + rewrite spec_row_convertible.
      destruct (JS2.convertible_value (JS2.property spec "k")) eqn:Hk;
        destruct (JS2.convertible_value (JS2.property spec "v")) eqn:Hv;
        cbn [andb JS2.bind];
        try (split; [|eauto]; intros _; exists spec; split; [by left|]; right;
             split; [done|]; auto).
      split; [apply Hlater|].
      intros (spec' & [<- | Hin] & Hbad).
      * destruct Hbad as [-> | (_ & [Hbad | Hbad])]; congruence.
      * apply IH. eauto.
    + split; [apply Hlater|].
      intros (spec' & [<- | Hin] & Hbad).
      * destruct Hbad as [-> | (Hbad & _)]; congruence.
      * apply IH. eauto.
Qed.

Lemma insert_by_index_perm (entry : string * Json) (sorted : list (string * Json)) :
  Permutation (JS2.insert_by_index entry sorted) (entry :: sorted).
Proof.
  induction sorted as [|e sorted IH]; [done|]. cbn [JS2.insert_by_index].
  destruct (N.leb (JS2.entry_index entry) (JS2.entry_index e)); [done|].
  rewrite IH. apply perm_swap.
Qed.

Lemma Object_entries_perm (props : list (string * Json)) :
  Permutation (JS2.Object_entries props) props.
Proof.
  unfold JS2.Object_entries.
  transitivity (List.filter JS2.is_index_entry props
                ++ List.filter (fun entry => negb (JS2.is_index_entry entry)) props).
  - apply Permutation_app_tail.
    induction (List.filter JS2.is_index_entry props) as [|e es IH]; [done|].
    cbn [List.fold_right]. by rewrite insert_by_index_perm, IH.
  - induction props as [|e props IH]; [done|]. cbn [List.filter].
    destruct (JS2.is_index_entry e); cbn [negb app].
    + by apply perm_skip.
    + rewrite <- Permutation_middle. by apply perm_skip.
Qed.

Lemma append_lines_map (line : string * Json -> Res string)
    (entries : list (string * Json)) :
  forall markdown : string,
    VectorSearch.append_lines line entries markdown
    = JS2.bind (JS2.Array_map line entries)
        (fun texts => Ok (markdown +:+ join EmptyString texts)).
Proof.
  induction entries as [|entry entries IH]; intros markdown.
  - cbn. by rewrite append_nil_r.
  - cbn [VectorSearch.append_lines]. rewrite Array_map_cons.
    destruct (line entry) as [text|e]; cbn [JS2.bind]; [|done].
    rewrite IH. destruct (JS2.Array_map line entries) as [texts|e]; cbn [JS2.bind];
      [|done].
    by rewrite join_empty_cons, append_assoc.
Qed.

(** The lines of the own properties of an object: the loop throws exactly
    when the value of a property is not convertible, and otherwise appends
    one line per property. *)
Lemma append_lines_entries (line : string * Json -> Res string)
    (text : string * Json -> string) (props : list (string * Json)) (markdown : string) :
  (forall entry,
      line entry = if JS2.convertible (snd entry) then Ok (text entry)
                   else Throw TypeError_to_primitive) ->
  ((exists e, VectorSearch.append_lines line (JS2.Object_entries props) markdown
              = Throw e)
   <-> exists entry, In entry props /\ JS2.convertible (snd entry) = false)
  /\ (Forall (fun entry => JS2.convertible (snd entry) = true) props ->
      exists entries,
        Permutation entries props
        /\ VectorSearch.append_lines line (JS2.Object_entries props) markdown
           = Ok (markdown +:+ join EmptyString (List.map text entries))).
Proof.
  intros Hline. rewrite append_lines_map. split.
  - transitivity (exists e, JS2.Array_map line (JS2.Object_entries props)
                            = Throw e).
    { destruct (JS2.Array_map line (JS2.Object_entries props)); cbn [JS2.bind].
      - split; by intros [e ?].
      - split; intros _; eauto. }
    rewrite Array_map_throws. split.
    + intros (entry & Hin & e & He). exists entry. split.
      * apply (Permutation_in _ (Object_entries_perm props)) in Hin. exact Hin.
      * rewrite Hline in He. by destruct (JS2.convertible (snd entry)).
    + intros (entry & Hin & Hbad). exists entry. split.
      * by apply (Permutation_in _ (Permutation_sym (Object_entries_perm props))).
      * rewrite Hline, Hbad. eauto.
  - intros Hgood. exists (JS2.Object_entries props).
    split; [apply Object_entries_perm|].
    assert (Hmap : JS2.Array_map line (JS2.Object_entries props)
                   = Ok (List.map text (JS2.Object_entries props))).
    { apply Array_map_normal.
      assert (Hentries : Forall (fun entry => JS2.convertible (snd entry) = true)
                           (JS2.Object_entries props)).
      { rewrite List.Forall_forall in *. intros entry Hin. apply Hgood.
        by apply (Permutation_in _ (Object_entries_perm props)). }
      induction Hentries as [|entry entries Hentry _ IH]; [constructor|].
      cbn [List.map]. constructor; [|exact IH]. by rewrite Hline, Hentry. }
    by rewrite Hmap.
Qed.

Lemma entry_row_convertible (entry : string * Json) :
  VectorSearch.entry_row entry
  = if JS2.convertible (snd entry)
    then Ok ("| " +:+ fst entry +:+ " | " +:+ toString (snd entry) +:+ " |" +:+ nl)
    else Throw TypeError_to_primitive.
Proof.
  unfold VectorSearch.entry_row. rewrite ToString_convertible.
  by destruct (JS2.convertible (snd entry)).
Qed.

Lemma formatSpecsAsMarkdown_falsy (specs : Value) :
  JS2.truthy_value specs = false ->
  VectorSearch.formatSpecsAsMarkdown specs = Ok EmptyString.
Proof. unfold VectorSearch.formatSpecsAsMarkdown. by intros ->. Qed.

(** X13: [formatSpecsAsMarkdown] gives the empty string, not a table, for
    specifications that are missing, [null] or not an object. For an array
    it throws exactly when some entry is [null], or has a truthy [k] and a
    truthy [v] one of which cannot be converted to a string (an object with
    an own [toString] property); otherwise the answer is the table heading
    followed by one row for each entry with a truthy [k] and a truthy [v],
    in order, every other entry being skipped (so an empty array gives the
    heading alone). For an object it throws exactly when the value of a
    property cannot be converted, and otherwise the rows are its
    properties, each once. *)
Theorem formatSpecsAsMarkdown_behaviour :
  (VectorSearch.formatSpecsAsMarkdown None = Ok EmptyString
   /\ VectorSearch.formatSpecsAsMarkdown (Some JNull) = Ok EmptyString
   /\ forall (b : bool) (n : Z) (s : string),
       VectorSearch.formatSpecsAsMarkdown (Some (JBool b)) = Ok EmptyString
       /\ VectorSearch.formatSpecsAsMarkdown (Some (JNum n)) = Ok EmptyString
       /\ VectorSearch.formatSpecsAsMarkdown (Some (JStr s)) = Ok EmptyString)
  /\ (forall specs : list Json,
      (exists e, VectorSearch.formatSpecsAsMarkdown (Some (JArr specs)) = Throw e)
      <-> exists spec,
            In spec specs
            /\ (spec = JNull
                \/ (VectorSearch.spec_complete spec = true
                    /\ (JS2.convertible_value (JS2.property spec "k") = false
                        \/ JS2.convertible_value (JS2.property spec "v") = false))))
  /\ (forall specs : list Json,
      Forall (fun spec =>
                spec <> JNull
                /\ (VectorSearch.spec_complete spec = true ->
                    JS2.convertible_value (JS2.property spec "k") = true
                    /\ JS2.convertible_value (JS2.property spec "v") = true)) specs ->
      VectorSearch.formatSpecsAsMarkdown (Some (JArr specs))
      = Ok
          (VectorSearch.specs_heading
           +:+ join EmptyString
                 (List.map (fun spec =>
                              "| " +:+ toStringV (JS2.property spec "k") +:+ " | "
                              +:+ toStringV (JS2.property spec "v") +:+ " |" +:+ nl)
                    (List.filter VectorSearch.spec_complete specs))))
  /\ (forall props : list (string * Json),
      (exists e, VectorSearch.formatSpecsAsMarkdown (Some (JObj props)) = Throw e)
      <-> exists entry, In entry props /\ JS2.convertible (snd entry) = false)
  /\ (forall props : list (string * Json),
      Forall (fun entry => JS2.convertible (snd entry) = true) props ->
      exists entries : list (string * Json),
        Permutation entries props
        /\ VectorSearch.formatSpecsAsMarkdown (Some (JObj props))
           = Ok
               (VectorSearch.specs_heading
                +:+ join EmptyString
                      (List.map (fun entry =>
                                   "| " +:+ fst entry +:+ " | " +:+ toString (snd entry)
                                   +:+ " |" +:+ nl) entries))).
Proof.
  split; [|split; [|split; [|split]]].
  - split; [done|]. split; [done|]. intros b n s.
    split; [by destruct b|]. split; [|by destruct s].
    unfold VectorSearch.formatSpecsAsMarkdown. cbn.
    by destruct (truthy_num n).
  - intros specs. apply (specs_loop_throws specs VectorSearch.specs_heading).
  - intros specs Hgood. apply (specs_loop_rows specs VectorSearch.specs_heading Hgood).
  - intros props.
    apply (proj1 (append_lines_entries VectorSearch.entry_row
                    (fun entry => "| " +:+ fst entry +:+ " | " +:+ toString (snd entry)
                                  +:+ " |" +:+ nl)
                    props VectorSearch.specs_heading entry_row_convertible)).
  - intros props.
    apply (proj2 (append_lines_entries VectorSearch.entry_row
                    (fun entry => "| " +:+ fst entry +:+ " | " +:+ toString (snd entry)
                                  +:+ " |" +:+ nl)
                    props VectorSearch.specs_heading entry_row_convertible)).
Qed.

End SpecsMarkdown.

Lemma formatSpecsAsMarkdown_behaviour_witness :
  VectorSearch.formatSpecsAsMarkdown
    (Some (JArr [JObj [("k", JStr "Color"); ("v", JStr "Negro")]; JObj [("k", JStr "Peso")];
                 JObj [("k", JStr "Puertos"); ("v", JArr [JNum 2; JNum 3])]]))
  = Ok
      (VectorSearch.specs_heading
       +:+ join EmptyString
             (List.map (fun spec =>
                          "| " +:+ toStringV (JS2.property spec "k") +:+ " | "
                          +:+ toStringV (JS2.property spec "v") +:+ " |" +:+ nl)
                (List.filter VectorSearch.spec_complete
                   [JObj [("k", JStr "Color"); ("v", JStr "Negro")];
                    JObj [("k", JStr "Peso")];
                    JObj [("k", JStr "Puertos"); ("v", JArr [JNum 2; JNum 3])]]))).
Proof.
  apply (proj1 (proj2 (proj2 formatSpecsAsMarkdown_behaviour))).
  repeat constructor; discriminate.
Defined.

(** Specifications that make the helper throw: a [null] entry, and a value
    that is an object with an own [toString] property, in an array entry
    and in an object. *)
Example formatSpecsAsMarkdown_throws :
  VectorSearch.formatSpecsAsMarkdown
    (Some (JArr [JObj [("k", JStr "Color"); ("v", JStr "Negro")]; JNull]))
  = Throw TypeError_property_of_null
  /\ VectorSearch.formatSpecsAsMarkdown
       (Some (JArr [JObj [("k", JObj [("toString", JNum 0)]); ("v", JNum 1)]]))
     = Throw TypeError_to_primitive
  /\ VectorSearch.formatSpecsAsMarkdown (Some (JObj [("a", JObj [("toString", JNum 0)])]))
     = Throw TypeError_to_primitive
  /\ VectorSearch.formatSpecsAsMarkdown (Some (JObj [("a", JObj [("b", JNum 0)])]))
     = Ok (VectorSearch.specs_heading +:+ "| a | [object Object] |" +:+ nl).
Proof. by vm_compute. Qed.

Section FeaturesMarkdown.

Lemma split_no_separator (sep : ascii) (s : string) :
  Forall (fun piece => JS2.has_char sep piece = false) (JS2.split sep s).
Proof.
  induction s as [|c s IH]; cbn [JS2.split]; [by repeat constructor|].
  destruct (Ascii.eqb c sep) eqn:Hc; [by constructor|].
  destruct (JS2.split sep s) as [|piece pieces].
  - repeat constructor. cbn. by rewrite Hc.
  - inversion IH as [|? ? Hpiece Hpieces]; subst. constructor; [|done].
    cbn. by rewrite Hc, Hpiece.
Qed.

Lemma split_not_empty (sep : ascii) (s : string) : JS2.split sep s <> [].
Proof.
  destruct s as [|c s]; [done|]. cbn [JS2.split].
  destruct (Ascii.eqb c sep); [done|]. by destruct (JS2.split sep s).
Qed.

(** The pieces of a text, joined by the separator, are the text. *)
Lemma split_join (sep : ascii) (s : string) :
  join (String sep EmptyString) (JS2.split sep s) = s.
Proof.
  induction s as [|c s IH]; [done|]. cbn [JS2.split].
  pose proof (split_not_empty sep s) as Hne.
  destruct (Ascii.eqb_spec c sep) as [-> | Hc].
  - destruct (JS2.split sep s) as [|piece pieces]; [done|].
    change (join (String sep EmptyString) (EmptyString :: piece :: pieces))
      with (String sep (join (String sep EmptyString) (piece :: pieces))).
    by rewrite IH.
  - destruct (JS2.split sep s) as [|piece [|piece' pieces]]; [done| |].
    + cbn in IH. by rewrite IH.
    + change (join (String sep EmptyString) (String c piece :: piece' :: pieces))
        with (String c (join (String sep EmptyString) (piece :: piece' :: pieces))).
      by rewrite IH.
Qed.

Lemma has_char_trimStart (c : ascii) (s : string) :
  JS2.has_char c s = false -> JS2.has_char c (JS2.trimStart s) = false.
Proof.
  induction s as [|c' s IH]; [done|]. cbn [JS2.trimStart].
  destruct (JS2.is_space c'); [|done].
  cbn [JS2.has_char]. intros H. apply orb_false_elim in H as [_ H]. by apply IH.
Qed.

Lemma has_char_trimEnd (c : ascii) (s : string) :
  JS2.has_char c s = false -> JS2.has_char c (JS2.trimEnd s) = false.
Proof.
  induction s as [|c' s IH]; [done|]. cbn [JS2.trimEnd JS2.has_char].
  intros H. apply orb_false_elim in H as [Hc H]. specialize (IH H).
  destruct (JS2.trimEnd s) as [|d rest].
  - destruct (JS2.is_space c'); [done|]. cbn. by rewrite Hc.
  - cbn [JS2.has_char] in *. by rewrite Hc, IH.
Qed.

Lemma trimEnd_cons (c : ascii) (s : string) :
  JS2.trimEnd (String c s)
  = match JS2.trimEnd s with
    | EmptyString => if JS2.is_space c then EmptyString else String c EmptyString
    | String d rest => String c (String d rest)
    end.
Proof. reflexivity. Qed.

Lemma trimEnd_idempotent (s : string) : JS2.trimEnd (JS2.trimEnd s) = JS2.trimEnd s.
Proof.
  induction s as [|c s IH]; [done|]. rewrite trimEnd_cons.
  destruct (JS2.trimEnd s) as [|d rest] eqn:Hs.
  - destruct (JS2.is_space c) eqn:Hc; [done|]. rewrite trimEnd_cons. cbn. by rewrite Hc.
  - by rewrite trimEnd_cons, IH.
Qed.

Lemma trimStart_solid (s : string) : Update.starts_solid (JS2.trimStart s).
Proof.
  induction s as [|c s IH]; [done|]. cbn [JS2.trimStart].
  by destruct (JS2.is_space c) eqn:Hc.
Qed.

Lemma trimEnd_solid (s : string) :
  Update.starts_solid s -> Update.starts_solid (JS2.trimEnd s).
Proof.
  destruct s as [|c s]; [done|]. cbn [Update.starts_solid JS2.trimEnd]. intros Hc.
  destruct (JS2.trimEnd s); [by rewrite Hc | done].
Qed.

Lemma trimStart_of_solid (s : string) : Update.starts_solid s -> JS2.trimStart s = s.
Proof. destruct s as [|c s]; [done|]. cbn. by intros ->. Qed.

Lemma trim_idempotent (s : string) : JS2.trim (JS2.trim s) = JS2.trim s.
Proof.
  unfold JS2.trim.
  rewrite (trimStart_of_solid (JS2.trimEnd (JS2.trimStart s)))
    by apply trimEnd_solid, trimStart_solid.
  apply trimEnd_idempotent.
Qed.

(** A text trims to the empty string exactly when it is white space only. *)
Lemma trim_blank (s : string) : truthy_str (JS2.trim s) = negb (JS2.all_space s).
Proof.
  induction s as [|c s IH]; [done|]. unfold JS2.trim in *.
  cbn [JS2.trimStart JS2.all_space].
  destruct (JS2.is_space c) eqn:Hc; [exact IH|].
  rewrite trimEnd_cons, Hc. by destruct (JS2.trimEnd s).
Qed.

Lemma trimStart_lead (s : string) :
  exists lead, s = lead +:+ JS2.trimStart s /\ JS2.all_space lead = true.
Proof.
  induction s as [|c s (lead & Hs & Hlead)]; [by exists EmptyString|].
  cbn [JS2.trimStart]. destruct (JS2.is_space c) eqn:Hc.
  - exists (String c lead). rewrite append_cons, <- Hs. split; [done|].
    cbn. by rewrite Hc, Hlead.
  - by exists EmptyString.
Qed.

Lemma trimEnd_trail (s : string) :
  exists trail, s = JS2.trimEnd s +:+ trail /\ JS2.all_space trail = true.
Proof.
  induction s as [|c s (trail & Hs & Htrail)]; [by exists EmptyString|].
  rewrite trimEnd_cons. destruct (JS2.trimEnd s) as [|d rest].
  - change (EmptyString +:+ trail) with trail in Hs. subst s.
    destruct (JS2.is_space c) eqn:Hc.
    + exists (String c trail). split; [done|]. cbn. by rewrite Hc, Htrail.
    + by exists trail.
  - exists trail. split; [|done]. rewrite append_cons. by rewrite <- Hs.
Qed.

(** Trimming takes white space off both ends, and nothing else. *)
Lemma trim_decomposition (s : string) :
  exists lead trail,
    s = lead +:+ JS2.trim s +:+ trail
    /\ JS2.all_space lead = true /\ JS2.all_space trail = true.
Proof.
  destruct (trimStart_lead s) as (lead & Hs & Hlead).
  destruct (trimEnd_trail (JS2.trimStart s)) as (trail & Hstart & Htrail).
  exists lead, trail. unfold JS2.trim. by rewrite <- Hstart.
Qed.

Lemma bullet_convertible (f : Json) :
  VectorSearch.bullet f
  = if JS2.convertible f then Ok ("- " +:+ toString f)
    else Throw TypeError_to_primitive.
Proof.
  unfold VectorSearch.bullet. rewrite ToString_convertible.
  by destruct (JS2.convertible f).
Qed.

Lemma feature_line_convertible (entry : string * Json) :
  VectorSearch.feature_line entry
  = if JS2.convertible (snd entry)
    then Ok ("- **" +:+ fst entry +:+ "**: " +:+ toString (snd entry) +:+ nl)
    else Throw TypeError_to_primitive.
Proof.
  unfold VectorSearch.feature_line. rewrite ToString_convertible.
  by destruct (JS2.convertible (snd entry)).
Qed.

Lemma formatFeaturesAsMarkdown_falsy (features : Value) :
  JS2.truthy_value features = false ->
  VectorSearch.formatFeaturesAsMarkdown features = Ok EmptyString.
Proof. unfold VectorSearch.formatFeaturesAsMarkdown. by intros ->. Qed.

Lemma formatFeaturesAsMarkdown_array (items : list Json) :
  ((exists e, VectorSearch.formatFeaturesAsMarkdown (Some (JArr items)) = Throw e)
   <-> exists item, In item items /\ JS2.convertible item = false)
  /\ (Forall (fun item => JS2.convertible item = true) items ->
      VectorSearch.formatFeaturesAsMarkdown (Some (JArr items))
      = Ok
          (VectorSearch.features_heading
           +:+ join nl (List.map (fun item => "- " +:+ toString item) items))).
Proof.
  change (VectorSearch.formatFeaturesAsMarkdown (Some (JArr items)))
    with (JS2.bind (JS2.Array_map VectorSearch.bullet items) (fun bullets =>
          Ok (VectorSearch.features_heading +:+ join nl bullets))).
  split.
  - transitivity (exists e, JS2.Array_map VectorSearch.bullet items = Throw e).
    { destruct (JS2.Array_map VectorSearch.bullet items); cbn [JS2.bind].
      - split; by intros [e ?].
      - split; intros _; eauto. }
    rewrite Array_map_throws. split.
    + intros (item & Hin & e & He). exists item. split; [done|].
      rewrite bullet_convertible in He. by destruct (JS2.convertible item).
    + intros (item & Hin & Hbad). exists item. split; [done|].
      rewrite bullet_convertible, Hbad. eauto.
  - intros Hgood.
    assert (Hmap : JS2.Array_map VectorSearch.bullet items
                   = Ok (List.map (fun item => "- " +:+ toString item) items)).
    { apply Array_map_normal.
      induction Hgood as [|item items Hitem _ IH]; [constructor|].
      cbn [List.map]. constructor; [|exact IH]. by rewrite bullet_convertible, Hitem. }
    by rewrite Hmap.
Qed.

(** X14: [formatFeaturesAsMarkdown] gives the empty string for features
    that are missing or falsy. For a text it gives the heading followed by
    one bullet for each piece of the text between full stops that is not
    white space only, in the order of the pieces, the bullet holding the
    piece without the white space at its two ends. For an array it gives
    one bullet per element, and for an object one line per property, each
    once; it throws exactly when an element, or the value of a property,
    cannot be converted to a string. *)
Theorem formatFeaturesAsMarkdown_behaviour :
  (VectorSearch.formatFeaturesAsMarkdown None = Ok EmptyString
   /\ VectorSearch.formatFeaturesAsMarkdown (Some JNull) = Ok EmptyString
   /\ VectorSearch.formatFeaturesAsMarkdown (Some (JStr EmptyString)) = Ok EmptyString
   /\ VectorSearch.formatFeaturesAsMarkdown (Some (JNum 0)) = Ok EmptyString
   /\ VectorSearch.formatFeaturesAsMarkdown (Some (JBool false)) = Ok EmptyString)
  /\ (forall text : string,
      text <> EmptyString ->
      let pieces := JS2.split "." text in
      join "." pieces = text
      /\ Forall (fun piece => JS2.has_char "." piece = false) pieces
      /\ VectorSearch.formatFeaturesAsMarkdown (Some (JStr text))
         = Ok
             (VectorSearch.features_heading
              +:+ join nl (List.map (fun piece => "- " +:+ JS2.trim piece)
                             (List.filter (fun piece => negb (JS2.all_space piece)) pieces)))
      /\ Forall (fun piece =>
                   exists lead trail,
                     piece = lead +:+ JS2.trim piece +:+ trail
                     /\ JS2.all_space lead = true /\ JS2.all_space trail = true
                     /\ JS2.trim (JS2.trim piece) = JS2.trim piece) pieces)
  /\ (forall items : list Json,
      ((exists e, VectorSearch.formatFeaturesAsMarkdown (Some (JArr items)) = Throw e)
       <-> exists item, In item items /\ JS2.convertible item = false)
      /\ (Forall (fun item => JS2.convertible item = true) items ->
          VectorSearch.formatFeaturesAsMarkdown (Some (JArr items))
          = Ok
              (VectorSearch.features_heading
               +:+ join nl (List.map (fun item => "- " +:+ toString item) items))))
  /\ (forall props : list (string * Json),
      ((exists e, VectorSearch.formatFeaturesAsMarkdown (Some (JObj props)) = Throw e)
       <-> exists entry, In entry props /\ JS2.convertible (snd entry) = false)
      /\ (Forall (fun entry => JS2.convertible (snd entry) = true) props ->
          exists entries : list (string * Json),
            Permutation entries props
            /\ VectorSearch.formatFeaturesAsMarkdown (Some (JObj props))
               = Ok
                   (VectorSearch.features_heading
                    +:+ join EmptyString
                          (List.map (fun entry =>
                                       "- **" +:+ fst entry +:+ "**: "
                                       +:+ toString (snd entry) +:+ nl) entries)))).
Proof.
  split; [by repeat split|]. split; [|split].
  - intros text Htext pieces. subst pieces.
    split; [apply (split_join "." text)|]. split; [apply split_no_separator|]. split.
    + destruct text as [|c text]; [done|].
      unfold VectorSearch.formatFeaturesAsMarkdown.
      cbn [JS2.truthy_value JS2.truthy truthy_str negb]. do 4 f_equal.
      apply List.filter_ext. intros piece. apply trim_blank.
    + apply List.Forall_forall. intros piece _.
      destruct (trim_decomposition piece) as (lead & trail & Hpiece & Hlead & Htrail).
      exists lead, trail. by rewrite trim_idempotent.
  - apply formatFeaturesAsMarkdown_array.
  - intros props.
    apply (append_lines_entries VectorSearch.feature_line
             (fun entry => "- **" +:+ fst entry +:+ "**: " +:+ toString (snd entry) +:+ nl)
             props VectorSearch.features_heading feature_line_convertible).
Qed.

Lemma formatFeaturesAsMarkdown_behaviour_witness :
  join "." (JS2.split "." "Pantalla 4K. Smart TV. ") = "Pantalla 4K. Smart TV. "
  /\ Forall (fun piece => JS2.has_char "." piece = false)
            (JS2.split "." "Pantalla 4K. Smart TV. ")
  /\ VectorSearch.formatFeaturesAsMarkdown (Some (JStr "Pantalla 4K. Smart TV. "))
     = Ok
         (VectorSearch.features_heading
          +:+ join nl (List.map (fun piece => "- " +:+ JS2.trim piece)
                         (List.filter (fun piece => negb (JS2.all_space piece))
                            (JS2.split "." "Pantalla 4K. Smart TV. "))))
  /\ Forall (fun piece =>
               exists lead trail,
                 piece = lead +:+ JS2.trim piece +:+ trail
                 /\ JS2.all_space lead = true /\ JS2.all_space trail = true
                 /\ JS2.trim (JS2.trim piece) = JS2.trim piece)
            (JS2.split "." "Pantalla 4K. Smart TV. ").
Proof.
  apply (proj1 (proj2 formatFeaturesAsMarkdown_behaviour) "Pantalla 4K. Smart TV. ").
  discriminate.
Defined.

End FeaturesMarkdown.

(** The three pieces of a text with two full stops give two bullets, the
    blank piece after the last full stop none; an array gives one bullet
    per element. *)
Example formatFeaturesAsMarkdown_bullets :
  JS2.split "." "Pantalla 4K. Smart TV. " = ["Pantalla 4K"; " Smart TV"; " "]
  /\ VectorSearch.formatFeaturesAsMarkdown (Some (JStr "Pantalla 4K. Smart TV. "))
     = Ok (VectorSearch.features_heading +:+ "- Pantalla 4K" +:+ nl +:+ "- Smart TV")
  /\ VectorSearch.formatFeaturesAsMarkdown (Some (JArr [JStr "HDR"; JNull; JNum 4]))
     = Ok (VectorSearch.features_heading
                   +:+ "- HDR" +:+ nl +:+ "- null" +:+ nl +:+ "- 4")
  /\ VectorSearch.formatFeaturesAsMarkdown
       (Some (JArr [JStr "HDR"; JObj [("toString", JStr "x")]]))
     = Throw TypeError_to_primitive.
Proof. by vm_compute. Qed.

(** ** The tool of the vector route *)

Section VectorTool.

Lemma push_formatted_throws (format : Value -> Res string) (value : Value) :
  (JS2.truthy_value value = false -> format value = Ok EmptyString) ->
  (exists e, VectorSearch.push_formatted format value = Throw e)
  <-> exists e, format value = Throw e.
Proof.
  intros Hfalsy. unfold VectorSearch.push_formatted.
  destruct (JS2.truthy_value value).
  - destruct (format value); cbn [JS2.bind]; [|split; intros _; eauto].
    split; by intros [e ?].
  - rewrite Hfalsy by done. split; by intros [e ?].
Qed.

Lemma push_formatted_normal (format : Value -> Res string) (value : Value)
    (pushed : list string) :
  (JS2.truthy_value value = false -> format value = Ok EmptyString) ->
  VectorSearch.push_formatted format value = Ok pushed ->
  format value = Ok (join (nl +:+ nl) pushed).
Proof.
  intros Hfalsy. unfold VectorSearch.push_formatted.
  destruct (JS2.truthy_value value).
  - destruct (format value); cbn [JS2.bind]; [|done]. by intros [= <-].
  - rewrite Hfalsy by done. by intros [= <-].
Qed.

Lemma product_of_match_throws (m : VectorSearch.Match) :
  let field := JS2.optional_property (VectorSearch.metadata m) in
  (exists e, VectorSearch.product_of_match m = Throw e)
  <-> (exists e, VectorSearch.formatSpecsAsMarkdown (field "specifications") = Throw e)
      \/ (exists e, VectorSearch.formatFeaturesAsMarkdown (field "features") = Throw e)
      \/ exists name,
           In name ["category_level1"; "category_level2"; "category_level3"; "product_url"]
           /\ JS2.convertible_value (field name) = false.
Proof.
  cbv zeta. unfold VectorSearch.product_of_match.
  rewrite <- (push_formatted_throws VectorSearch.formatSpecsAsMarkdown _
                (formatSpecsAsMarkdown_falsy _)).
  rewrite <- (push_formatted_throws VectorSearch.formatFeaturesAsMarkdown _
                (formatFeaturesAsMarkdown_falsy _)).
  destruct (VectorSearch.push_formatted VectorSearch.formatSpecsAsMarkdown _)
    as [specs|e1]; cbn [JS2.bind]; [|split; [intros _; left; eauto | eauto]].
  destruct (VectorSearch.push_formatted VectorSearch.formatFeaturesAsMarkdown _)
    as [features|e2]; cbn [JS2.bind]; [|split; [intros _; right; left; eauto | eauto]].
  rewrite !ToStringV_convertible.
  destruct (JS2.convertible_value
              (JS2.optional_property (VectorSearch.metadata m) "category_level1")) eqn:H1;
    cbn [JS2.bind];
    [|split; [intros _; right; right; exists "category_level1"; cbn; tauto | eauto]].
  destruct (JS2.convertible_value
              (JS2.optional_property (VectorSearch.metadata m) "category_level2")) eqn:H2;
    cbn [JS2.bind];
    [|split; [intros _; right; right; exists "category_level2"; cbn; tauto | eauto]].
  destruct (JS2.convertible_value
              (JS2.optional_property (VectorSearch.metadata m) "category_level3")) eqn:H3;
    cbn [JS2.bind];
    [|split; [intros _; right; right; exists "category_level3"; cbn; tauto | eauto]].
  destruct (JS2.convertible_value
              (JS2.optional_property (VectorSearch.metadata m) "product_url")) eqn:H4;
    cbn [JS2.bind];
    [|split; [intros _; right; right; exists "product_url"; cbn; tauto | eauto]].
  split; [by intros [e ?]|].
  intros [[e ?] | [[e ?] | (name & Hin & Hbad)]]; try done.
  cbn in Hin. destruct Hin as [<- | [<- | [<- | [<- | []]]]]; congruence.
Qed.

Lemma product_of_match_fields (m : VectorSearch.Match) (p : VectorSearch.Product) :
  VectorSearch.product_of_match m = Ok p ->
  let field := JS2.optional_property (VectorSearch.metadata m) in
  VectorSearch.p_id p = VectorSearch.id m
  /\ (VectorSearch.p_title p = field "title"
      /\ VectorSearch.p_brand p = field "brand"
      /\ VectorSearch.p_model p = field "model"
      /\ VectorSearch.p_price p = field "price"
      /\ VectorSearch.p_product_url p = field "product_url"
      /\ VectorSearch.p_image_url p = field "image_url")
  /\ (VectorSearch.p_color p = field "color"
      /\ VectorSearch.p_capacity p = field "capacity"
      /\ VectorSearch.p_memory p = field "memory"
      /\ VectorSearch.p_screen_size p = field "screen_size"
      /\ VectorSearch.p_weight p = field "weight"
      /\ VectorSearch.p_power p = field "power")
  /\ VectorSearch.p_category p
     = toStringV (field "category_level1") +:+ " > "
       +:+ toStringV (field "category_level2") +:+ " > "
       +:+ toStringV (field "category_level3")
  /\ VectorSearch.p_view_product_link p
     = "[View Product](" +:+ toStringV (field "product_url") +:+ ")"
  /\ VectorSearch.formatSpecsAsMarkdown (field "specifications")
     = Ok (VectorSearch.p_specifications_markdown p)
  /\ VectorSearch.formatFeaturesAsMarkdown (field "features")
     = Ok (VectorSearch.p_features_markdown p).
Proof.
  cbv zeta. unfold VectorSearch.product_of_match.
  destruct (VectorSearch.push_formatted VectorSearch.formatSpecsAsMarkdown _)
    as [specs|e1] eqn:Hspecs; cbn [JS2.bind]; [|done].
  destruct (VectorSearch.push_formatted VectorSearch.formatFeaturesAsMarkdown _)
    as [features|e2] eqn:Hfeatures; cbn [JS2.bind]; [|done].
  rewrite !ToStringV_convertible.
  destruct (JS2.convertible_value _); cbn [JS2.bind]; [|done].
  destruct (JS2.convertible_value _); cbn [JS2.bind]; [|done].
  destruct (JS2.convertible_value _); cbn [JS2.bind]; [|done].
  destruct (JS2.convertible_value _); cbn [JS2.bind]; [|done].
  intros [= <-].
  apply push_formatted_normal in Hspecs; [|apply formatSpecsAsMarkdown_falsy].
  apply push_formatted_normal in Hfeatures; [|apply formatFeaturesAsMarkdown_falsy].
  by repeat split.
Qed.

End VectorTool.

Section VectorExecute.

Variable vectorIndex_query : VectorSearch.IndexQuery -> VectorSearch.IndexAnswer.

(** X15: the tool of the vector route asks the index for the five nearest
    matches of the query under the translated filter. When it returns, the
    index has answered, the result lists one product per match, in the
    order of the matches, [total] is the number of matches, and [query] is
    the query as given; each product has the id of its match, the fields of
    its metadata, the three category levels joined by [ > ], the link to
    the product, and the two markdown texts the helpers give for its
    specifications and features. A match without metadata becomes a product
    whose fields are undefined. The tool throws exactly when the query to
    the index is rejected, or, for some match, a helper throws or a
    category level or the address of the product cannot be converted to a
    string. *)
Theorem vector_execute_result (args : VectorRoute.Args) :
  let index_query :=
    {| VectorSearch.data := VectorRoute.query args;
       VectorSearch.topK := 5;
       VectorSearch.filter := VectorRoute.filterString args;
       VectorSearch.includeMetadata := true |} in
  let outcome := VectorSearch.execute vectorIndex_query args in
  fst outcome = index_query
  /\ (forall result : VectorSearch.ToolResult,
      snd outcome = Ok result ->
      exists results : list VectorSearch.Match,
        vectorIndex_query index_query = VectorSearch.Matches results
        /\ VectorSearch.total result = List.length results
        /\ VectorSearch.query result = VectorRoute.query args
        /\ Forall2
             (fun m p =>
                let field := JS2.optional_property (VectorSearch.metadata m) in
                VectorSearch.p_id p = VectorSearch.id m
                /\ (VectorSearch.p_title p = field "title"
                    /\ VectorSearch.p_brand p = field "brand"
                    /\ VectorSearch.p_model p = field "model"
                    /\ VectorSearch.p_price p = field "price"
                    /\ VectorSearch.p_product_url p = field "product_url"
                    /\ VectorSearch.p_image_url p = field "image_url")
                /\ (VectorSearch.p_color p = field "color"
                    /\ VectorSearch.p_capacity p = field "capacity"
                    /\ VectorSearch.p_memory p = field "memory"
                    /\ VectorSearch.p_screen_size p = field "screen_size"
                    /\ VectorSearch.p_weight p = field "weight"
                    /\ VectorSearch.p_power p = field "power")
                /\ VectorSearch.p_category p
                   = toStringV (field "category_level1") +:+ " > "
                     +:+ toStringV (field "category_level2") +:+ " > "
                     +:+ toStringV (field "category_level3")
                /\ VectorSearch.p_view_product_link p
                   = "[View Product](" +:+ toStringV (field "product_url") +:+ ")"
                /\ VectorSearch.formatSpecsAsMarkdown (field "specifications")
                   = Ok (VectorSearch.p_specifications_markdown p)
                /\ VectorSearch.formatFeaturesAsMarkdown (field "features")
                   = Ok (VectorSearch.p_features_markdown p))
             results (VectorSearch.products result))
  /\ ((exists e, snd outcome = Throw e)
      <-> vectorIndex_query index_query = VectorSearch.Query_rejected
          \/ exists (results : list VectorSearch.Match) (m : VectorSearch.Match),
               vectorIndex_query index_query = VectorSearch.Matches results
               /\ In m results
               /\ let field := JS2.optional_property (VectorSearch.metadata m) in
                  (exists e, VectorSearch.formatSpecsAsMarkdown (field "specifications")
                             = Throw e)
                  \/ (exists e, VectorSearch.formatFeaturesAsMarkdown (field "features")
                                = Throw e)
                  \/ exists name,
                       In name ["category_level1"; "category_level2"; "category_level3";
                                "product_url"]
                       /\ JS2.convertible_value (field name) = false)
  /\ (vectorIndex_query index_query = VectorSearch.Query_rejected ->
      snd outcome = Throw Rejected_promise)
  /\ (forall m : VectorSearch.Match,
      VectorSearch.metadata m = None ->
      VectorSearch.product_of_match m
      = Ok
          {| VectorSearch.p_id := VectorSearch.id m;
             VectorSearch.p_title := None;
             VectorSearch.p_brand := None;
             VectorSearch.p_model := None;
             VectorSearch.p_price := None;
             VectorSearch.p_category := "undefined > undefined > undefined";
             VectorSearch.p_product_url := None;
             VectorSearch.p_image_url := None;
             VectorSearch.p_color := None;
             VectorSearch.p_capacity := None;
             VectorSearch.p_memory := None;
             VectorSearch.p_screen_size := None;
             VectorSearch.p_weight := None;
             VectorSearch.p_power := None;
             VectorSearch.p_features_markdown := EmptyString;
             VectorSearch.p_specifications_markdown := EmptyString;
             VectorSearch.p_view_product_link := "[View Product](undefined)" |}).
Proof.
  cbv zeta. unfold VectorSearch.execute. cbn [fst snd].
  destruct (vectorIndex_query _) as [|results] eqn:Hanswer.
  { split; [done|]. split; [done|]. split; [|split; [done|]].
    - split; [by left | eauto].
    - intros m Hmeta. unfold VectorSearch.product_of_match. by rewrite Hmeta. }
  split; [done|]. split; [|split; [|split; [done|]]].
  - intros result Hresult. exists results. split; [done|].
    destruct (Nat.eqb (List.length results) 0) eqn:Hempty.
    + apply Nat.eqb_eq, List.length_zero_iff_nil in Hempty. subst results.
      injection Hresult as <-. cbn. repeat split. constructor.
    + destruct (JS2.Array_map VectorSearch.product_of_match results)
        as [products|e] eqn:Hmap; cbn [JS2.bind] in Hresult; [|done].
      injection Hresult as <-.
      cbn [VectorSearch.total VectorSearch.products VectorSearch.query].
      split; [done|]. split; [done|].
      apply Array_map_normal in Hmap.
      eapply Forall2_impl; [exact Hmap|]. intros m' p Hp.
      apply (product_of_match_fields m' p Hp).
  - destruct (Nat.eqb (List.length results) 0) eqn:Hempty.
    + apply Nat.eqb_eq, List.length_zero_iff_nil in Hempty. subst results.
      split; [by intros [e ?]|].
      intros [? | (results'' & m & [= <-] & [] & _)]. done.
    + transitivity (exists e, JS2.Array_map VectorSearch.product_of_match results
                              = Throw e).
      { destruct (JS2.Array_map VectorSearch.product_of_match results);
          cbn [JS2.bind]; [split; by intros [e ?] | split; intros _; eauto]. }
      rewrite Array_map_throws. split.
      * intros (m' & Hin & Hthrow). right. exists results, m'.
        split; [done|]. split; [done|]. by apply product_of_match_throws.
      * intros [? | (results'' & m' & [= <-] & Hin & Hthrow)]; [done|].
        exists m'. split; [done|]. by apply product_of_match_throws.
  - intros m Hmeta. unfold VectorSearch.product_of_match. by rewrite Hmeta.
Qed.

End VectorExecute.

Lemma vector_execute_result_witness :
  exists result : VectorSearch.ToolResult,
    snd (VectorSearch.execute Update.two_matches_index Update.vector_args) = Ok result
    /\ List.map VectorSearch.p_id (VectorSearch.products result) = ["tv-55"; "bare"]
    /\ exists results : list VectorSearch.Match,
        Update.two_matches_index
          {| VectorSearch.data := "televisor";
             VectorSearch.topK := 5;
             VectorSearch.filter := VectorRoute.filterString Update.vector_args;
             VectorSearch.includeMetadata := true |}
        = VectorSearch.Matches results
        /\ VectorSearch.total result = List.length results
        /\ VectorSearch.query result = "televisor"
        /\ Forall2
             (fun m p =>
                let field := JS2.optional_property (VectorSearch.metadata m) in
                VectorSearch.p_id p = VectorSearch.id m
                /\ (VectorSearch.p_title p = field "title"
                    /\ VectorSearch.p_brand p = field "brand"
                    /\ VectorSearch.p_model p = field "model"
                    /\ VectorSearch.p_price p = field "price"
                    /\ VectorSearch.p_product_url p = field "product_url"
                    /\ VectorSearch.p_image_url p = field "image_url")
                /\ (VectorSearch.p_color p = field "color"
                    /\ VectorSearch.p_capacity p = field "capacity"
                    /\ VectorSearch.p_memory p = field "memory"
                    /\ VectorSearch.p_screen_size p = field "screen_size"
                    /\ VectorSearch.p_weight p = field "weight"
                    /\ VectorSearch.p_power p = field "power")
                /\ VectorSearch.p_category p
                   = toStringV (field "category_level1") +:+ " > "
                     +:+ toStringV (field "category_level2") +:+ " > "
                     +:+ toStringV (field "category_level3")
                /\ VectorSearch.p_view_product_link p
                   = "[View Product](" +:+ toStringV (field "product_url") +:+ ")"
                /\ VectorSearch.formatSpecsAsMarkdown (field "specifications")
                   = Ok (VectorSearch.p_specifications_markdown p)
                /\ VectorSearch.formatFeaturesAsMarkdown (field "features")
                   = Ok (VectorSearch.p_features_markdown p))
             results (VectorSearch.products result).
Proof.
  eexists. split; [vm_compute; reflexivity|]. split; [reflexivity|].
  apply (proj1 (proj2 (vector_execute_result Update.two_matches_index Update.vector_args))).
  vm_compute. reflexivity.
Defined.

(** The tool on two matches, one of them without metadata. *)
Example vector_execute_two_matches :
  let outcome := VectorSearch.execute Update.two_matches_index Update.vector_args in
  VectorSearch.filter (fst outcome) = Some "brand = 'LG' AND price <= 2000"
  /\ match snd outcome with
     | Ok result =>
         VectorSearch.total result = 2%nat
         /\ List.map VectorSearch.p_specifications_markdown (VectorSearch.products result)
            = [VectorSearch.specs_heading +:+ "| Color | Negro |" +:+ nl; EmptyString]
         /\ List.map VectorSearch.p_features_markdown (VectorSearch.products result)
            = [VectorSearch.features_heading +:+ "- Pantalla 4K" +:+ nl +:+ "- Smart TV";
               EmptyString]
         /\ List.map VectorSearch.p_category (VectorSearch.products result)
            = ["undefined > undefined > undefined"; "undefined > undefined > undefined"]
     | Throw _ => False
     end.
Proof. by vm_compute. Qed.

(** The tool throws on a [null] among the specifications of a match, on a
    category level that is an object with an own [toString] property, and
    when the index rejects the query. *)
Example vector_execute_throws :
  snd (VectorSearch.execute
         (fun _ => VectorSearch.Matches [Update.tv_match; Update.broken_match])
         Update.vector_args)
  = Throw TypeError_property_of_null
  /\ snd (VectorSearch.execute
            (fun _ => VectorSearch.Matches [Update.tv_match; Update.unprintable_match])
            Update.vector_args)
     = Throw TypeError_to_primitive
  /\ snd (VectorSearch.execute Update.failing_index Update.vector_args)
     = Throw Rejected_promise.
Proof. by vm_compute. Qed.

(** ** The call of [compressProductData] *)

Section CompressionCall.

Lemma Array_map_cases {A B : Type} (f : A -> Res B) (good : A -> bool) (g : A -> B)
    (e : JsError) (items : list A) :
  (forall x, f x = if good x then Ok (g x) else Throw e) ->
  JS2.Array_map f items
  = if forallb good items then Ok (List.map g items) else Throw e.
Proof.
  intros Hf. induction items as [|x items IH]; [done|].
  rewrite Array_map_cons, Hf, IH. cbn [forallb List.map].
  destruct (good x); cbn [JS2.bind andb]; [|done].
  by destruct (forallb good items).
Qed.

Lemma render_feature_call (doc : Document) (key : string) :
  CompressCall.render_feature doc key
  = if JS2.convertible_value (doc_get doc key) then Ok (render_feature doc key)
    else Throw TypeError_to_primitive.
Proof.
  unfold CompressCall.render_feature. rewrite ToStringV_convertible.
  by destruct (JS2.convertible_value (doc_get doc key)).
Qed.

Lemma product_of_hit_call (hit : Hit) :
  CompressCall.product_of_hit hit
  = if forallb (fun key => JS2.convertible_value (doc_get (document hit) key))
         (List.filter (is_feature (document hit)) (Object_keys (document hit)))
    then Ok (product_of_hit hit)
    else Throw TypeError_to_primitive.
Proof.
  unfold CompressCall.product_of_hit, CompressCall.features. cbv zeta.
  rewrite (Array_map_cases _ _ _ _ _ (render_feature_call (document hit))).
  by destruct (forallb _ _).
Qed.

Lemma compressProductData_call (data : ProductSearchResults) :
  CompressCall.compressProductData data
  = if forallb
         (fun hit =>
            forallb (fun key => JS2.convertible_value (doc_get (document hit) key))
              (List.filter (is_feature (document hit)) (Object_keys (document hit))))
         (hits data)
    then Ok (compressProductData data)
    else Throw TypeError_to_primitive.
Proof.
  unfold CompressCall.compressProductData.
  rewrite (Array_map_cases _ _ _ _ _ product_of_hit_call).
  by destruct (forallb _ _).
Qed.

Lemma declared_convertible (doc : Document) :
  Forall (fun entry => JS2.convertible (snd entry) = true) (declared_props doc).
Proof.
  assert (Hstrings : forall l, JS2.convertible (strings_json l) = true).
  { intros l. cbn. induction l as [|x l IH]; [done | exact IH]. }
  unfold declared_props, opt_prop.
  repeat (apply Forall_app; split); repeat constructor;
    repeat match goal with
           | |- context [match ?o with Some _ => _ | None => _ end] => destruct o
           end;
    repeat constructor; apply Hstrings.
Qed.

Lemma assoc_Forall {A : Type} (P : A -> Prop) (name : string) (pairs : list (string * A))
    (a : A) :
  Forall (fun entry => P (snd entry)) pairs -> assoc name pairs = Some a -> P a.
Proof.
  induction 1 as [|[k v] pairs Hv _ IH]; [done|]. cbn [assoc].
  destruct (String.eqb k name); [by intros [= <-] | exact IH].
Qed.

Lemma forallb_false {A : Type} (f : A -> bool) (l : list A) :
  forallb f l = false -> exists x, In x l /\ f x = false.
Proof.
  induction l as [|x l IH]; [done|]. cbn [forallb].
  destruct (f x) eqn:Hx; cbn [andb].
  - intros Hl. destruct (IH Hl) as (y & Hy & Hfy). exists y. split; [by right | done].
  - intros _. exists x. split; [by left | done].
Qed.

(** X16: the call of [compressProductData] throws exactly when some hit has
    a printed feature (a key that starts with [f.] and a value other than
    the text [NO ESPECIFICA]) whose value cannot be converted to a string,
    an object with an own [toString] property; the exception is then the
    [TypeError] of the conversion. In every other case, and so whenever the
    attributes of the hits hold no such object, it returns the table. *)
Theorem compressProductData_call_outcome (data : ProductSearchResults) :
  ((exists e, CompressCall.compressProductData data = Throw e)
   <-> exists (hit : Hit) (key : string),
         In hit (hits data)
         /\ In key (Object_keys (document hit))
         /\ is_feature (document hit) key = true
         /\ JS2.convertible_value (doc_get (document hit) key) = false)
  /\ (forall e, CompressCall.compressProductData data = Throw e -> e = TypeError_to_primitive)
  /\ (forall out, CompressCall.compressProductData data = Ok out ->
                  out = compressProductData data)
  /\ (Forall (fun hit => Forall (fun entry => JS2.convertible (snd entry) = true)
                           (attrs (document hit))) (hits data) ->
      CompressCall.compressProductData data = Ok (compressProductData data)).
Proof.
  rewrite compressProductData_call.
  destruct (forallb _ (hits data)) eqn:Hall.
  - split; [|split; [done | split; [by intros out [= <-] | done]]].
    split; [by intros [e ?]|]. intros (hit & key & Hhit & Hkey & Hfeature & Hbad).
    rewrite forallb_forall in Hall. specialize (Hall hit Hhit).
    rewrite forallb_forall in Hall. rewrite Hall in Hbad; [done|].
    apply List.filter_In. by split.
  - assert (Hsome : exists (hit : Hit) (key : string),
               In hit (hits data)
               /\ In key (Object_keys (document hit))
               /\ is_feature (document hit) key = true
               /\ JS2.convertible_value (doc_get (document hit) key) = false).
    { apply forallb_false in Hall as (hit & Hhit & Hbad).
      apply forallb_false in Hbad as (key & Hkey & Hbad).
      apply List.filter_In in Hkey as [Hkey Hfeature]. by exists hit, key. }
    split; [split; [done | eauto]|]. split; [by intros e [= <-]|]. split; [done|].
    intros Hgood. destruct Hsome as (hit & key & Hhit & Hkey & Hfeature & Hbad).
    rewrite List.Forall_forall in Hgood. specialize (Hgood hit Hhit).
    unfold doc_get in Hbad.
    destruct (assoc key (document_props (document hit))) as [value|] eqn:Hvalue; [|done].
    cbn in Hbad.
    assert (JS2.convertible value = true); [|congruence].
    apply (assoc_Forall (fun v => JS2.convertible v = true) key
             (document_props (document hit))); [|done].
    unfold document_props. apply Forall_app. split; [apply declared_convertible | done].
Qed.

Lemma compressProductData_call_outcome_witness :
  CompressCall.compressProductData Samples.one_hit = Ok (compressProductData Samples.one_hit).
Proof.
  apply (proj2 (proj2 (proj2 (compressProductData_call_outcome Samples.one_hit)))).
  repeat constructor.
Defined.

End CompressionCall.

(** A hit with a feature that is an object with an own [toString] property
    makes the call throw. *)
Example compressProductData_call_throws :
  CompressCall.compressProductData Update.odd_feature_hit = Throw TypeError_to_primitive.
Proof. by vm_compute. Qed.
